(** * Flowcode batch generation: a shallow embedding of
      [flowcode-generation-func.py] and the properties of its five stages.

    The script validates its inputs, creates one remote campaign per distinct
    campaign value, builds the URL requests of every campaign, submits them,
    and downloads the generated images.  The remote service, the file system
    and the caller's table are made explicit as a world that every effectful
    stage threads through; exceptions are results. *)

From Stdlib Require Import ZArith Ascii List Bool Lia Permutation DecimalString.
From Stdlib Require String.
From stdpp Require Import base gmap strings.
Import ListNotations.

Set Warnings "-register-all,-notation-for-abbreviation".
Local Open Scope Z_scope.

(** ** Python values *)

(** The objects found in a table cell, in [campaigns] and in [client_id]:
    a [str], an [int], or the missing value [nan]. *)
Inductive value : Type :=
| VStr (s : string)
| VInt (z : Z)
| VNaN.

(** JSON-like objects: payloads, smart rules and response bodies. *)
Inductive json : Type :=
| JVal (v : value)
| JBool (b : bool)
| JNull
| JList (l : list json)
| JDict (d : list (string * json)).

(** [a == b] on cells: [nan] is equal to nothing, itself included. *)
Definition py_eq (a b : value) : bool :=
  match a, b with
  | VStr x, VStr y => String.eqb x y
  | VInt x, VInt y => Z.eqb x y
  | _, _ => false
  end.

(** The key comparison of the hash table behind [Series.unique()], which
    keeps one [nan]. *)
Definition same_key (a b : value) : bool :=
  match a, b with
  | VNaN, VNaN => true
  | _, _ => py_eq a b
  end.

Definition is_nan (a : value) : bool :=
  match a with VNaN => true | _ => false end.

(** [f"{v}"] *)
Definition py_str (v : value) : string :=
  match v with
  | VStr s => s
  | VInt z => NilZero.string_of_int (Z.to_int z)
  | VNaN => "nan"
  end.

(** [f"{type(v)}"] *)
Definition py_type (v : value) : string :=
  match v with
  | VStr _ => "<class 'str'>"
  | VInt _ => "<class 'int'>"
  | VNaN => "<class 'float'>"
  end.

Definition nl : string := String (ascii_of_nat 10) EmptyString.

(** ** Exceptions and results *)

Record response : Type := {
  status_code : Z;
  text : string;          (* response.text *)
  content : string;       (* response.content, the raw bytes *)
  json_body : option json (* response.json(); None when the body is no JSON *)
}.

Inductive exn : Type :=
| Exception (msg : string)
| HTTPError (r : response)
| RequestException (msg : string)
| UnboundLocalError (var : string)
| KeyError (key : string)
| IndexError
| TypeError
| AttributeError (msg : string)
| ValueError (msg : string)
| JSONDecodeError
| FileExistsError (path : string)
| FileNotFoundError (path : string)
| IsADirectoryError (path : string)
| NotADirectoryError (path : string)
| NotModelled (what : string).

Inductive result (A : Type) : Type :=
| Ok (a : A)
| Raise (e : exn).
Arguments Ok {A} a.
Arguments Raise {A} e.

Definition rbind {A B} (r : result A) (k : A -> result B) : result B :=
  match r with
  | Ok a => k a
  | Raise e => Raise e
  end.

Notation "'let*' x ':=' c1 'in' c2" := (rbind c1 (fun x => c2))
  (at level 10, x name, c1 at level 100, c2 at level 200).

(** ** Regular expressions with counted character classes *)

Module Re.

(** A class is a union of inclusive ranges, as in [[a-z0-9]]. *)
Definition class := list (ascii * ascii).

Inductive token : Type :=
| Rep (c : class) (n : nat)   (* [..]{n} *)
| Lit (a : ascii).

Definition in_class (c : class) (a : ascii) : bool :=
  existsb (fun r => Nat.leb (nat_of_ascii (fst r)) (nat_of_ascii a)
                    && Nat.leb (nat_of_ascii a) (nat_of_ascii (snd r))) c.

(** Consumes exactly [n] characters of the class. *)
Fixpoint eat (c : class) (n : nat) (s : string) : option string :=
  match n with
  | O => Some s
  | S n' =>
      match s with
      | String a s' => if in_class c a then eat c n' s' else None
      | EmptyString => None
      end
  end.

(** [re.fullmatch(regex, s)] as a truth value. *)
Fixpoint fullmatch (r : list token) (s : string) : bool :=
  match r with
  | [] => match s with EmptyString => true | _ => false end
  | Rep c n :: r' =>
      match eat c n s with
      | Some s' => fullmatch r' s'
      | None => false
      end
  | Lit a :: r' =>
      match s with
      | String b s' => Ascii.eqb a b && fullmatch r' s'
      | EmptyString => false
      end
  end.

Definition groups (c : class) : list token :=
  [Rep c 8; Lit "-"; Rep c 4; Lit "-"; Rep c 4; Lit "-"; Rep c 4; Lit "-";
   Rep c 12]%char.

Definition lower_alnum : class := [("a", "z"); ("0", "9")]%char.
Definition lower_hex : class := [("a", "f"); ("0", "9")]%char.

End Re.

(** The pattern of [_error_checking]:
    [[a-z0-9]{8}-[a-z0-9]{4}-[a-z0-9]{4}-[a-z0-9]{4}-[a-z0-9]{12}]. *)
Definition client_id_regex : list Re.token := Re.groups Re.lower_alnum.

(** The canonical UUID shape in the words of the specification: 8-4-4-4-12
    groups of lowercase hexadecimal digits. *)
Definition canonical_uuid (s : string) : bool :=
  Re.fullmatch (Re.groups Re.lower_hex) s.

(** ** Tables *)

(** A DataFrame: its column labels and its rows, each an index label with
    the cells in column order.  A cell missing from a short row reads as
    [nan].  The table stands for the frame that pandas builds from these
    objects, every column with the dtype that pandas infers for it: in a
    column of numbers with a missing value an integer stands for the float
    of that value, which holds it exactly up to 2**53. *)
Record DataFrame : Type := {
  columns : list string;
  rows : list (value * list value)
}.

(** What the caller may pass as [dataset]. *)
Inductive pyobj : Type :=
| ODataFrame (df : DataFrame)
| OOther (type_name : string).

Definition col_in (name : string) (cols : list string) : bool :=
  existsb (String.eqb name) cols.

(** The positions that carry the label [name]. *)
Fixpoint positions (cols : list string) (name : string) (i : nat) : list nat :=
  match cols with
  | [] => []
  | c :: cols' =>
      if String.eqb c name then i :: positions cols' name (S i)
      else positions cols' name (S i)
  end.

Definition cell (cells : list value) (i : nat) : value := nth i cells VNaN.

(** [df[name]]: a missing label raises [KeyError], a label carried by one
    column gives that column, a repeated label gives a DataFrame. *)
Inductive colsel : Type :=
| NoCol
| OneCol (col : list value)
| ManyCols.

Definition getitem_col (df : DataFrame) (name : string) : colsel :=
  match positions (columns df) name 0 with
  | [] => NoCol
  | [i] => OneCol (map (fun r => cell (snd r) i) (rows df))
  | _ => ManyCols
  end.

(** *** Column dtypes and the rows of [iterrows()] *)

Inductive dtype : Type :=
| DObject   (* a column that holds a string *)
| DFloat    (* no string, and a missing value: the integers are floats *)
| DInt      (* integers of 64 bits *)
| DWide.    (* no string, and an integer beyond 64 bits: the dtype depends
               on the values *)

Definition is_str (v : value) : bool :=
  match v with VStr _ => true | _ => false end.

Definition is_int (v : value) : bool :=
  match v with VInt _ => true | _ => false end.

Definition int64 (z : Z) : bool := (- 2 ^ 63 <=? z) && (z <? 2 ^ 63).

Definition wide (v : value) : bool :=
  match v with VInt z => negb (int64 z) | _ => false end.

(** The dtype that pandas infers for a column. *)
Definition column_dtype (col : list value) : dtype :=
  if existsb is_str col then DObject
  else if existsb wide col then DWide
  else if existsb is_nan col then DFloat
  else DInt.

Definition dtypes (df : DataFrame) : list dtype :=
  map (fun i => column_dtype (map (fun r => cell (snd r) i) (rows df)))
      (seq 0 (length (columns df))).

Definition dtype_eqb (a b : dtype) : bool :=
  match a, b with
  | DObject, DObject | DFloat, DFloat | DInt, DInt | DWide, DWide => true
  | _, _ => false
  end.

Definition has (k : dtype) (kinds : list dtype) : bool :=
  existsb (dtype_eqb k) kinds.

(** How an integer cell of column [i] reads in a row of [iterrows()].  The
    row is a Series of the common dtype of the columns: [object] when a
    column is, and then every cell is the object its column holds; otherwise
    [float64] when a column is, and then every integer is upcast. *)
Inductive reading : Type :=
| AsWritten
| AsFloat
| Undetermined.

Definition reading_of (kinds : list dtype) (i : nat) : reading :=
  match nth i kinds DObject with
  | DObject => AsWritten
  | DFloat => AsFloat
  | DWide => Undetermined
  | DInt =>
      if has DObject kinds then AsWritten
      else if has DWide kinds then Undetermined
      else if has DFloat kinds then AsFloat
      else AsWritten
  end.

(** [f"{x}"] for the float of an integer: the digits and ".0", as long as
    the float holds the integer exactly and prints without an exponent. *)
Definition float_str (z : Z) : result string :=
  if Z.abs z <=? 2 ^ 53 then Ok (py_str (VInt z) +:+ ".0")
  else Raise (NotModelled "the text of a float beyond 2**53").

(** [f"{row[name]}"] for the cell [v] of column [i]. *)
Definition row_str (kinds : list dtype) (i : nat) (v : value) : result string :=
  match v with
  | VInt z =>
      match reading_of kinds i with
      | AsWritten => Ok (py_str v)
      | AsFloat => float_str z
      | Undetermined => Raise (NotModelled "a row beside integers beyond 64 bits")
      end
  | _ => Ok (py_str v)
  end.

(** [f"{row[name]}"] for a row of [iterrows()] over a frame whose columns
    have the dtypes [kinds]. *)
Definition getitem_row_str (kinds : list dtype) (cols : list string)
    (cells : list value) (name : string) : result string :=
  match positions cols name 0 with
  | [] => Raise (KeyError name)
  | [i] => row_str kinds i (cell cells i)
  | _ => Raise (NotModelled "row[label] with a repeated column label")
  end.

(** [df.loc[:, names]]: a new frame with the named columns, in the order
    asked for. *)
Fixpoint select_positions (cols : list string) (names : list string)
  : result (list nat) :=
  match names with
  | [] => Ok []
  | n :: names' =>
      match positions cols n 0 with
      | [] => Raise (KeyError n)
      | ps => let* ps' := select_positions cols names' in Ok (ps ++ ps')
      end
  end.

Definition loc_columns (df : DataFrame) (names : list string) : result DataFrame :=
  let* ps := select_positions (columns df) names in
  Ok {| columns := map (fun i => nth i (columns df) EmptyString) ps;
        rows := map (fun r => (fst r, map (cell (snd r)) ps)) (rows df) |}.

(** [df.loc[mask]]: a new frame with the rows whose mask entry is true. *)
Fixpoint select_rows {A} (l : list A) (mask : list bool) : list A :=
  match l, mask with
  | x :: l', b :: mask' => if b then x :: select_rows l' mask' else select_rows l' mask'
  | _, _ => []
  end.

Definition loc_mask (df : DataFrame) (mask : list bool) : DataFrame :=
  {| columns := columns df; rows := select_rows (rows df) mask |}.

(** [series == campaign] *)
Definition eq_mask (col : list value) (campaign : value) : list bool :=
  map (fun v => py_eq v campaign) col.

(** [Series.unique()]: the distinct values in order of first appearance. *)
Fixpoint unique_from (seen : list value) (l : list value) : list value :=
  match l with
  | [] => []
  | v :: l' =>
      if existsb (same_key v) seen then unique_from seen l'
      else v :: unique_from (v :: seen) l'
  end.

Definition unique (l : list value) : list value := unique_from [] l.

(** ** Stage zero: validation *)

Definition _error_checking (client_id : value) (dataset : pyobj)
    (id_column_name campaign_column_name : string) : result unit :=
  let regex := client_id_regex in
  match client_id with
  | VStr s =>
      if negb (Re.fullmatch regex s) then
        Raise (Exception ("Your client id doesn't look like it's the right format"
                          +:+ "(aaaaaaaa-aaaa-aaaa-aaaa-aaaaaaaaaaaa)"))
      else
        match dataset with
        | ODataFrame df =>
            if negb (col_in id_column_name (columns df)) then
              Raise (Exception ("The id column is not specified correctly. " +:+ nl
                                +:+ "Make sure it's a name, not an index!"))
            else if negb (col_in campaign_column_name (columns df)) then
              Raise (Exception ("The campaigns column is not specified correctly. " +:+ nl
                                +:+ "Make sure it's a name, not an index!"))
            else Ok tt
        | OOther _ => Raise (Exception "The dataset argument must be a Pandas Dataframe")
        end
  | _ =>
      Raise (Exception ("The client id must be a string, but is a: "
                        +:+ py_type client_id))
  end.

(** ** Stage two: the URL requests *)

Record url_request : Type := {
  id : string;
  url_type : string;
  url : string
}.

(** The first loop of [_preprocess_urls]: one frame per campaign, holding
    the rows whose campaign cell equals the campaign. *)
Fixpoint campaign_data_loop (campaigns : list value) (campaign_column_name : string)
    (dataset : DataFrame) (campaign_data : list DataFrame)
  : result (list DataFrame) :=
  match campaigns with
  | [] => Ok campaign_data
  | campaign :: rest =>
      match getitem_col dataset campaign_column_name with
      | NoCol => Raise (KeyError campaign_column_name)
      | ManyCols => Raise (NotModelled "a repeated campaign column label")
      | OneCol col =>
          campaign_data_loop rest campaign_column_name dataset
            (campaign_data ++ [loc_mask dataset (eq_mask col campaign)])
      end
  end.

(** The loop over the rows of one campaign.  [id_string] is a local of the
    whole function: unbound until the flag branch assigns it.  [kinds] are
    the dtypes of the columns, which a frame cut out of the table keeps. *)
Fixpoint rows_loop (kinds : list dtype) (cols : list string)
    (rws : list (value * list value))
    (id_column_name redirect_url : string) (pass_id_as_argument : bool)
    (id_string : option string) (campaign_list : list url_request)
  : result (option string * list url_request) :=
  match rws with
  | [] => Ok (id_string, campaign_list)
  | (index, row) :: rest =>
      let* st := (if pass_id_as_argument then
                    let id_string := id_column_name in
                    let* s := getitem_row_str kinds cols row id_string in
                    Ok (Some id_string, redirect_url +:+ ("/id=" +:+ s))
                  else Ok (id_string, redirect_url)) in
      let '(id_string, url_string) := st in
      match id_string with
      | None => Raise (UnboundLocalError "id_string")
      | Some k =>
          let* s := getitem_row_str kinds cols row k in
          rows_loop kinds cols rest id_column_name redirect_url pass_id_as_argument
            id_string
            (campaign_list ++ [{| id := s; url_type := "URL"; url := url_string |}])
      end
  end.

(** The second loop: one sequence of URL requests per campaign frame. *)
Fixpoint flowcodes_loop (kinds : list dtype) (campaign_data : list DataFrame)
    (id_column_name redirect_url : string) (pass_id_as_argument : bool)
    (id_string : option string) (flowcodes : list (list url_request))
  : result (list (list url_request)) :=
  match campaign_data with
  | [] => Ok flowcodes
  | campaign :: rest =>
      let* st := rows_loop kinds (columns campaign) (rows campaign) id_column_name
               redirect_url pass_id_as_argument id_string [] in
      let '(id_string, campaign_list) := st in
      flowcodes_loop kinds rest id_column_name redirect_url pass_id_as_argument
        id_string (flowcodes ++ [campaign_list])
  end.

Definition _preprocess_urls (campaigns : list value)
    (id_column_name campaign_column_name redirect_url : string)
    (dataset : DataFrame) (pass_id_as_argument : bool)
  : result (list (list url_request)) :=
  let* campaign_data := campaign_data_loop campaigns campaign_column_name dataset [] in
  flowcodes_loop (dtypes dataset) campaign_data id_column_name redirect_url
    pass_id_as_argument None [].


(** ** The world: the caller's objects, the remote service, the file system *)

Inductive request : Type :=
| POST_form (url : string) (data : list (string * json))  (* requests.post(url, data) *)
| POST_json (url : string) (body : list (string * json))  (* requests.post(url, json=body) *)
| GET (url : json).                                       (* requests.get(url, allow_redirects=True) *)

(** What a request comes back with: a response, or an exception of the
    transport itself. *)
Inductive reply : Type :=
| Reply (r : response)
| NoReply (msg : string).

Inductive node : Type :=
| Dir
| File (bytes : string).

(** A place in the file system: the names that lead to it from the root,
    which is the empty list. *)
Notation location := (list string) (only parsing).

(** [heap] holds the objects of the caller, by address; [server] is the
    remote service, which answers a request knowing all the traffic before
    it; [net_log] is that traffic; [cwd] is what [os.getcwd()] returns; [fs]
    is a POSIX file system without symbolic links and without permissions,
    given by what each location other than the root holds. *)
Record world : Type := {
  heap : nat -> pyobj;
  cwd : string;
  server : list (request * reply) -> request -> reply;
  net_log : list (request * reply);
  fs : gmap location node
}.

Definition with_net_log (w : world) (l : list (request * reply)) : world :=
  {| heap := heap w; cwd := cwd w; server := server w; net_log := l; fs := fs w |}.

Definition with_fs (w : world) (m : gmap location node) : world :=
  {| heap := heap w; cwd := cwd w; server := server w; net_log := net_log w; fs := m |}.

(** Effectful code: a world in, a world and a result out.  A raised
    exception keeps the effects that came before it.  What the script
    prints is not part of the world. *)
Definition M (A : Type) : Type := world -> world * result A.

Definition ret {A} (a : A) : M A := fun w => (w, Ok a).
Definition throw {A} (e : exn) : M A := fun w => (w, Raise e).
Definition lift {A} (r : result A) : M A := fun w => (w, r).

Definition bind {A B} (m : M A) (k : A -> M B) : M B :=
  fun w =>
    match m w with
    | (w', Ok a) => k a w'
    | (w', Raise e) => (w', Raise e)
    end.

Notation "'let!' x ':=' c1 'in' c2" := (bind c1 (fun x => c2))
  (at level 10, x name, c1 at level 100, c2 at level 200).

(** [try: body except requests.exceptions.HTTPError as err: handler] *)
Definition try_except_HTTPError {A} (body : M A) (handler : response -> M A) : M A :=
  fun w =>
    match body w with
    | (w', Raise (HTTPError r)) => handler r w'
    | other => other
    end.

(** [requests.post] and [requests.get]: the exchange is logged, and a
    transport failure is raised. *)
Definition send (rq : request) : M response :=
  fun w =>
    let rp := server w (net_log w) rq in
    let w' := with_net_log w (net_log w ++ [(rq, rp)]) in
    match rp with
    | Reply r => (w', Ok r)
    | NoReply msg => (w', Raise (RequestException msg))
    end.

(** [response.raise_for_status()] raises for the statuses 400 to 599. *)
Definition is_error_status (code : Z) : bool := (400 <=? code) && (code <? 600).

Definition raise_for_status (r : response) : M unit :=
  if is_error_status (status_code r) then throw (HTTPError r) else ret tt.

Definition deref (a : nat) : M pyobj := fun w => (w, Ok (heap w a)).
Definition getcwd : M string := fun w => (w, Ok (cwd w)).

(** *** Files *)

(** The ways in which a path fails to lead somewhere, and the exceptions
    that Python makes of them. *)
Inductive errno : Type :=
| ENOENT
| ENOTDIR
| EEXIST
| EISDIR.

Definition os_error (k : errno) (p : string) : exn :=
  match k with
  | ENOENT => FileNotFoundError p
  | ENOTDIR => NotADirectoryError p
  | EEXIST => FileExistsError p
  | EISDIR => IsADirectoryError p
  end.

Inductive outcome (A : Type) : Type :=
| Found (a : A)
| Errno (k : errno).
Arguments Found {A} a.
Arguments Errno {A} k.

(** The pieces of a path between its separators: "a//b/" has the pieces
    a, the empty piece, b, and the empty piece. *)
Fixpoint pieces (p : string) : list string :=
  match p with
  | EmptyString => [EmptyString]
  | String c p' =>
      if Ascii.eqb c "/" then EmptyString :: pieces p'
      else match pieces p' with
           | [] => [String c EmptyString]
           | x :: xs => String c x :: xs
           end
  end.

(** The names of a path: its pieces that are not empty, since separators
    may be repeated. *)
Definition names (p : string) : list string :=
  List.filter (fun c => negb (String.eqb c EmptyString)) (pieces p).

Definition is_absolute (p : string) : bool :=
  match p with
  | String c _ => Ascii.eqb c "/"
  | EmptyString => false
  end.

(** A path that ends with a separator asks for a directory. *)
Definition ends_with_separator (p : string) : bool :=
  String.eqb (List.last (pieces p) "-") EmptyString.

(** Going through one name, from a directory: "." stays, ".." goes up
    (from the root, nowhere), any other name must be a directory there. *)
Definition enter (m : gmap location node) (loc : location) (c : string)
  : outcome location :=
  if String.eqb c "." then Found loc
  else if String.eqb c ".." then Found (removelast loc)
  else match m !! (loc ++ [c]) with
       | Some Dir => Found (loc ++ [c])
       | Some (File _) => Errno ENOTDIR
       | None => Errno ENOENT
       end.

Fixpoint walk (m : gmap location node) (loc : location) (cs : list string)
  : outcome location :=
  match cs with
  | [] => Found loc
  | c :: cs' =>
      match enter m loc c with
      | Found loc' => walk m loc' cs'
      | Errno k => Errno k
      end
  end.

(** What a path leads to, once all its names but the last are gone
    through: a directory that the walk has reached (the path is the root, or
    ends in "." or ".."), or the entry of the last name in the directory
    reached, which may hold nothing yet. *)
Inductive target : Type :=
| Reached (loc : location)
| Entry (loc : location).

Definition resolve (m : gmap location node) (here : location) (p : string)
  : outcome target :=
  match p with
  | EmptyString => Errno ENOENT
  | _ =>
      let cs := names p in
      match walk m (if is_absolute p then [] else here) (removelast cs) with
      | Errno k => Errno k
      | Found loc =>
          let c := List.last cs "." in
          if String.eqb c "." then Found (Reached loc)
          else if String.eqb c ".." then Found (Reached (removelast loc))
          else Found (Entry (loc ++ [c]))
      end
  end.

(** The working directory, as a location. *)
Definition here (w : world) : location := names (cwd w).

(** [os.stat(p)], as far as the kind of the thing goes. *)
Definition stat (w : world) (p : string) : outcome node :=
  match resolve (fs w) (here w) p with
  | Errno k => Errno k
  | Found (Reached _) => Found Dir
  | Found (Entry loc) =>
      match fs w !! loc with
      | None => Errno ENOENT
      | Some Dir => Found Dir
      | Some (File bytes) =>
          if ends_with_separator p then Errno ENOTDIR else Found (File bytes)
      end
  end.

(** [os.path.exists(p)] *)
Definition path_exists (p : string) : M bool :=
  fun w => (w, Ok (match stat w p with Found _ => true | Errno _ => false end)).

(** [os.mkdir(p)] *)
Definition mkdir (p : string) : M unit :=
  fun w =>
    match resolve (fs w) (here w) p with
    | Errno k => (w, Raise (os_error k p))
    | Found (Reached _) => (w, Raise (FileExistsError p))
    | Found (Entry loc) =>
        match fs w !! loc with
        | Some _ => (w, Raise (FileExistsError p))
        | None => (with_fs w (<[loc := Dir]> (fs w)), Ok tt)
        end
    end.

(** [with open(p, 'wb') as handler: handler.write(bytes)] *)
Definition write_file (p : string) (bytes : string) : M unit :=
  fun w =>
    match resolve (fs w) (here w) p with
    | Errno k => (w, Raise (os_error k p))
    | Found (Reached _) => (w, Raise (IsADirectoryError p))
    | Found (Entry loc) =>
        match fs w !! loc with
        | Some Dir => (w, Raise (IsADirectoryError p))
        | _ =>
            if ends_with_separator p then (w, Raise (IsADirectoryError p))
            else (with_fs w (<[loc := File bytes]> (fs w)), Ok tt)
        end
    end.

(** *** Dictionaries in insertion order *)

Definition dict (V : Type) : Type := list (string * V).

Fixpoint dict_get {V} (d : dict V) (k : string) : option V :=
  match d with
  | [] => None
  | (k', v) :: d' => if String.eqb k' k then Some v else dict_get d' k
  end.

(** [d[k] = v]: a present key keeps its place. *)
Fixpoint dict_set {V} (d : dict V) (k : string) (v : V) : dict V :=
  match d with
  | [] => [(k, v)]
  | (k', v') :: d' =>
      if String.eqb k' k then (k, v) :: d' else (k', v') :: dict_set d' k v
  end.

(** [d[k].append(x)] for a key that is present. *)
Fixpoint dict_append {V} (d : dict (list V)) (k : string) (x : V) : dict (list V) :=
  match d with
  | [] => []
  | (k', l) :: d' =>
      if String.eqb k' k then (k', l ++ [x]) :: d' else (k', l) :: dict_append d' k x
  end.

Definition keys {V} (d : dict V) : list string := map fst d.

(** ** Stage one: the campaigns *)

Definition campaign_url : string :=
  "https://api.flowcode.com/v2/flowcode/batch/bulk-campaign".

Definition campaign_form (campaign client_id : value) (reserved_urls : bool) : dict json :=
  [("name", JVal (VStr (py_str campaign)));
   ("display_name", JVal (VStr (py_str campaign +:+ " display")));
   ("client_id", JVal client_id);
   ("reserved_urls_unique", JBool reserved_urls)].

Fixpoint campaigns_loop (campaigns : list value) (client_id : value)
    (reserved_urls : bool) : M unit :=
  match campaigns with
  | [] => ret tt
  | campaign :: rest =>
      let data := campaign_form campaign client_id reserved_urls in
      let! _ := try_except_HTTPError
                  (let! response := send (POST_form campaign_url data) in
                   raise_for_status response)
                  (fun err =>
                     if status_code err =? 409 then ret tt
                     else throw (HTTPError err)) in
      campaigns_loop rest client_id reserved_urls
  end.

Definition _generate_campaigns (campaigns : list value) (client_id : value)
    (id_column_name campaign_column_name : string) (dataset : DataFrame)
    (reserved_urls : bool) : M (list value) :=
  let! _ := campaigns_loop campaigns client_id reserved_urls in
  ret campaigns.

(** ** Stage three: submitting the URL requests *)

Definition codes_url : string := "https://api.flowcode.com/v2/flowcode/batch/bulk".

Definition json_of_url_request (u : url_request) : json :=
  JDict [("id", JVal (VStr (id u)));
         ("url_type", JVal (VStr (url_type u)));
         ("url", JVal (VStr (url u)))].

(** [campaigns[index]] *)
Definition getitem_array (campaigns : list value) (index : nat) : result value :=
  match nth_error campaigns index with
  | Some c => Ok c
  | None => Raise IndexError
  end.

(** The payload; [if smart_rules:] holds for a dictionary with an entry. *)
Definition codes_data (client_id : value) (campaign_name : string)
    (urls : list url_request) (smart_rules : dict json) : dict json :=
  match smart_rules with
  | _ :: _ =>
      [("client_id", JVal client_id);
       ("campaign_name", JVal (VStr campaign_name));
       ("urls", JList (map json_of_url_request urls));
       ("smart_rules", JDict smart_rules)]
  | [] =>
      [("client_id", JVal client_id);
       ("campaign_name", JVal (VStr campaign_name));
       ("urls", JList (map json_of_url_request urls))]
  end.

Definition enumerate {A} (l : list A) : list (nat * A) :=
  combine (seq 0 (length l)) l.

Fixpoint urls_loop (items : list (nat * list url_request)) (campaigns : list value)
    (client_id : value) (smart_rules : dict json) (responses : dict response)
  : M (dict response) :=
  match items with
  | [] => ret responses
  | (index, value) :: rest =>
      match value with
      | [] => urls_loop rest campaigns client_id smart_rules responses
      | _ :: _ =>
          let! campaign := lift (getitem_array campaigns index) in
          let codes_data := codes_data client_id (py_str campaign) value smart_rules in
          let! responses :=
            try_except_HTTPError
              (let! flowcode_response := send (POST_json codes_url codes_data) in
               let! _ := raise_for_status flowcode_response in
               ret (dict_set responses (py_str campaign) flowcode_response))
              (fun err =>
                 if status_code err =? 409 then ret responses
                 else throw (HTTPError err)) in
          urls_loop rest campaigns client_id smart_rules responses
      end
  end.

Definition _generate_urls (flowcodes : list (list url_request))
    (campaigns : list value) (client_id : value) (smart_rules : dict json)
  : M (dict response) :=
  urls_loop (enumerate flowcodes) campaigns client_id smart_rules [].

(** ** Stage four: reading the responses *)

(** One entry of [generated_urls]: [{"id": ..., "qr_code": ...}]. *)
Record generated_url : Type := {
  obj_id : json;
  qr_code : json
}.

(** [response.json()] *)
Definition response_json (r : response) : result json :=
  match json_body r with
  | Some j => Ok j
  | None => Raise JSONDecodeError
  end.

(** [for url in urls]: what iterating over a decoded body yields. *)
Definition py_iter (j : json) : result (list json) :=
  match j with
  | JList l => Ok l
  | JDict d => Ok (map (fun kv => JVal (VStr (fst kv))) d)
  | JVal (VStr s) =>
      Ok (map (fun c => JVal (VStr (String c EmptyString))) (String.list_ascii_of_string s))
  | _ => Raise TypeError
  end.

(** [j[key]] for a string key. *)
Definition getitem_key (j : json) (key : string) : result json :=
  match j with
  | JDict d =>
      match dict_get d key with
      | Some v => Ok v
      | None => Raise (KeyError key)
      end
  | _ => Raise TypeError
  end.

(** [j[0]] *)
Definition getitem_first (j : json) : result json :=
  match j with
  | JList (x :: _) => Ok x
  | JList [] => Raise IndexError
  | JVal (VStr (String c _)) => Ok (JVal (VStr (String c EmptyString)))
  | JVal (VStr EmptyString) => Raise IndexError
  | JDict _ => Raise (KeyError "0")
  | _ => Raise TypeError
  end.

(** The dictionary comprehension [{campaign: response.json() ...}]. *)
Fixpoint readable_loop (items : dict response) (readable_responses : dict json)
  : result (dict json) :=
  match items with
  | [] => Ok readable_responses
  | (campaign, response) :: rest =>
      let* j := response_json response in
      readable_loop rest (dict_set readable_responses campaign j)
  end.

Fixpoint entries_loop (urls : list json) (campaign : string)
    (generated_urls : dict (list generated_url))
  : result (dict (list generated_url)) :=
  match urls with
  | [] => Ok generated_urls
  | url :: rest =>
      let* i := getitem_key url "id" in
      let* images := getitem_key url "images" in
      let* image := getitem_first images in
      let* q := getitem_key image "url" in
      entries_loop rest campaign
        (dict_append generated_urls campaign {| obj_id := i; qr_code := q |})
  end.

Fixpoint generated_loop (items : dict json) (generated_urls : dict (list generated_url))
  : result (dict (list generated_url)) :=
  match items with
  | [] => Ok generated_urls
  | (campaign, urls) :: rest =>
      let generated_urls := dict_set generated_urls campaign [] in
      let* urls := py_iter urls in
      let* generated_urls := entries_loop urls campaign generated_urls in
      generated_loop rest generated_urls
  end.

Definition _process_url_responses (responses : dict response)
  : result (dict (list generated_url)) :=
  let* readable_responses := readable_loop responses [] in
  generated_loop readable_responses [].

(** ** Stage five: the image files, and the whole run *)

Section Materialize.

(** [str()] of a list or a dictionary goes through [repr()] of the items;
    it is left to the interpreter. *)
Variable repr_container : json -> string.

(** [f"{j}"] *)
Definition json_str (j : json) : string :=
  match j with
  | JVal v => py_str v
  | JBool true => "True"
  | JBool false => "False"
  | JNull => "None"
  | _ => repr_container j
  end.

Definition file_url_of (campaign_dir : string) (i : json) : string :=
  campaign_dir +:+ ("/" +:+ json_str i +:+ ".svg").

Fixpoint download_loop (campaign_dir : string) (urls : list generated_url) : M unit :=
  match urls with
  | [] => ret tt
  | url_object :: rest =>
      let i := obj_id url_object in
      let! r := send (GET (qr_code url_object)) in
      let file_url := file_url_of campaign_dir i in
      let! _ := write_file file_url (content r) in
      download_loop campaign_dir rest
  end.

Definition campaign_dir_of (root_dir campaign : string) : string :=
  root_dir +:+ ("/" +:+ campaign).

Fixpoint svgs_loop (root_dir : string) (items : dict (list generated_url)) : M unit :=
  match items with
  | [] => ret tt
  | (campaign, urls) :: rest =>
      let campaign_dir := campaign_dir_of root_dir campaign in
      let! _ := mkdir campaign_dir in
      let! _ := download_loop campaign_dir urls in
      svgs_loop root_dir rest
  end.

Definition root_dir_of (parent_dir : string) : string :=
  parent_dir +:+ "/flowcode_images".

Definition _generate_svgs (parent_dir : string)
    (generated_urls : dict (list generated_url)) : M unit :=
  let root_dir := root_dir_of parent_dir in
  let! present := path_exists root_dir in
  let! _ := (if negb present then mkdir root_dir else ret tt) in
  svgs_loop root_dir generated_urls.

(** [dataset.loc] and [dataset[...]] need a DataFrame. *)
Definition as_frame (o : pyobj) : result DataFrame :=
  match o with
  | ODataFrame df => Ok df
  | OOther _ => Raise (AttributeError "object has no attribute 'loc'")
  end.

(** [dataset[campaign_column_name].unique()] *)
Definition unique_campaigns (dataset : DataFrame) (campaign_column_name : string)
  : result (list value) :=
  match getitem_col dataset campaign_column_name with
  | OneCol col => Ok (unique col)
  | NoCol => Raise (KeyError campaign_column_name)
  | ManyCols => Raise (AttributeError "'DataFrame' object has no attribute 'unique'")
  end.

(** The values of a float column are floats: an integer of the table reads
    as the float it equals, whose text is another.  The campaign names of
    such a column are outside the model, and so are those of a column whose
    dtype depends on integers beyond 64 bits. *)
Definition campaigns_as_written (dataset : DataFrame) (campaign_column_name : string)
  : result unit :=
  match getitem_col dataset campaign_column_name with
  | OneCol col =>
      match column_dtype col with
      | DFloat =>
          if existsb is_int col
          then Raise (NotModelled "the campaign names of a float column")
          else Ok tt
      | DWide => Raise (NotModelled "campaign values beyond 64 bits")
      | _ => Ok tt
      end
  | _ => Ok tt
  end.

(** The entry point.  [dataset] is the address of the caller's table. *)
Definition generate_flowcodes (client_id : value)
    (id_column_name campaign_column_name redirect_url : string)
    (dataset : nat) (smart_rules : dict json) (parent_dir : string)
    (pass_id_as_argument : bool) : M string :=
  let! table := deref dataset in
  let! _ := lift (_error_checking client_id table id_column_name campaign_column_name) in
  let! parent_dir := (match parent_dir with
                      | EmptyString => getcwd
                      | _ => ret parent_dir
                      end) in
  let! dataset := lift (let* df := as_frame table in
                        loc_columns df [id_column_name; campaign_column_name]) in
  let! campaigns := lift (unique_campaigns dataset campaign_column_name) in
  let! _ := lift (campaigns_as_written dataset campaign_column_name) in
  let! _ := _generate_campaigns campaigns client_id id_column_name
              campaign_column_name dataset false in
  let! flowcodes := lift (_preprocess_urls campaigns id_column_name
                            campaign_column_name redirect_url dataset
                            pass_id_as_argument) in
  let! responses := _generate_urls flowcodes campaigns client_id smart_rules in
  let! generated_urls := lift (_process_url_responses responses) in
  let! _ := _generate_svgs parent_dir generated_urls in
  ret "Flowcodes Generated".

End Materialize.

(** ** Worked data *)

Module Examples.

(** The table of the end-to-end scenario. *)
Definition scenario_table : DataFrame :=
  {| columns := ["id"; "campaign"];
     rows := [(VInt 0, [VStr "x1"; VStr "A"]);
              (VInt 1, [VStr "x2"; VStr "A"])] |}.

(** A table with a missing campaign cell. *)
Definition gap_table : DataFrame :=
  {| columns := ["id"; "campaign"];
     rows := [(VInt 0, [VStr "x1"; VStr "A"]);
              (VInt 1, [VStr "x2"; VNaN])] |}.

Definition ok_response (body : json) : response :=
  {| status_code := 200; text := "ok"; content := "<svg/>"; json_body := Some body |}.

Definition status_response (code : Z) : response :=
  {| status_code := code; text := "error"; content := "error"; json_body := None |}.

Definition code_of (i q : string) : json :=
  JDict [("id", JVal (VStr i));
         ("images", JList [JDict [("url", JVal (VStr q))]])].

(** A service that accepts everything and generates the two codes of the
    scenario. *)
Definition friendly (log : list (request * reply)) (rq : request) : reply :=
  match rq with
  | POST_json _ _ => Reply (ok_response (JList [code_of "x1" "http://img/x1";
                                                code_of "x2" "http://img/x2"]))
  | _ => Reply (ok_response JNull)
  end.

(** A service that answers every creation with the given status. *)
Definition refusing (code : Z) (log : list (request * reply)) (rq : request) : reply :=
  Reply (status_response code).

Definition start (srv : list (request * reply) -> request -> reply)
    (table : pyobj) (files : gmap location node) : world :=
  {| heap := fun _ => table; cwd := "/home/user"; server := srv;
     net_log := []; fs := files |}.

(** A file system with the directory /home/user. *)
Definition home : gmap location node :=
  <[ ["home"; "user"] := Dir ]> {[ ["home"] := Dir ]}.

Definition repr_any (j : json) : string := "[...]".

Definition client : value := VStr "d929d46a-7eba-11ec-90d6-0242ac120003".

End Examples.

(** * Vocabulary of the properties *)

(** The rows of the table whose campaign cell, in column [j], equals [c]. *)
Definition rows_of_campaign (dataset : DataFrame) (j : nat) (c : value)
  : list (value * list value) :=
  List.filter (fun r => py_eq (cell (snd r) j) c) (rows dataset).

(** The text of an id in a row: the id as written, or, for an integer that
    reads as a float, its digits and ".0". *)
Definition id_text (rd : reading) (v : value) : string :=
  match v, rd with
  | VInt _, AsFloat => py_str v +:+ ".0"
  | _, _ => py_str v
  end.

(** The request built for an object id when the id goes into the url. *)
Definition request_with_id (redirect_url : string) (s : string) : url_request :=
  {| id := s; url_type := "URL"; url := redirect_url +:+ ("/id=" +:+ s) |}.

(** A table whose rows are upcast: integer ids beside a campaign column
    with a missing value. *)
Definition upcast_table : DataFrame :=
  {| columns := ["id"; "campaign"];
     rows := [(VInt 0, [VInt 1; VInt 5]);
              (VInt 1, [VInt 2; VNaN])] |}.

Definition no_rows (df : DataFrame) : bool :=
  match rows df with [] => true | _ => false end.

Definition distinct_keys (l : list value) : Prop :=
  ForallOrdPairs (fun a b => same_key a b = false) l.

(** The classes of a pattern may grow without losing a match. *)
Inductive token_le : Re.token -> Re.token -> Prop :=
| le_rep (c c' : Re.class) (n : nat) :
    (forall a, Re.in_class c a = true -> Re.in_class c' a = true) ->
    token_le (Re.Rep c n) (Re.Rep c' n)
| le_lit (a : ascii) : token_le (Re.Lit a) (Re.Lit a).

(** The identifiers that pass the check of the code: a string that matches
    the pattern in full. *)
Definition client_id_accepted (client_id : value) : bool :=
  match client_id with
  | VStr s => Re.fullmatch client_id_regex s
  | _ => false
  end.

Definition campaign_request (campaign client_id : value) (reserved_urls : bool)
  : request :=
  POST_form campaign_url (campaign_form campaign client_id reserved_urls).

(** The world after one exchange. *)
Definition logged (w : world) (rq : request) : world :=
  with_net_log w (net_log w ++ [(rq, server w (net_log w) rq)]).

(** A reply the loops go past: a response that is no error, or a 409. *)
Definition tolerated (rp : reply) : bool :=
  match rp with
  | Reply r => negb (is_error_status (status_code r)) || (status_code r =? 409)
  | NoReply _ => false
  end.

Definition codes_request (client_id campaign : value) (urls : list url_request)
    (smart_rules : dict json) : request :=
  POST_json codes_url (codes_data client_id (py_str campaign) urls smart_rules).

Definition has_urls (item : nat * list url_request) : bool :=
  match snd item with [] => false | _ => true end.

(** The campaign a batch request names. *)
Definition campaign_name_of (rq : request) : option string :=
  match rq with
  | POST_json _ body =>
      match dict_get body "campaign_name" with
      | Some (JVal (VStr n)) => Some n
      | _ => None
      end
  | _ => None
  end.

(** An exchange that put an entry under [k] into [responses]. *)
Definition submitted (k : string) (delta : list (request * reply)) : Prop :=
  exists rq r,
    In (rq, Reply r) delta
    /\ is_error_status (status_code r) = false
    /\ campaign_name_of rq = Some k.

(** A request that carries the non-empty sequence of one of the items. *)
Definition batch_of (items : list (nat * list url_request)) (campaigns : list value)
    (client_id : value) (smart_rules : dict json) (ev : request * reply) : Prop :=
  exists index val c,
    In (index, val) items /\ val <> []
    /\ nth_error campaigns index = Some c
    /\ fst ev = codes_request client_id c val smart_rules.

(** Projects the fields of an updated world, leaving the maps alone. *)
Ltac world_simpl :=
  cbn [fs with_fs logged with_net_log net_log heap cwd server] in *.

(** A location holds the bytes of some image that was fetched. *)
Definition image_at (w : world) (loc : location) : Prop :=
  exists q r,
    In (GET q, Reply r) (net_log w) /\ fs w !! loc = Some (File (content r)).

(** A path leads to a file with the bytes of some image that was fetched. *)
Definition written (w : world) (p : string) : Prop :=
  exists q r,
    In (GET q, Reply r) (net_log w) /\ stat w p = Found (File (content r)).

(** What no stage undoes: the caller's objects, the working directory and
    the service stay the same, the log grows, a directory stays a
    directory, a file stays a file, and a fetched image is replaced by
    fetched images only. *)
Record world_le (w w' : world) : Prop := {
  le_heap : heap w' = heap w;
  le_cwd : cwd w' = cwd w;
  le_server : server w' = server w;
  le_log : exists delta, net_log w' = net_log w ++ delta;
  le_dirs : forall loc, fs w !! loc = Some Dir -> fs w' !! loc = Some Dir;
  le_files : forall loc bytes, fs w !! loc = Some (File bytes) ->
             exists bytes', fs w' !! loc = Some (File bytes');
  le_images : forall loc, image_at w loc -> image_at w' loc
}.

(** The location a path leads to. *)
Definition place (w : world) (p : string) : option location :=
  match resolve (fs w) (here w) p with
  | Found (Reached loc) | Found (Entry loc) => Some loc
  | Errno _ => None
  end.

(** A request that fetches the image of one of the entries. *)
Definition download_of (items : dict (list generated_url)) (ev : request * reply)
  : Prop :=
  exists campaign urls e,
    In (campaign, urls) items /\ In e urls /\ fst ev = GET (qr_code e).

Definition example_codes : dict (list generated_url) :=
  [("A", [ {| obj_id := JVal (VStr "x1"); qr_code := JVal (VStr "http://img/x1") |};
           {| obj_id := JVal (VStr "x2"); qr_code := JVal (VStr "http://img/x2") |} ])].

(** The file system after a first run for the campaign "A". *)
Definition rerun_files : gmap location node :=
  <[ ["home"; "user"; "flowcode_images"; "A"] := Dir ]>
    (<[ ["home"; "user"; "flowcode_images"] := Dir ]> Examples.home).

Definition example_flowcodes : list (list url_request) :=
  [[ {| id := "x1"; url_type := "URL"; url := "http://example.com/id=x1" |} ];
   [ {| id := "x2"; url_type := "URL"; url := "http://example.com/id=x2" |} ]].

Definition keeps_heap {A} (m : M A) : Prop :=
  forall w, heap (fst (m w)) = heap w.

(** * Further vocabulary *)

(** The messages of [_error_checking]. *)
Definition msg_client_id_format : string :=
  "Your client id doesn't look like it's the right format"
  +:+ "(aaaaaaaa-aaaa-aaaa-aaaa-aaaaaaaaaaaa)".

Definition msg_not_a_frame : string :=
  "The dataset argument must be a Pandas Dataframe".

Definition msg_id_column : string :=
  "The id column is not specified correctly. " +:+ nl
  +:+ "Make sure it's a name, not an index!".

Definition msg_campaign_column : string :=
  "The campaigns column is not specified correctly. " +:+ nl
  +:+ "Make sure it's a name, not an index!".

(** Every character of the string lies in the class. *)
Fixpoint all_in (c : Re.class) (s : string) : bool :=
  match s with
  | EmptyString => true
  | String a s' => Re.in_class c a && all_in c s'
  end.

(** A group of the client id: [n] characters of [a-z0-9]. *)
Definition id_group (n : nat) (g : string) : Prop :=
  String.length g = n /\ all_in Re.lower_alnum g = true.

(** The exception a reply turns into when the loops do not go past it. *)
Definition failure_of (rp : reply) : exn :=
  match rp with
  | Reply r => HTTPError r
  | NoReply msg => RequestException msg
  end.

(** Every exchange of the log was gone past. *)
Definition all_tolerated (delta : list (request * reply)) : Prop :=
  Forall (fun ev => tolerated (snd ev) = true) delta.

(** The log ends with the exchange that stopped the loop with [e]. *)
Definition stopped_by (delta : list (request * reply)) (e : exn) : Prop :=
  exists before rq rp,
    delta = before ++ [(rq, rp)]
    /\ all_tolerated before /\ tolerated rp = false /\ e = failure_of rp.

(** What every record of [_preprocess_urls] looks like. *)
Definition well_formed_request (redirect_url : string) (pass_id_as_argument : bool)
    (u : url_request) : Prop :=
  url_type u = "URL"
  /\ url u = if pass_id_as_argument then redirect_url +:+ ("/id=" +:+ id u)
             else redirect_url.

(** A table whose only row has no campaign. *)
Definition orphan_table : DataFrame :=
  {| columns := ["id"; "campaign"]; rows := [(VInt 0, [VStr "x1"; VNaN])] |}.

(** The batch request of an enumerated sequence. *)
Definition request_of_item (campaigns : list value) (client_id : value)
    (smart_rules : dict json) (item : nat * list url_request) : request :=
  codes_request client_id (nth (fst item) campaigns VNaN) (snd item) smart_rules.

(** The entry read from one object of a response body:
    [{"id": url['id'], "qr_code": url['images'][0]['url']}]. *)
Definition entry_of (url : json) : result generated_url :=
  let* i := getitem_key url "id" in
  let* images := getitem_key url "images" in
  let* image := getitem_first images in
  let* q := getitem_key image "url" in
  Ok {| obj_id := i; qr_code := q |}.

Fixpoint collect_entries (urls : list json) : result (list generated_url) :=
  match urls with
  | [] => Ok []
  | url :: rest =>
      let* g := entry_of url in
      let* gs := collect_entries rest in
      Ok (g :: gs)
  end.

(** The entries of a decoded body, and of a response. *)
Definition entries_of_json (j : json) : result (list generated_url) :=
  let* urls := py_iter j in collect_entries urls.

Definition body_entries (r : response) : result (list generated_url) :=
  let* j := response_json r in entries_of_json j.

Definition entries_or_none (r : response) : list generated_url :=
  match body_entries r with
  | Ok gs => gs
  | Raise _ => []
  end.

Definition json_or_null (r : response) : json :=
  match json_body r with
  | Some j => j
  | None => JNull
  end.

(** The campaigns one after the other, each with all its entries. *)
Fixpoint generated_spec (items : dict json) (acc : dict (list generated_url))
  : result (dict (list generated_url)) :=
  match items with
  | [] => Ok acc
  | (campaign, j) :: rest =>
      let* gs := entries_of_json j in
      generated_spec rest (acc ++ [(campaign, gs)])
  end.

(** What [_generate_svgs] can raise: an error of the file system or a
    failure of the transport. *)
Definition os_or_transport (e : exn) : Prop :=
  match e with
  | RequestException _ | FileExistsError _ | FileNotFoundError _
  | IsADirectoryError _ | NotADirectoryError _ => True
  | _ => False
  end.

(** The downloads of a mapping, campaign after campaign. *)
Definition downloads_of (items : dict (list generated_url)) : list request :=
  flat_map (fun cu => map (fun e => GET (qr_code e)) (snd cu)) items.

(** The paths [_generate_svgs] may create or write. *)
Definition target_path (repr_container : json -> string) (root_dir : string)
    (items : dict (list generated_url)) (p : string) : Prop :=
  p = root_dir
  \/ exists campaign urls,
       In (campaign, urls) items
       /\ (p = campaign_dir_of root_dir campaign
           \/ exists e, In e urls
                /\ p = file_url_of repr_container
                         (campaign_dir_of root_dir campaign) (obj_id e)).


Definition is_batch_post (ev : request * reply) : Prop :=
  exists body, fst ev = POST_json codes_url body.

Definition is_download (ev : request * reply) : Prop :=
  exists address, fst ev = GET address.

(** What [generate_flowcodes] does once the campaigns are created. *)
Definition after_campaigns (repr_container : json -> string)
    (campaigns : list value) (client_id : value)
    (id_column_name campaign_column_name redirect_url : string)
    (dataset : DataFrame) (smart_rules : dict json) (parent_dir : string)
    (pass_id_as_argument : bool) : M string :=
  let! flowcodes := lift (_preprocess_urls campaigns id_column_name
                            campaign_column_name redirect_url dataset
                            pass_id_as_argument) in
  let! responses := _generate_urls flowcodes campaigns client_id smart_rules in
  let! generated_urls := lift (_process_url_responses responses) in
  let! _ := _generate_svgs repr_container parent_dir generated_urls in
  ret "Flowcodes Generated".

(** The directory the images go under: the working directory when none is
    given. *)
Definition output_parent (parent_dir : string) (w : world) : string :=
  match parent_dir with
  | EmptyString => cwd w
  | _ => parent_dir
  end.

(** * Properties *)

(** ** Results and lists *)

Lemma select_rows_map {A} (f : A -> bool) (l : list A) :
  select_rows l (map f l) = List.filter f l.
Proof.
  induction l as [|x l IH]; simpl; [reflexivity|].
  destruct (f x); now rewrite IH.
Qed.

Lemma forallb_over_map {A B} (f : A -> B) (p : B -> bool) (l : list A) :
  forallb p (map f l) = forallb (fun x => p (f x)) l.
Proof. induction l as [|x l IH]; simpl; [reflexivity | now rewrite IH]. Qed.

Lemma eq_mask_column (rws : list (value * list value)) (j : nat) (c : value) :
  eq_mask (map (fun r => cell (snd r) j) rws) c
  = map (fun r => py_eq (cell (snd r) j) c) rws.
Proof. unfold eq_mask. now rewrite map_map. Qed.

Lemma py_eq_true (a b : value) : py_eq a b = true -> a = b /\ is_nan a = false.
Proof.
  destruct a, b; simpl; try discriminate.
  - intros H. apply String.eqb_eq in H. now subst.
  - intros H. apply Z.eqb_eq in H. now subst.
Qed.

Lemma py_eq_refl (a : value) : py_eq a a = negb (is_nan a).
Proof.
  destruct a; simpl; [apply String.eqb_refl | apply Z.eqb_refl | reflexivity].
Qed.

Lemma same_key_refl (a : value) : same_key a a = true.
Proof.
  destruct a; simpl; [apply String.eqb_refl | apply Z.eqb_refl | reflexivity].
Qed.

Lemma same_key_true (a b : value) : same_key a b = true -> a = b.
Proof.
  destruct a, b; simpl; try discriminate; try reflexivity.
  - intros H. apply String.eqb_eq in H. now subst.
  - intros H. apply Z.eqb_eq in H. now subst.
Qed.

Lemma py_eq_same_key (a b : value) : py_eq a b = true -> same_key a b = true.
Proof. destruct a, b; simpl; auto. Qed.

(** ** The partition of the rows *)

Lemma campaign_data_loop_closed (campaigns : list value) (name : string)
    (dataset : DataFrame) (j : nat) (acc : list DataFrame) :
  positions (columns dataset) name 0 = [j] ->
  campaign_data_loop campaigns name dataset acc
  = Ok (acc ++ map (fun c => {| columns := columns dataset;
                                rows := rows_of_campaign dataset j c |}) campaigns).
Proof.
  intros Hj. revert acc.
  induction campaigns as [|c cs IH]; intros acc; simpl.
  - now rewrite app_nil_r.
  - unfold getitem_col. rewrite Hj. rewrite IH.
    rewrite <- app_assoc. simpl.
    unfold loc_mask, rows_of_campaign.
    now rewrite eq_mask_column, select_rows_map.
Qed.

(** ** The URL requests with the flag set *)

Lemma string_length_append (a b : string) :
  String.length (a +:+ b) = (String.length a + String.length b)%nat.
Proof. induction a as [|c a IH]; simpl; [reflexivity | now rewrite IH]. Qed.

(** The text of a float is never the text of the integer it holds. *)
Lemma float_text_differs (z : Z) :
  id_text AsFloat (VInt z) <> py_str (VInt z).
Proof.
  unfold id_text. intros H. apply (f_equal String.length) in H.
  rewrite string_length_append in H. simpl in H. lia.
Qed.

Lemma row_str_text (kinds : list dtype) (i : nat) (v : value) :
  reading_of kinds i <> Undetermined ->
  (reading_of kinds i = AsFloat -> forall z, v = VInt z -> Z.abs z <= 2 ^ 53) ->
  row_str kinds i v = Ok (id_text (reading_of kinds i) v).
Proof.
  intros Hrd Hexact. destruct v as [s|z|]; try reflexivity.
  unfold row_str, id_text. destruct (reading_of kinds i); try congruence.
  unfold float_str.
  destruct (Z.abs z <=? 2 ^ 53) eqn:Hz; [reflexivity|].
  apply Z.leb_gt in Hz. specialize (Hexact eq_refl z eq_refl). lia.
Qed.

Lemma rows_loop_true (kinds : list dtype) (cols : list string) (i : nat)
    (name redirect_url : string)
    (rws : list (value * list value)) (st : option string) (acc : list url_request) :
  positions cols name 0 = [i] ->
  (forall r, In r rws ->
     row_str kinds i (cell (snd r) i)
     = Ok (id_text (reading_of kinds i) (cell (snd r) i))) ->
  rows_loop kinds cols rws name redirect_url true st acc
  = Ok (match rws with [] => st | _ => Some name end,
        acc ++ map (fun r => request_with_id redirect_url
                               (id_text (reading_of kinds i) (cell (snd r) i))) rws).
Proof.
  intros Hi. revert st acc.
  induction rws as [|[index row] rest IH]; intros st acc Htext; simpl.
  - now rewrite app_nil_r.
  - pose proof (Htext (index, row) (or_introl eq_refl)) as Hrow.
    cbn [snd] in Hrow.
    unfold getitem_row_str. rewrite Hi, Hrow. simpl. rewrite Hi, Hrow. simpl.
    rewrite IH by (intros r Hr; apply Htext; now right).
    rewrite <- app_assoc. simpl.
    now destruct rest.
Qed.

Lemma flowcodes_loop_true (kinds : list dtype) (frames : list DataFrame)
    (cols : list string) (i : nat)
    (name redirect_url : string) (st : option string)
    (acc : list (list url_request)) :
  positions cols name 0 = [i] ->
  Forall (fun df => columns df = cols
                    /\ forall r, In r (rows df) ->
                         row_str kinds i (cell (snd r) i)
                         = Ok (id_text (reading_of kinds i) (cell (snd r) i))) frames ->
  flowcodes_loop kinds frames name redirect_url true st acc
  = Ok (acc ++ map (fun df => map (fun r => request_with_id redirect_url
                                              (id_text (reading_of kinds i)
                                                 (cell (snd r) i))) (rows df)) frames).
Proof.
  intros Hi Hall. revert st acc.
  induction Hall as [|df frames [Hdf Htext] Hall IH]; intros st acc; simpl.
  - now rewrite app_nil_r.
  - rewrite Hdf. rewrite (rows_loop_true _ _ i) by assumption. simpl.
    rewrite IH. now rewrite <- app_assoc.
Qed.

Lemma preprocess_urls_true (campaigns : list value)
    (id_column_name campaign_column_name redirect_url : string)
    (dataset : DataFrame) (i j : nat) :
  positions (columns dataset) id_column_name 0 = [i] ->
  positions (columns dataset) campaign_column_name 0 = [j] ->
  reading_of (dtypes dataset) i <> Undetermined ->
  (reading_of (dtypes dataset) i = AsFloat ->
   forall r z, In r (rows dataset) -> cell (snd r) i = VInt z -> Z.abs z <= 2 ^ 53) ->
  _preprocess_urls campaigns id_column_name campaign_column_name redirect_url
    dataset true
  = Ok (map (fun c => map (fun r => request_with_id redirect_url
                                      (id_text (reading_of (dtypes dataset) i)
                                         (cell (snd r) i)))
                        (rows_of_campaign dataset j c)) campaigns).
Proof.
  intros Hi Hj Hrd Hexact. unfold _preprocess_urls.
  rewrite (campaign_data_loop_closed _ _ _ j) by assumption. simpl.
  rewrite (flowcodes_loop_true _ _ (columns dataset) i).
  - simpl. now rewrite map_map.
  - assumption.
  - apply List.Forall_forall. intros df Hin.
    apply in_map_iff in Hin. destruct Hin as (c & <- & _).
    split; [reflexivity|]. cbn [rows]. intros r Hr.
    apply filter_In in Hr. destruct Hr as [Hr _].
    apply row_str_text; [assumption|].
    intros Hf z Hz. now apply (Hexact Hf r z).
Qed.

(** ** The URL requests with the flag cleared *)

Lemma flowcodes_loop_false (kinds : list dtype) (frames : list DataFrame)
    (name redirect_url : string) (acc : list (list url_request)) :
  flowcodes_loop kinds frames name redirect_url false None acc
  = if forallb no_rows frames
    then Ok (acc ++ map (fun _ => []) frames)
    else Raise (UnboundLocalError "id_string").
Proof.
  revert acc. induction frames as [|df frames IH]; intros acc; simpl.
  - now rewrite app_nil_r.
  - unfold no_rows at 1. destruct (rows df) as [|[index row] rest]; simpl.
    + rewrite IH. destruct (forallb no_rows frames); [|reflexivity].
      now rewrite <- app_assoc.
    + reflexivity.
Qed.

Lemma preprocess_urls_false (campaigns : list value)
    (id_column_name campaign_column_name redirect_url : string)
    (dataset : DataFrame) (j : nat) :
  positions (columns dataset) campaign_column_name 0 = [j] ->
  _preprocess_urls campaigns id_column_name campaign_column_name redirect_url
    dataset false
  = if forallb (fun c => match rows_of_campaign dataset j c with
                         | [] => true
                         | _ => false
                         end) campaigns
    then Ok (map (fun _ => []) campaigns)
    else Raise (UnboundLocalError "id_string").
Proof.
  intros Hj. unfold _preprocess_urls.
  rewrite (campaign_data_loop_closed _ _ _ j) by assumption. simpl.
  rewrite flowcodes_loop_false, forallb_over_map, map_map. reflexivity.
Qed.

(** ** [unique]: distinct values in order of first appearance *)

Lemma same_key_sym (a b : value) : same_key a b = same_key b a.
Proof.
  destruct a, b; simpl; try reflexivity.
  - apply String.eqb_sym.
  - apply Z.eqb_sym.
Qed.

Lemma unique_from_sound (seen l : list value) (v : value) :
  In v (unique_from seen l) -> In v l /\ existsb (same_key v) seen = false.
Proof.
  revert seen. induction l as [|a l IH]; intros seen; simpl; [tauto|].
  destruct (existsb (same_key a) seen) eqn:Ha.
  - intros H. apply IH in H. tauto.
  - intros [<- | H]; [tauto|].
    apply IH in H. destruct H as [Hin Hseen]. simpl in Hseen.
    apply orb_false_iff in Hseen. tauto.
Qed.

Lemma unique_from_covers (seen l : list value) (v : value) :
  In v l -> existsb (same_key v) seen = true \/ In v (unique_from seen l).
Proof.
  revert seen. induction l as [|a l IH]; intros seen; simpl; [tauto|].
  destruct (existsb (same_key a) seen) eqn:Ha.
  - intros [<- | H]; [now left | now apply IH].
  - intros [<- | H]; [right; now left|].
    destruct (IH (a :: seen) H) as [Hs | Hin]; [|right; now right].
    simpl in Hs. apply orb_true_iff in Hs. destruct Hs as [Hva | Hs].
    + apply same_key_true in Hva. subst. right. now left.
    + now left.
Qed.

Lemma unique_from_distinct (seen l : list value) :
  distinct_keys (unique_from seen l).
Proof.
  revert seen. induction l as [|a l IH]; intros seen; simpl; [constructor|].
  destruct (existsb (same_key a) seen) eqn:Ha; [apply IH|].
  constructor; [|apply IH].
  apply List.Forall_forall. intros b Hb.
  apply unique_from_sound in Hb. destruct Hb as [_ Hb]. simpl in Hb.
  apply orb_false_iff in Hb. rewrite same_key_sym. tauto.
Qed.

(** The values of a prefix of the column come first, in their own order of
    appearance: this is the order of first appearance. *)
Lemma unique_from_prefix (seen l1 l2 : list value) :
  exists t, unique_from seen (l1 ++ l2) = unique_from seen l1 ++ t.
Proof.
  revert seen. induction l1 as [|a l1 IH]; intros seen; simpl.
  - now exists (unique_from seen l2).
  - destruct (existsb (same_key a) seen); [apply IH|].
    destruct (IH (a :: seen)) as [t Ht]. exists t. now rewrite Ht.
Qed.

Lemma unique_covers (l : list value) (v : value) : In v l -> In v (unique l).
Proof.
  intros H. destruct (unique_from_covers [] l v H) as [Hs | Hin]; [|exact Hin].
  discriminate Hs.
Qed.

(** ** The partitions cover the rows with a campaign *)

Lemma filter_or_exclusive {A} (P Q : A -> bool) (l : list A) :
  (forall x, In x l -> P x = true -> Q x = true -> False) ->
  Permutation (List.filter P l ++ List.filter Q l)
              (List.filter (fun x => P x || Q x) l).
Proof.
  induction l as [|a l IH]; intros Hex; simpl; [constructor|].
  assert (IH' : Permutation (List.filter P l ++ List.filter Q l)
                            (List.filter (fun x => P x || Q x) l)).
  { apply IH. intros x Hx. apply Hex. now right. }
  destruct (P a) eqn:HP, (Q a) eqn:HQ; simpl.
  - exfalso. apply (Hex a); auto. now left.
  - now apply perm_skip.
  - transitivity (a :: List.filter P l ++ List.filter Q l).
    + symmetry. apply Permutation_middle.
    + now apply perm_skip.
  - exact IH'.
Qed.

Lemma filter_all {A} (f : A -> bool) (l : list A) :
  (forall x, In x l -> f x = true) -> List.filter f l = l.
Proof.
  induction l as [|a l IH]; intros H; simpl; [reflexivity|].
  rewrite (H a) by now left. f_equal. apply IH. intros x Hx. apply H. now right.
Qed.

Lemma filter_none {A} (l : list A) : List.filter (fun _ => false) l = [].
Proof. induction l; simpl; auto. Qed.

Lemma partition_permutation (rws : list (value * list value)) (j : nat)
    (cs : list value) :
  distinct_keys cs ->
  Permutation
    (concat (map (fun c => List.filter (fun r => py_eq (cell (snd r) j) c) rws) cs))
    (List.filter (fun r => existsb (py_eq (cell (snd r) j)) cs) rws).
Proof.
  induction 1 as [|c cs Hc Hcs IH]; simpl.
  - rewrite filter_none. constructor.
  - etransitivity; [apply Permutation_app_head, IH|].
    apply filter_or_exclusive. intros r _ H1 H2.
    apply existsb_exists in H2. destruct H2 as (c' & Hin & H2).
    apply py_eq_true in H1. apply py_eq_true in H2.
    destruct H1 as [H1 Hn], H2 as [H2 _].
    rewrite List.Forall_forall in Hc. specialize (Hc c' Hin).
    rewrite <- H1, <- H2, same_key_refl in Hc. discriminate.
Qed.

Lemma covered_by_unique (col : list value) (v : value) :
  In v col -> existsb (py_eq v) (unique col) = negb (is_nan v).
Proof.
  intros Hin. destruct (is_nan v) eqn:Hn; simpl.
  - destruct v; try discriminate.
    induction (unique col); simpl; auto.
  - apply existsb_exists. exists v. split; [now apply unique_covers|].
    rewrite py_eq_refl, Hn. reflexivity.
Qed.

Lemma in_concat_partitions (rws : list (value * list value)) (j : nat)
    (cs : list value) (r : value * list value) :
  In r (concat (map (fun c => List.filter (fun r => py_eq (cell (snd r) j) c) rws) cs))
  <-> In r rws /\ existsb (py_eq (cell (snd r) j)) cs = true.
Proof.
  rewrite in_concat. split.
  - intros (l & Hl & Hr). apply in_map_iff in Hl. destruct Hl as (c & <- & Hc).
    apply filter_In in Hr. destruct Hr as [Hr Heq]. split; [exact Hr|].
    apply existsb_exists. eauto.
  - intros [Hr Hex]. apply existsb_exists in Hex. destruct Hex as (c & Hc & Heq).
    exists (List.filter (fun r => py_eq (cell (snd r) j) c) rws). split.
    + apply in_map_iff. eauto.
    + apply filter_In. auto.
Qed.

Lemma distinct_keys_nth (cs : list value) (n n' : nat) (c c' : value) :
  distinct_keys cs -> n <> n' ->
  nth_error cs n = Some c -> nth_error cs n' = Some c' ->
  same_key c c' = false.
Proof.
  intros Hd. revert n n'.
  induction Hd as [|a cs Ha Hd IH]; intros n n' Hne Hn Hn'.
  - destruct n; discriminate.
  - rewrite List.Forall_forall in Ha.
    destruct n as [|n], n' as [|n']; simpl in *.
    + congruence.
    + injection Hn as <-. apply Ha. eapply nth_error_In; eauto.
    + injection Hn' as <-. rewrite same_key_sym. apply Ha.
      eapply nth_error_In; eauto.
    + apply (IH n n'); auto.
Qed.

(** C1 (defect in the code).  With [pass_id_as_argument] false the local
    [id_string] is never assigned, so building the record of the first row
    raises [UnboundLocalError]: for every table with a row whose campaign
    cell is not missing, [_preprocess_urls] run on the table's own
    campaigns fails instead of producing the bare redirect target. *)
Theorem C1_flag_false_unbound_local
    (id_column_name campaign_column_name redirect_url : string)
    (dataset : DataFrame) (j : nat) (r : value * list value)
    (Hj : positions (columns dataset) campaign_column_name 0 = [j])
    (Hr : In r (rows dataset))
    (Hc : is_nan (cell (snd r) j) = false) :
  _preprocess_urls (unique (map (fun r => cell (snd r) j) (rows dataset)))
    id_column_name campaign_column_name redirect_url dataset false
  = Raise (UnboundLocalError "id_string").
Proof.
  rewrite (preprocess_urls_false _ _ _ _ _ j) by assumption.
  match goal with |- (if ?b then _ else _) = _ => destruct b eqn:Hall end;
    [|reflexivity].
  exfalso. rewrite forallb_forall in Hall.
  specialize (Hall (cell (snd r) j)).
  assert (Hin : In (cell (snd r) j)
                   (unique (map (fun r => cell (snd r) j) (rows dataset)))).
  { apply unique_covers. apply in_map_iff. eauto. }
  specialize (Hall Hin).
  assert (Hrow : In r (rows_of_campaign dataset j (cell (snd r) j))).
  { apply filter_In. split; [exact Hr|]. rewrite py_eq_refl, Hc. reflexivity. }
  destruct (rows_of_campaign dataset j (cell (snd r) j)); [destruct Hrow | discriminate].
Qed.

Lemma C1_flag_false_unbound_local_witness :
  _preprocess_urls [VStr "A"] "id" "campaign" "http://example.com"
    Examples.scenario_table false
  = Raise (UnboundLocalError "id_string").
Proof.
  apply (C1_flag_false_unbound_local "id" "campaign" "http://example.com"
           Examples.scenario_table 1 (VInt 0, [VStr "x1"; VStr "A"])).
  - reflexivity.
  - simpl. auto.
  - reflexivity.
Defined.

(** C4 (defect in the code).  In the end-to-end scenario the one campaign
    "A" gets the records of x1 and x2, in that order, each url being the
    redirect target followed by "/id=" and the id.  In general, with the
    flag set and one column for each of the two labels, the sequence of a
    campaign holds one record per row of that campaign, in table order, and
    the sequences follow the campaign list, which [unique] gives in order of
    first appearance; the id of a record is the text of the object id as
    the row of [iterrows()] holds it, and the url is the redirect target,
    "/id=" and that text.  For a string, a missing value, and an integer
    that the row holds as written, the text is the stringified object id.
    But a row has one dtype for all its cells: when the id column has a
    missing value and no string, or the table has a column of numbers with
    a missing value and no column with a string, the row holds an integer
    id as a float, and the text is the digits followed by ".0", which is
    never the stringified object id. *)
Theorem C4_urls_carry_the_id (campaigns : list value)
    (id_column_name campaign_column_name redirect_url : string)
    (dataset : DataFrame) (i j : nat)
    (Hi : positions (columns dataset) id_column_name 0 = [i])
    (Hj : positions (columns dataset) campaign_column_name 0 = [j])
    (Hkinds : reading_of (dtypes dataset) i <> Undetermined)
    (Hexact : reading_of (dtypes dataset) i = AsFloat ->
              forall r z, In r (rows dataset) -> cell (snd r) i = VInt z ->
                Z.abs z <= 2 ^ 53) :
  (unique_campaigns Examples.scenario_table "campaign" = Ok [VStr "A"]
   /\ _preprocess_urls [VStr "A"] "id" "campaign" "http://example.com"
        Examples.scenario_table true
      = Ok [[ {| id := "x1"; url_type := "URL"; url := "http://example.com/id=x1" |};
              {| id := "x2"; url_type := "URL"; url := "http://example.com/id=x2" |} ]])
  /\ _preprocess_urls campaigns id_column_name campaign_column_name redirect_url
       dataset true
     = Ok (map (fun c =>
                  map (fun r =>
                         let s := id_text (reading_of (dtypes dataset) i)
                                    (cell (snd r) i) in
                         {| id := s;
                            url_type := "URL";
                            url := redirect_url +:+ ("/id=" +:+ s) |})
                      (List.filter (fun r => py_eq (cell (snd r) j) c) (rows dataset)))
               campaigns)
  /\ (forall rd s, id_text rd (VStr s) = py_str (VStr s))
  /\ (forall rd, id_text rd VNaN = py_str VNaN)
  /\ (forall z, id_text AsWritten (VInt z) = py_str (VInt z))
  /\ (forall z, id_text AsFloat (VInt z) = py_str (VInt z) +:+ ".0"
                /\ id_text AsFloat (VInt z) <> py_str (VInt z))
  /\ (reading_of (dtypes dataset) i = AsFloat
      <-> nth i (dtypes dataset) DObject = DFloat
          \/ (nth i (dtypes dataset) DObject = DInt
              /\ has DObject (dtypes dataset) = false
              /\ has DWide (dtypes dataset) = false
              /\ has DFloat (dtypes dataset) = true))
  /\ (forall col1 col2 : list value,
        exists later, unique (col1 ++ col2) = unique col1 ++ later).
Proof.
  split; [split; reflexivity|]. split.
  { now rewrite (preprocess_urls_true _ _ _ _ _ i j). }
  split; [now intros []|]. split; [now intros []|].
  split; [reflexivity|].
  split; [intros z; split; [reflexivity | apply float_text_differs]|]. split.
  - unfold reading_of.
    destruct (nth i (dtypes dataset) DObject);
      destruct (has DObject (dtypes dataset));
      destruct (has DWide (dtypes dataset));
      destruct (has DFloat (dtypes dataset));
      split; try discriminate; try (intros [H | (H & ? & ? & ?)]; discriminate);
      auto.
  - intros col1 col2. apply unique_from_prefix.
Qed.

(** At the table with the integer ids 1 and 2 and the campaigns 5 and
    missing, the record of the first row carries "1.0". *)
Lemma C4_urls_carry_the_id_witness :
  reading_of (dtypes upcast_table) 0 = AsFloat
  /\ _preprocess_urls [VInt 5; VNaN] "id" "campaign" "http://example.com"
       upcast_table true
     = Ok [[ {| id := "1.0"; url_type := "URL";
                url := "http://example.com/id=1.0" |} ];
           []].
Proof.
  split; [reflexivity|].
  refine (proj1 (proj2 (C4_urls_carry_the_id [VInt 5; VNaN] "id" "campaign"
                          "http://example.com" upcast_table 0 1
                          eq_refl eq_refl _ _))).
  - intros H. vm_compute in H. discriminate H.
  - intros _ r z [<- | [<- | []]] [= <-]; vm_compute; discriminate.
Defined.

(** C5, as stated, fails: a row whose campaign cell is missing compares
    unequal to every campaign, [nan] included, and lands in no partition. *)
Lemma C5_counterexample :
  unique_campaigns Examples.gap_table "campaign" = Ok [VStr "A"; VNaN]
  /\ campaign_data_loop [VStr "A"; VNaN] "campaign" Examples.gap_table []
     = Ok [ {| columns := ["id"; "campaign"];
               rows := [(VInt 0, [VStr "x1"; VStr "A"])] |};
            {| columns := ["id"; "campaign"]; rows := [] |} ]
  /\ In (VInt 1, [VStr "x2"; VNaN]) (rows Examples.gap_table)
  /\ ~ In (VInt 1, [VStr "x2"; VNaN])
         (concat (map rows
                    [ {| columns := ["id"; "campaign"];
                         rows := [(VInt 0, [VStr "x1"; VStr "A"])] |};
                      {| columns := ["id"; "campaign"]; rows := [] |} ])).
Proof.
  repeat split; try reflexivity.
  - simpl. auto.
  - simpl. intros [H | []]. discriminate H.
Qed.

(** C5 (amended).  For every table with one campaign column, the frames
    built by the first loop of [_preprocess_urls] for the table's campaigns,
    in order of first appearance, are such that: a row lies in a frame
    exactly when it is a row of the table whose campaign cell equals that
    frame's campaign; two different frames share no row; and together the
    frames hold exactly the rows whose campaign cell is not missing, each as
    often as the table does.  When no campaign cell is missing they hold
    the whole table. *)
Theorem C5_partitions (dataset : DataFrame) (campaign_column_name : string) (j : nat)
    (Hj : positions (columns dataset) campaign_column_name 0 = [j]) :
  exists campaigns parts,
    unique_campaigns dataset campaign_column_name = Ok campaigns
    /\ campaign_data_loop campaigns campaign_column_name dataset [] = Ok parts
    /\ length parts = length campaigns
    /\ (forall n c p r,
          nth_error campaigns n = Some c -> nth_error parts n = Some p ->
          (In r (rows p) <->
           In r (rows dataset) /\ py_eq (cell (snd r) j) c = true))
    /\ (forall n n' p p' r,
          n <> n' -> nth_error parts n = Some p -> nth_error parts n' = Some p' ->
          In r (rows p) -> ~ In r (rows p'))
    /\ Permutation (concat (map rows parts))
         (List.filter (fun r => negb (is_nan (cell (snd r) j))) (rows dataset))
    /\ ((forall r, In r (rows dataset) -> is_nan (cell (snd r) j) = false) ->
        Permutation (concat (map rows parts)) (rows dataset)).
Proof.
  set (col := map (fun r => cell (snd r) j) (rows dataset)).
  set (F := fun c => {| columns := columns dataset;
                        rows := rows_of_campaign dataset j c |}).
  exists (unique col), (map F (unique col)).
  assert (Hnth : forall n c p, nth_error (unique col) n = Some c ->
                   nth_error (map F (unique col)) n = Some p -> p = F c).
  { intros n c p Hc Hp. rewrite nth_error_map, Hc in Hp. simpl in Hp. congruence. }
  assert (Hperm : Permutation (concat (map rows (map F (unique col))))
            (List.filter (fun r => negb (is_nan (cell (snd r) j))) (rows dataset))).
  { rewrite map_map. simpl. unfold rows_of_campaign.
    etransitivity; [apply partition_permutation, unique_from_distinct|].
    erewrite filter_ext_in; [reflexivity|].
    intros r Hr. simpl. apply covered_by_unique.
    unfold col. apply in_map_iff. eauto. }
  split; [|split; [|split; [|split; [|split; [|split]]]]].
  - unfold unique_campaigns, getitem_col. now rewrite Hj.
  - now rewrite (campaign_data_loop_closed _ _ _ j).
  - now rewrite length_map.
  - intros n c p r Hc Hp. rewrite (Hnth _ _ _ Hc Hp). simpl.
    unfold rows_of_campaign. apply filter_In.
  - intros n n' p p' r Hne Hp Hp' Hin Hin'.
    destruct (nth_error (unique col) n) as [c|] eqn:Hc;
      [|rewrite nth_error_map, Hc in Hp; discriminate].
    destruct (nth_error (unique col) n') as [c'|] eqn:Hc';
      [|rewrite nth_error_map, Hc' in Hp'; discriminate].
    rewrite (Hnth _ _ _ Hc Hp) in Hin. rewrite (Hnth _ _ _ Hc' Hp') in Hin'.
    simpl in Hin, Hin'. apply filter_In in Hin, Hin'.
    destruct Hin as [_ Hin], Hin' as [_ Hin'].
    apply py_eq_true in Hin, Hin'. destruct Hin as [<- _], Hin' as [<- _].
    pose proof (distinct_keys_nth _ _ _ _ _ (unique_from_distinct [] col) Hne Hc Hc') as Hk.
    rewrite same_key_refl in Hk. discriminate.
  - exact Hperm.
  - intros Hall. etransitivity; [exact Hperm|].
    assert (Heq : List.filter (fun r => negb (is_nan (cell (snd r) j))) (rows dataset)
                  = rows dataset).
    { apply filter_all. intros r Hr. now rewrite (Hall r Hr). }
    now rewrite Heq.
Qed.

Lemma C5_partitions_witness :
  exists campaigns parts,
    unique_campaigns Examples.gap_table "campaign" = Ok campaigns
    /\ campaign_data_loop campaigns "campaign" Examples.gap_table [] = Ok parts
    /\ length parts = length campaigns
    /\ (forall n c p r,
          nth_error campaigns n = Some c -> nth_error parts n = Some p ->
          (In r (rows p) <->
           In r (rows Examples.gap_table) /\ py_eq (cell (snd r) 1) c = true))
    /\ (forall n n' p p' r,
          n <> n' -> nth_error parts n = Some p -> nth_error parts n' = Some p' ->
          In r (rows p) -> ~ In r (rows p'))
    /\ Permutation (concat (map rows parts))
         (List.filter (fun r => negb (is_nan (cell (snd r) 1)))
            (rows Examples.gap_table))
    /\ ((forall r, In r (rows Examples.gap_table) -> is_nan (cell (snd r) 1) = false) ->
        Permutation (concat (map rows parts)) (rows Examples.gap_table)).
Proof.
  apply (C5_partitions Examples.gap_table "campaign" 1). reflexivity.
Defined.

(** ** Validation *)

Lemma eat_mono (c c' : Re.class) (n : nat) (s s' : string) :
  (forall a, Re.in_class c a = true -> Re.in_class c' a = true) ->
  Re.eat c n s = Some s' -> Re.eat c' n s = Some s'.
Proof.
  intros Hc. revert s. induction n as [|n IH]; intros s; simpl; [auto|].
  destruct s as [|a s]; [discriminate|].
  destruct (Re.in_class c a) eqn:Ha; [|discriminate].
  rewrite (Hc a Ha). apply IH.
Qed.

Lemma fullmatch_mono (r r' : list Re.token) (s : string) :
  Forall2 token_le r r' -> Re.fullmatch r s = true -> Re.fullmatch r' s = true.
Proof.
  intros Hle. revert s.
  induction Hle as [|t t' r r' Ht Hle IH]; intros s; simpl; [auto|].
  destruct Ht as [c c' n Hc | a].
  - destruct (Re.eat c n s) as [s'|] eqn:He; [|discriminate].
    rewrite (eat_mono c c' n s s' Hc He). apply IH.
  - destruct s as [|b s]; [discriminate|].
    destruct (Ascii.eqb a b); simpl; [apply IH | discriminate].
Qed.

Lemma hex_in_alnum (a : ascii) :
  Re.in_class Re.lower_hex a = true -> Re.in_class Re.lower_alnum a = true.
Proof.
  unfold Re.in_class, Re.lower_hex, Re.lower_alnum.
  cbn [existsb fst snd].
  change (nat_of_ascii "a") with 97%nat. change (nat_of_ascii "f") with 102%nat.
  change (nat_of_ascii "z") with 122%nat.
  generalize (nat_of_ascii a) (nat_of_ascii "0") (nat_of_ascii "9").
  intros n lo hi.
  rewrite !orb_false_r, !orb_true_iff, !andb_true_iff, !Nat.leb_le. lia.
Qed.

Lemma canonical_uuid_matches (s : string) :
  canonical_uuid s = true -> Re.fullmatch client_id_regex s = true.
Proof.
  apply fullmatch_mono. unfold Re.groups.
  repeat (constructor; try (constructor; exact hex_in_alnum)); constructor.
Qed.

Lemma error_checking_rejects (client_id : value) (dataset : pyobj)
    (id_column_name campaign_column_name : string) :
  client_id_accepted client_id = false ->
  exists msg,
    _error_checking client_id dataset id_column_name campaign_column_name
    = Raise (Exception msg).
Proof.
  unfold client_id_accepted, _error_checking.
  destruct client_id as [s| |]; intros H; [rewrite H|..]; simpl; eauto.
Qed.

(** C2, as stated, fails: the pattern of the code takes all of [a-z0-9],
    so an identifier with letters past "f" is no canonical hexadecimal UUID
    and passes validation all the same. *)
Lemma C2_counterexample :
  canonical_uuid "zzzzzzzz-zzzz-zzzz-zzzz-zzzzzzzzzzzz" = false
  /\ _error_checking (VStr "zzzzzzzz-zzzz-zzzz-zzzz-zzzzzzzzzzzz")
       (ODataFrame Examples.scenario_table) "id" "campaign" = Ok tt.
Proof. split; reflexivity. Qed.

(** C2 (amended).  Every client identifier that is not a string matching, in
    full, 8-4-4-4-12 groups of characters from [a-z0-9] makes
    [generate_flowcodes] raise with the world untouched, hence before any
    request is sent; every string that matches, every canonical lowercase
    hexadecimal UUID among them, passes [_error_checking] on a table that
    has both columns. *)
Theorem C2_validation (repr_container : json -> string) (client_id : value)
    (id_column_name campaign_column_name redirect_url : string) (dataset : nat)
    (smart_rules : dict json) (parent_dir : string) (pass_id_as_argument : bool)
    (w : world) (df : DataFrame) (s : string) :
  (client_id_accepted client_id = false ->
   exists msg,
     generate_flowcodes repr_container client_id id_column_name
       campaign_column_name redirect_url dataset smart_rules parent_dir
       pass_id_as_argument w
     = (w, Raise (Exception msg)))
  /\ (Re.fullmatch client_id_regex s = true ->
      col_in id_column_name (columns df) = true ->
      col_in campaign_column_name (columns df) = true ->
      _error_checking (VStr s) (ODataFrame df) id_column_name campaign_column_name
      = Ok tt)
  /\ (canonical_uuid s = true -> Re.fullmatch client_id_regex s = true).
Proof.
  split; [|split].
  - intros H.
    destruct (error_checking_rejects client_id (heap w dataset) id_column_name
                campaign_column_name H) as [msg Hmsg].
    exists msg. unfold generate_flowcodes, bind, deref, lift. simpl.
    now rewrite Hmsg.
  - intros Hs Hi Hc. unfold _error_checking. now rewrite Hs, Hi, Hc.
  - apply canonical_uuid_matches.
Qed.

Lemma C2_validation_witness :
  (exists msg,
     generate_flowcodes Examples.repr_any (VStr "not-a-client-id") "id" "campaign"
       "http://example.com" 0 [] EmptyString true
       (Examples.start Examples.friendly (ODataFrame Examples.scenario_table)
          Examples.home)
     = (Examples.start Examples.friendly (ODataFrame Examples.scenario_table)
          Examples.home,
        Raise (Exception msg)))
  /\ _error_checking Examples.client (ODataFrame Examples.scenario_table)
       "id" "campaign" = Ok tt
  /\ Re.fullmatch client_id_regex "d929d46a-7eba-11ec-90d6-0242ac120003" = true.
Proof.
  split; [|split].
  - apply (proj1 (C2_validation Examples.repr_any (VStr "not-a-client-id") "id"
                    "campaign" "http://example.com" 0 [] EmptyString true
                    (Examples.start Examples.friendly
                       (ODataFrame Examples.scenario_table) Examples.home)
                    Examples.scenario_table EmptyString)).
    reflexivity.
  - apply (proj1 (proj2 (C2_validation Examples.repr_any Examples.client "id"
                           "campaign" "http://example.com" 0 [] EmptyString true
                           (Examples.start Examples.friendly
                              (ODataFrame Examples.scenario_table) Examples.home)
                           Examples.scenario_table
                           "d929d46a-7eba-11ec-90d6-0242ac120003")));
      reflexivity.
  - apply (proj2 (proj2 (C2_validation Examples.repr_any Examples.client "id"
                           "campaign" "http://example.com" 0 [] EmptyString true
                           (Examples.start Examples.friendly
                              (ODataFrame Examples.scenario_table) Examples.home)
                           Examples.scenario_table
                           "d929d46a-7eba-11ec-90d6-0242ac120003"))).
    reflexivity.
Defined.

(** ** Campaign creation *)

Lemma campaigns_loop_cons (c : value) (rest : list value) (client_id : value)
    (reserved_urls : bool) (w : world) :
  campaigns_loop (c :: rest) client_id reserved_urls w
  = let rq := campaign_request c client_id reserved_urls in
    match server w (net_log w) rq with
    | Reply r =>
        if is_error_status (status_code r) && negb (status_code r =? 409)
        then (logged w rq, Raise (HTTPError r))
        else campaigns_loop rest client_id reserved_urls (logged w rq)
    | NoReply msg => (logged w rq, Raise (RequestException msg))
    end.
Proof.
  cbn [campaigns_loop]. unfold bind, try_except_HTTPError, send, raise_for_status,
    logged, campaign_request. cbn zeta.
  destruct (server w (net_log w) _) as [r|msg]; [|reflexivity].
  destruct (is_error_status (status_code r)); simpl; [|reflexivity].
  destruct (status_code r =? 409); reflexivity.
Qed.

Lemma campaigns_loop_app (pre post : list value) (client_id : value)
    (reserved_urls : bool) (w : world) :
  campaigns_loop (pre ++ post) client_id reserved_urls w
  = match campaigns_loop pre client_id reserved_urls w with
    | (w', Ok _) => campaigns_loop post client_id reserved_urls w'
    | (w', Raise e) => (w', Raise e)
    end.
Proof.
  revert w. induction pre as [|c pre IH]; intros w; [reflexivity|].
  rewrite <- app_comm_cons, !campaigns_loop_cons. cbn zeta.
  destruct (server w (net_log w) _) as [r|msg]; [|reflexivity].
  destruct (is_error_status (status_code r) && negb (status_code r =? 409));
    [reflexivity | apply IH].
Qed.

Lemma campaigns_loop_tolerated (campaigns : list value) (client_id : value)
    (reserved_urls : bool) (w : world) :
  (forall log rq, tolerated (server w log rq) = true) ->
  exists w',
    campaigns_loop campaigns client_id reserved_urls w = (w', Ok tt)
    /\ server w' = server w
    /\ map fst (net_log w')
       = map fst (net_log w)
         ++ map (fun c => campaign_request c client_id reserved_urls) campaigns.
Proof.
  revert w. induction campaigns as [|c cs IH]; intros w Hsrv.
  - exists w. simpl. rewrite app_nil_r. auto.
  - rewrite campaigns_loop_cons. cbn zeta.
    pose proof (Hsrv (net_log w) (campaign_request c client_id reserved_urls)) as Ht.
    destruct (server w (net_log w) _) as [r|msg] eqn:Hr; [|discriminate].
    simpl in Ht.
    replace (is_error_status (status_code r) && negb (status_code r =? 409))
      with false
      by (destruct (is_error_status (status_code r)), (status_code r =? 409);
          simpl in *; congruence).
    destruct (IH (logged w (campaign_request c client_id reserved_urls)))
      as (w' & Hrun & Hs & Hlog); [exact Hsrv|].
    exists w'. split; [exact Hrun|]. split; [exact Hs|].
    rewrite Hlog. unfold logged. simpl. rewrite map_app, <- app_assoc. reflexivity.
Qed.

(** C3.  Once the loop of [_generate_campaigns] has gone through the
    campaigns before [c] and the request for [c] is answered with [r]:
    a 409 raises nothing and the run is the run of the campaigns after [c]
    from the world with that one exchange logged; any other status from 400
    to 599 ends the run with the same [HTTPError], the log ending with that
    exchange, so no further request is sent.  With a service that only
    answers with 409 or a status that is no error, every campaign gets its
    request, in order, and the campaign list is returned. *)
Theorem C3_campaign_conflicts (pre post : list value) (c client_id : value)
    (id_column_name campaign_column_name : string) (dataset : DataFrame)
    (reserved_urls : bool) (w w1 : world) (r : response)
    (Hpre : campaigns_loop pre client_id reserved_urls w = (w1, Ok tt))
    (Hr : server w1 (net_log w1) (campaign_request c client_id reserved_urls)
          = Reply r) :
  let campaigns := pre ++ c :: post in
  let w2 := with_net_log w1
              (net_log w1 ++ [(campaign_request c client_id reserved_urls, Reply r)]) in
  (status_code r = 409 ->
   _generate_campaigns campaigns client_id id_column_name campaign_column_name
     dataset reserved_urls w
   = match campaigns_loop post client_id reserved_urls w2 with
     | (w3, Ok _) => (w3, Ok campaigns)
     | (w3, Raise e) => (w3, Raise e)
     end)
  /\ (is_error_status (status_code r) = true -> status_code r <> 409 ->
      _generate_campaigns campaigns client_id id_column_name campaign_column_name
        dataset reserved_urls w
      = (w2, Raise (HTTPError r)))
  /\ ((forall log rq, tolerated (server w log rq) = true) ->
      exists w3,
        _generate_campaigns campaigns client_id id_column_name campaign_column_name
          dataset reserved_urls w
        = (w3, Ok campaigns)
        /\ map fst (net_log w3)
           = map fst (net_log w)
             ++ map (fun c => campaign_request c client_id reserved_urls) campaigns).
Proof.
  intros campaigns w2.
  assert (Hrun : campaigns_loop campaigns client_id reserved_urls w
                 = if is_error_status (status_code r) && negb (status_code r =? 409)
                   then (w2, Raise (HTTPError r))
                   else campaigns_loop post client_id reserved_urls w2).
  { unfold campaigns. rewrite campaigns_loop_app, Hpre, campaigns_loop_cons.
    cbn zeta. unfold logged. rewrite Hr. reflexivity. }
  split; [|split].
  - intros H409. unfold _generate_campaigns, bind. rewrite Hrun, H409.
    rewrite andb_false_r.
    destruct (campaigns_loop post client_id reserved_urls w2) as [w3 [[]|e]];
      reflexivity.
  - intros Herr Hne. unfold _generate_campaigns, bind. rewrite Hrun, Herr.
    apply Z.eqb_neq in Hne. rewrite Hne. reflexivity.
  - intros Hsrv.
    destruct (campaigns_loop_tolerated campaigns client_id reserved_urls w Hsrv)
      as (w3 & Hall & _ & Hlog).
    exists w3. unfold _generate_campaigns, bind. rewrite Hall. auto.
Qed.

Lemma C3_campaign_conflicts_witness :
  (let w := Examples.start (Examples.refusing 409)
              (ODataFrame Examples.scenario_table) Examples.home in
   snd (_generate_campaigns [VStr "A"; VStr "B"; VStr "C"] Examples.client
          "id" "campaign" Examples.scenario_table false w)
   = Ok [VStr "A"; VStr "B"; VStr "C"]
   /\ length (net_log (fst (_generate_campaigns [VStr "A"; VStr "B"; VStr "C"]
                               Examples.client "id" "campaign"
                               Examples.scenario_table false w))) = 3%nat)
  /\ (let w := Examples.start (Examples.refusing 500)
                 (ODataFrame Examples.scenario_table) Examples.home in
      _generate_campaigns [VStr "A"; VStr "B"] Examples.client "id" "campaign"
        Examples.scenario_table false w
      = (logged w (campaign_request (VStr "A") Examples.client false),
         Raise (HTTPError (Examples.status_response 500)))).
Proof.
  split.
  - intros w.
    pose proof (C3_campaign_conflicts [VStr "A"] [VStr "C"] (VStr "B")
                  Examples.client "id" "campaign" Examples.scenario_table false w
                  (logged w (campaign_request (VStr "A") Examples.client false))
                  (Examples.status_response 409) eq_refl eq_refl) as H.
    cbv zeta in H. cbn [app] in H. destruct H as (H409 & _ & _).
    rewrite (H409 eq_refl). split; reflexivity.
  - intros w.
    pose proof (C3_campaign_conflicts [] [VStr "B"] (VStr "A")
                  Examples.client "id" "campaign" Examples.scenario_table false w w
                  (Examples.status_response 500) eq_refl eq_refl) as H.
    cbv zeta in H. cbn [app] in H. destruct H as (_ & H500 & _).
    rewrite H500; [reflexivity | reflexivity | discriminate].
Defined.

(** ** Submission of the URL requests *)

Lemma urls_loop_cons (index : nat) (val : list url_request)
    (rest : list (nat * list url_request)) (campaigns : list value)
    (client_id : value) (smart_rules : dict json)
    (responses : dict response) (w : world) :
  urls_loop ((index, val) :: rest) campaigns client_id smart_rules responses w
  = match val with
    | [] => urls_loop rest campaigns client_id smart_rules responses w
    | _ :: _ =>
        match nth_error campaigns index with
        | None => (w, Raise IndexError)
        | Some c =>
            let rq := codes_request client_id c val smart_rules in
            match server w (net_log w) rq with
            | Reply r =>
                if is_error_status (status_code r) then
                  if status_code r =? 409
                  then urls_loop rest campaigns client_id smart_rules responses
                         (logged w rq)
                  else (logged w rq, Raise (HTTPError r))
                else urls_loop rest campaigns client_id smart_rules
                       (dict_set responses (py_str c) r) (logged w rq)
            | NoReply msg => (logged w rq, Raise (RequestException msg))
            end
        end
    end.
Proof.
  cbn [urls_loop]. destruct val as [|u val]; [reflexivity|].
  unfold bind, lift, getitem_array.
  destruct (nth_error campaigns index) as [c|]; [|reflexivity].
  unfold try_except_HTTPError, send, raise_for_status, logged, codes_request, ret,
    throw. cbn zeta.
  destruct (server w (net_log w) _) as [r|msg]; [|reflexivity].
  destruct (is_error_status (status_code r)); [|reflexivity].
  destruct (status_code r =? 409); reflexivity.
Qed.

Lemma urls_loop_skips_empty (items : list (nat * list url_request))
    (campaigns : list value) (client_id : value) (smart_rules : dict json)
    (responses : dict response) (w : world) :
  urls_loop items campaigns client_id smart_rules responses w
  = urls_loop (List.filter has_urls items) campaigns client_id smart_rules responses w.
Proof.
  revert responses w.
  induction items as [|[index val] rest IH]; intros responses w; [reflexivity|].
  destruct val as [|u val].
  - rewrite urls_loop_cons. simpl. apply IH.
  - change (List.filter has_urls ((index, u :: val) :: rest))
      with ((index, u :: val) :: List.filter has_urls rest).
    rewrite !urls_loop_cons.
    destruct (nth_error campaigns index) as [c|]; [|reflexivity]. cbn zeta.
    destruct (server w (net_log w) _) as [r|msg]; [|reflexivity].
    destruct (is_error_status (status_code r)); [|apply IH].
    destruct (status_code r =? 409); [apply IH | reflexivity].
Qed.

Lemma campaign_name_of_codes_request (client_id c : value)
    (urls : list url_request) (smart_rules : dict json) :
  campaign_name_of (codes_request client_id c urls smart_rules) = Some (py_str c).
Proof. destruct smart_rules; reflexivity. Qed.

Lemma keys_dict_set {V} (d : dict V) (k0 : string) (v : V) (k : string) :
  In k (keys (dict_set d k0 v)) <-> k = k0 \/ In k (keys d).
Proof.
  induction d as [|[k' v'] d IH]; simpl.
  - intuition.
  - destruct (String.eqb k' k0) eqn:E; simpl.
    + apply String.eqb_eq in E. subst. intuition.
    + rewrite IH. intuition.
Qed.

Lemma urls_loop_log (items : list (nat * list url_request)) (campaigns : list value)
    (client_id : value) (smart_rules : dict json) (responses : dict response)
    (w w' : world) (res : result (dict response)) :
  urls_loop items campaigns client_id smart_rules responses w = (w', res) ->
  exists delta,
    net_log w' = net_log w ++ delta
    /\ Forall (batch_of items campaigns client_id smart_rules) delta
    /\ (forall responses', res = Ok responses' ->
        forall k, In k (keys responses') <-> In k (keys responses) \/ submitted k delta).
Proof.
  revert responses w.
  induction items as [|[index val] rest IH]; intros responses w Hrun.
  - injection Hrun as <- <-. exists []. rewrite app_nil_r.
    split; [reflexivity|]. split; [constructor|].
    intros responses' [= <-] k. unfold submitted. split; [tauto|].
    intros [H | (rq & r & [] & _)]. exact H.
  - assert (Hweak : forall delta,
              Forall (batch_of rest campaigns client_id smart_rules) delta ->
              Forall (batch_of ((index, val) :: rest) campaigns client_id
                        smart_rules) delta).
    { intros delta. apply List.Forall_impl. intros ev (i & v & c & Hin & Hrest).
      exists i, v, c. split; [now right | exact Hrest]. }
    rewrite urls_loop_cons in Hrun.
    destruct val as [|u val].
    { destruct (IH _ _ Hrun) as (delta & Hlog & Hall & Hkeys).
      exists delta. auto. }
    destruct (nth_error campaigns index) as [c|] eqn:Hc.
    2:{ injection Hrun as <- <-. exists []. rewrite app_nil_r.
        split; [reflexivity|]. split; [constructor|]. discriminate. }
    cbn zeta in Hrun.
    set (rq := codes_request client_id c (u :: val) smart_rules) in *.
    assert (Hev : forall rp, batch_of ((index, u :: val) :: rest) campaigns
                               client_id smart_rules (rq, rp)).
    { intros rp. exists index, (u :: val), c.
      split; [now left|]. split; [discriminate|]. auto. }
    destruct (server w (net_log w) rq) as [r|msg] eqn:Hr.
    2:{ injection Hrun as <- <-. exists [(rq, NoReply msg)].
        split; [unfold logged; simpl; now rewrite Hr|].
        split; [constructor; [apply Hev | constructor]|]. discriminate. }
    assert (Hlogged : net_log (logged w rq) = net_log w ++ [(rq, Reply r)]).
    { unfold logged. simpl. now rewrite Hr. }
    destruct (is_error_status (status_code r)) eqn:Herr.
    + destruct (status_code r =? 409).
      * destruct (IH _ _ Hrun) as (delta & Hlog & Hall & Hkeys).
        exists ((rq, Reply r) :: delta).
        split; [rewrite Hlog, Hlogged, <- app_assoc; reflexivity|].
        split; [constructor; [apply Hev | apply Hweak, Hall]|].
        intros responses' Hres k. rewrite (Hkeys responses' Hres k).
        unfold submitted. split.
        -- intros [H | (rq' & r' & Hin & Hrest)]; [now left|].
           right. exists rq', r'. split; [now right | exact Hrest].
        -- intros [H | (rq' & r' & [Heq | Hin] & Hok & Hname)]; [now left | |].
           ++ injection Heq as <- <-. congruence.
           ++ right. exists rq', r'. auto.
      * injection Hrun as <- <-. exists [(rq, Reply r)].
        split; [exact Hlogged|].
        split; [constructor; [apply Hev | constructor]|]. discriminate.
    + destruct (IH _ _ Hrun) as (delta & Hlog & Hall & Hkeys).
      exists ((rq, Reply r) :: delta).
      split; [rewrite Hlog, Hlogged, <- app_assoc; reflexivity|].
      split; [constructor; [apply Hev | apply Hweak, Hall]|].
      intros responses' Hres k. rewrite (Hkeys responses' Hres k), keys_dict_set.
      unfold submitted. split.
      * intros [[-> | H] | (rq' & r' & Hin & Hrest)].
        -- right. exists rq, r. split; [now left|]. split; [exact Herr|].
           apply campaign_name_of_codes_request.
        -- now left.
        -- right. exists rq', r'. split; [now right | exact Hrest].
      * intros [H | (rq' & r' & [Heq | Hin] & Hok & Hname)].
        -- left. now right.
        -- injection Heq as <- <-. left. left.
           unfold rq in Hname. rewrite campaign_name_of_codes_request in Hname.
           congruence.
        -- right. exists rq', r'. auto.
Qed.

Lemma urls_loop_all_empty (items : list (nat * list url_request))
    (campaigns : list value) (client_id : value) (smart_rules : dict json)
    (responses : dict response) (w : world) :
  (forall item, In item items -> snd item = []) ->
  urls_loop items campaigns client_id smart_rules responses w = (w, Ok responses).
Proof.
  induction items as [|[index val] rest IH]; intros Hall; [reflexivity|].
  rewrite urls_loop_cons.
  rewrite (Hall (index, val) (or_introl eq_refl) : val = []).
  apply IH. intros item Hin. apply Hall. now right.
Qed.

(** C6.  An empty sequence is passed over: its iteration neither sends a
    request, nor raises, nor touches the mapping, and the loop goes on, so
    [_generate_urls] is the run over the non-empty sequences alone.  Every
    request it sends carries the non-empty sequence of some campaign, every
    key of the returned mapping is the name of a campaign with a non-empty
    sequence, and when all sequences are empty nothing is sent and the
    mapping is empty. *)
Theorem C6_empty_sequences (flowcodes : list (list url_request))
    (campaigns : list value) (client_id : value) (smart_rules : dict json)
    (w : world) :
  (forall index rest responses w0,
     urls_loop ((index, []) :: rest) campaigns client_id smart_rules responses w0
     = urls_loop rest campaigns client_id smart_rules responses w0)
  /\ _generate_urls flowcodes campaigns client_id smart_rules w
     = urls_loop (List.filter has_urls (enumerate flowcodes)) campaigns client_id
         smart_rules [] w
  /\ (exists delta,
        net_log (fst (_generate_urls flowcodes campaigns client_id smart_rules w))
        = net_log w ++ delta
        /\ Forall (batch_of (enumerate flowcodes) campaigns client_id smart_rules)
             delta
        /\ forall responses k,
             snd (_generate_urls flowcodes campaigns client_id smart_rules w)
             = Ok responses ->
             In k (keys responses) ->
             exists index val c,
               In (index, val) (enumerate flowcodes) /\ val <> []
               /\ nth_error campaigns index = Some c /\ k = py_str c)
  /\ ((forall val, In val flowcodes -> val = []) ->
      _generate_urls flowcodes campaigns client_id smart_rules w = (w, Ok [])).
Proof.
  split; [|split; [|split]].
  - intros index rest responses w0. now rewrite urls_loop_cons.
  - unfold _generate_urls. apply urls_loop_skips_empty.
  - unfold _generate_urls.
    destruct (urls_loop (enumerate flowcodes) campaigns client_id smart_rules [] w)
      as [w' res] eqn:Hrun.
    destruct (urls_loop_log _ _ _ _ _ _ _ _ Hrun) as (delta & Hlog & Hall & Hkeys).
    exists delta. split; [exact Hlog|]. split; [exact Hall|].
    intros responses k Hres Hk. simpl in Hres.
    apply (Hkeys responses Hres k) in Hk.
    destruct Hk as [[] | (rq & r & Hin & _ & Hname)].
    rewrite List.Forall_forall in Hall.
    destruct (Hall _ Hin) as (index & val & c & Hitem & Hval & Hc & Hrq).
    simpl in Hrq. subst rq. rewrite campaign_name_of_codes_request in Hname.
    exists index, val, c. repeat split; auto. congruence.
  - intros Hall. unfold _generate_urls. apply urls_loop_all_empty.
    intros [index val] Hin. simpl. apply Hall.
    unfold enumerate in Hin. eapply in_combine_r. exact Hin.
Qed.

Lemma C6_empty_sequences_witness :
  _generate_urls [[]; []] [VStr "A"; VNaN] Examples.client []
    (Examples.start (Examples.refusing 500) (ODataFrame Examples.gap_table)
       Examples.home)
  = (Examples.start (Examples.refusing 500) (ODataFrame Examples.gap_table)
       Examples.home, Ok []).
Proof.
  apply (proj2 (proj2 (proj2 (C6_empty_sequences [[]; []] [VStr "A"; VNaN]
                                 Examples.client []
                                 (Examples.start (Examples.refusing 500)
                                    (ODataFrame Examples.gap_table)
                                    Examples.home))))).
  simpl. intuition.
Defined.

(** C7.  The payload built in [_generate_urls]: with smart rules that have
    an entry it holds them, as they were given, under "smart_rules"; with
    empty smart rules it has no such key; under every other key the payload
    does not depend on the smart rules, and holds the client id, the
    campaign name and the URL requests.  This payload is what the iteration
    of a non-empty sequence sends to the batch endpoint. *)
Theorem C7_smart_rules_pass_through (client_id : value) (campaign_name : string)
    (urls : list url_request) (smart_rules other_rules : dict json) :
  (smart_rules <> [] ->
   dict_get (codes_data client_id campaign_name urls smart_rules) "smart_rules"
   = Some (JDict smart_rules))
  /\ dict_get (codes_data client_id campaign_name urls []) "smart_rules" = None
  /\ ~ In "smart_rules" (keys (codes_data client_id campaign_name urls []))
  /\ (forall k, k <> "smart_rules" ->
        dict_get (codes_data client_id campaign_name urls smart_rules) k
        = dict_get (codes_data client_id campaign_name urls other_rules) k)
  /\ dict_get (codes_data client_id campaign_name urls smart_rules) "client_id"
     = Some (JVal client_id)
  /\ dict_get (codes_data client_id campaign_name urls smart_rules) "campaign_name"
     = Some (JVal (VStr campaign_name))
  /\ dict_get (codes_data client_id campaign_name urls smart_rules) "urls"
     = Some (JList (map json_of_url_request urls))
  /\ (forall index rest campaigns c responses w,
        urls <> [] -> nth_error campaigns index = Some c ->
        exists rp later,
          net_log (fst (urls_loop ((index, urls) :: rest) campaigns client_id
                          smart_rules responses w))
          = net_log w
            ++ (POST_json codes_url
                  (codes_data client_id (py_str c) urls smart_rules), rp) :: later).
Proof.
  split; [|split; [|split; [|split; [|split; [|split; [|split]]]]]].
  - destruct smart_rules; [congruence | reflexivity].
  - reflexivity.
  - simpl. intros [H | [H | [H | []]]]; discriminate.
  - intros k Hk.
    assert (Hne : String.eqb "smart_rules" k = false).
    { apply String.eqb_neq. congruence. }
    destruct smart_rules, other_rules; unfold codes_data; cbn [dict_get];
      rewrite ?Hne; reflexivity.
  - destruct smart_rules; reflexivity.
  - destruct smart_rules; reflexivity.
  - destruct smart_rules; reflexivity.
  - intros index rest campaigns c responses w Hurls Hc.
    rewrite urls_loop_cons. destruct urls as [|u urls]; [congruence|].
    rewrite Hc. cbn zeta.
    set (rq := codes_request client_id c (u :: urls) smart_rules).
    assert (Hgrow : forall resp,
              exists later,
                net_log (fst (urls_loop rest campaigns client_id smart_rules resp
                                (logged w rq)))
                = net_log w ++ (rq, server w (net_log w) rq) :: later).
    { intros resp.
      destruct (urls_loop rest campaigns client_id smart_rules resp (logged w rq))
        as [w' res] eqn:Hrun.
      destruct (urls_loop_log _ _ _ _ _ _ _ _ Hrun) as (delta & Hlog & _).
      exists delta. simpl. rewrite Hlog. unfold logged. simpl.
      now rewrite <- app_assoc. }
    exists (server w (net_log w) rq).
    destruct (server w (net_log w) rq) as [r|msg] eqn:Hr.
    + destruct (is_error_status (status_code r)).
      * destruct (status_code r =? 409).
        -- destruct (Hgrow responses) as [later Hl]. exists later.
           rewrite Hl. reflexivity.
        -- exists []. unfold logged. simpl. now rewrite Hr.
      * destruct (Hgrow (dict_set responses (py_str c) r)) as [later Hl].
        exists later. rewrite Hl. reflexivity.
    + exists []. unfold logged. simpl. now rewrite Hr.
Qed.

Lemma C7_smart_rules_pass_through_witness :
  dict_get (codes_data Examples.client "A" [] [("rule", JBool true)]) "smart_rules"
  = Some (JDict [("rule", JBool true)])
  /\ dict_get (codes_data Examples.client "A" [] [("rule", JBool true)]) "urls"
     = dict_get (codes_data Examples.client "A" [] []) "urls".
Proof.
  split.
  - apply (proj1 (C7_smart_rules_pass_through Examples.client "A" []
                    [("rule", JBool true)] [])).
    discriminate.
  - apply (proj1 (proj2 (proj2 (proj2 (C7_smart_rules_pass_through Examples.client
                                          "A" [] [("rule", JBool true)] []))))).
    discriminate.
Defined.

(** ** Files and downloads *)

Lemma world_le_refl (w : world) : world_le w w.
Proof.
  constructor; eauto. exists []. now rewrite app_nil_r.
Qed.

Lemma world_le_trans (w1 w2 w3 : world) :
  world_le w1 w2 -> world_le w2 w3 -> world_le w1 w3.
Proof.
  intros [H1 C1 S1 [d1 L1] D1 F1 I1] [H2 C2 S2 [d2 L2] D2 F2 I2].
  constructor; try congruence; auto.
  - exists (d1 ++ d2). rewrite L2, L1. now rewrite app_assoc.
  - intros loc bytes Hb. destruct (F1 _ _ Hb) as [bytes' Hb']. eauto.
Qed.

Lemma world_le_logged (w : world) (rq : request) : world_le w (logged w rq).
Proof.
  constructor; try reflexivity.
  - eexists. reflexivity.
  - auto.
  - eauto.
  - intros loc (q & r & Hin & Hp). exists q, r. split; [|exact Hp].
    unfold logged. simpl. apply in_or_app. now left.
Qed.

Lemma send_spec (rq : request) (w : world) :
  send rq w
  = (logged w rq,
     match server w (net_log w) rq with
     | Reply r => Ok r
     | NoReply msg => Raise (RequestException msg)
     end).
Proof. unfold send, logged. now destruct (server w (net_log w) rq). Qed.

(** *** Paths *)

Lemma pieces_cons (p : string) : exists x xs, pieces p = x :: xs.
Proof.
  induction p as [|c p (x & xs & IH)]; simpl; [eauto|].
  destruct (Ascii.eqb c "/"); [eauto|]. rewrite IH. eauto.
Qed.

Lemma pieces_append (p t : string) :
  pieces (p +:+ String "/" t) = pieces p ++ pieces t.
Proof.
  induction p as [|c p IH].
  - reflexivity.
  - change (pieces (String c (p +:+ String "/" t))
            = pieces (String c p) ++ pieces t).
    cbn [pieces]. rewrite IH.
    destruct (Ascii.eqb c "/"); [reflexivity|].
    destruct (pieces_cons p) as (x & xs & ->). reflexivity.
Qed.

Lemma names_append (p t : string) :
  names (p +:+ String "/" t) = names p ++ names t.
Proof. unfold names. now rewrite pieces_append, List.filter_app. Qed.

Lemma is_absolute_append (p t : string) :
  p <> EmptyString -> is_absolute (p +:+ t) = is_absolute p.
Proof. destruct p; [congruence | reflexivity]. Qed.

Lemma walk_app (m : gmap location node) (loc : location) (cs ds : list string) :
  walk m loc (cs ++ ds)
  = match walk m loc cs with
    | Found loc' => walk m loc' ds
    | Errno k => Errno k
    end.
Proof.
  revert loc. induction cs as [|c cs IH]; intros loc; simpl; [reflexivity|].
  destruct (enter m loc c); [apply IH | reflexivity].
Qed.

(** Going through every name of a path, the last one included, gets to
    the directory that the path leads to. *)
Lemma walk_names (m : gmap location node) (h : location) (p : string) :
  p <> EmptyString ->
  walk m (if is_absolute p then [] else h) (names p)
  = match resolve m h p with
    | Errno k => Errno k
    | Found (Reached loc) => Found loc
    | Found (Entry loc) =>
        match m !! loc with
        | Some Dir => Found loc
        | Some (File _) => Errno ENOTDIR
        | None => Errno ENOENT
        end
    end.
Proof.
  intros Hp. unfold resolve. destruct p as [|a p]; [congruence|]. cbv zeta.
  generalize (if is_absolute (String a p) then [] else h) as start.
  generalize (names (String a p)) as ns. intros ns start.
  destruct ns as [|c cs]; [reflexivity|].
  assert (Hne : c :: cs <> []) by discriminate.
  rewrite (app_removelast_last "." Hne) at 1. rewrite walk_app.
  destruct (walk m start (removelast (c :: cs))) as [loc|k]; [|reflexivity].
  cbn [walk]. unfold enter.
  destruct (String.eqb (List.last (c :: cs) ".") "."); [reflexivity|].
  destruct (String.eqb (List.last (c :: cs) ".") ".."); [reflexivity|].
  destruct (m !! _) as [[|bytes]|]; reflexivity.
Qed.

(** A plain name under a directory given by its path. *)
Lemma resolve_child (m : gmap location node) (h : location) (p : string) :
  p <> EmptyString ->
  resolve m h (p +:+ "/flowcode_images")
  = match walk m (if is_absolute p then [] else h) (names p) with
    | Found loc => Found (Entry (loc ++ ["flowcode_images"]))
    | Errno k => Errno k
    end.
Proof.
  intros Hp. unfold resolve.
  destruct (p +:+ "/flowcode_images") as [|a q] eqn:Hq.
  { destruct p; [congruence | discriminate]. }
  rewrite <- Hq. rewrite (is_absolute_append _ _ Hp).
  change (p +:+ "/flowcode_images") with (p +:+ String "/" "flowcode_images").
  rewrite names_append.
  change (names "flowcode_images") with ["flowcode_images"].
  rewrite removelast_last, last_last.
  destruct (walk m _ (names p)); reflexivity.
Qed.

Lemma enter_le (m m' : gmap location node) (loc loc' : location) (c : string) :
  (forall l, m !! l = Some Dir -> m' !! l = Some Dir) ->
  enter m loc c = Found loc' -> enter m' loc c = Found loc'.
Proof.
  intros Hd. unfold enter.
  destruct (String.eqb c "."); [auto|].
  destruct (String.eqb c ".."); [auto|].
  destruct (m !! (loc ++ [c])) as [[|bytes]|] eqn:E; try discriminate.
  now rewrite (Hd _ E).
Qed.

Lemma walk_le (m m' : gmap location node) (loc loc' : location) (cs : list string) :
  (forall l, m !! l = Some Dir -> m' !! l = Some Dir) ->
  walk m loc cs = Found loc' -> walk m' loc cs = Found loc'.
Proof.
  intros Hd. revert loc. induction cs as [|c cs IH]; intros loc; simpl; [auto|].
  destruct (enter m loc c) as [l|k] eqn:E; [|discriminate].
  rewrite (enter_le _ _ _ _ _ Hd E). apply IH.
Qed.

Lemma resolve_le (w w' : world) (p : string) (t : target) :
  world_le w w' ->
  resolve (fs w) (here w) p = Found t -> resolve (fs w') (here w') p = Found t.
Proof.
  intros Hle. unfold here. rewrite (le_cwd _ _ Hle). unfold resolve.
  destruct p as [|a p]; [discriminate|].
  destruct (walk (fs w) _ _) as [loc|k] eqn:Hw; [|discriminate].
  now rewrite (walk_le _ _ _ _ _ (le_dirs _ _ Hle) Hw).
Qed.

Lemma place_le (w w' : world) (p : string) (loc : location) :
  world_le w w' -> place w p = Some loc -> place w' p = Some loc.
Proof.
  intros Hle. unfold place.
  destruct (resolve (fs w) (here w) p) as [t|k] eqn:Hr; [|discriminate].
  now rewrite (resolve_le _ _ _ _ Hle Hr).
Qed.

Lemma stat_le (w w' : world) (p : string) (n : node) :
  world_le w w' -> stat w p = Found n ->
  exists n', stat w' p = Found n' /\ (n = Dir -> n' = Dir).
Proof.
  intros Hle. unfold stat.
  destruct (resolve (fs w) (here w) p) as [[loc|loc]|k] eqn:Hr; [| |discriminate];
    rewrite (resolve_le _ _ _ _ Hle Hr).
  - intros [= <-]. eauto.
  - destruct (fs w !! loc) as [[|bytes]|] eqn:Hl; [| |discriminate].
    + intros [= <-]. rewrite (le_dirs _ _ Hle _ Hl). eauto.
    + destruct (le_files _ _ Hle _ _ Hl) as [bytes' ->].
      destruct (ends_with_separator p); [discriminate|].
      intros [= <-]. exists (File bytes'). split; [reflexivity | discriminate].
Qed.

Lemma written_le (w w' : world) (p : string) :
  world_le w w' -> written w p -> written w' p.
Proof.
  intros Hle (q & r & Hin & Hs). unfold stat in Hs.
  destruct (resolve (fs w) (here w) p) as [[loc|loc]|k] eqn:Hr; try discriminate.
  destruct (fs w !! loc) as [[|bytes]|] eqn:Hl; try discriminate.
  destruct (ends_with_separator p) eqn:Hsep; [discriminate|].
  injection Hs as ->.
  destruct (le_images _ _ Hle loc) as (q' & r' & Hin' & Hl').
  { exists q, r. auto. }
  exists q', r'. split; [exact Hin'|].
  unfold stat. now rewrite (resolve_le _ _ _ _ Hle Hr), Hl', Hsep.
Qed.

(** *** Creating a directory *)

Lemma os_error_kind (k : errno) (p : string) : os_or_transport (os_error k p).
Proof. destruct k; exact I. Qed.

Lemma mkdir_cases (p : string) (w w' : world) (res : result unit) :
  mkdir p w = (w', res) ->
  (w' = w /\ exists e, res = Raise e /\ os_or_transport e)
  \/ (res = Ok tt
      /\ exists loc,
           resolve (fs w) (here w) p = Found (Entry loc)
           /\ fs w !! loc = None
           /\ w' = with_fs w (<[loc := Dir]> (fs w))).
Proof.
  unfold mkdir.
  destruct (resolve (fs w) (here w) p) as [[loc|loc]|k] eqn:Hr.
  - intros [= <- <-]. left. split; [reflexivity|].
    eexists. split; [reflexivity | exact I].
  - destruct (fs w !! loc) eqn:Hl; intros [= <- <-].
    + left. split; [reflexivity|]. eexists. split; [reflexivity | exact I].
    + right. split; [reflexivity|]. exists loc. auto.
  - intros [= <- <-]. left. split; [reflexivity|].
    eexists. split; [reflexivity | apply os_error_kind].
Qed.

Lemma insert_dir_le (w : world) (loc : location) :
  fs w !! loc = None -> world_le w (with_fs w (<[loc := Dir]> (fs w))).
Proof.
  intros Hnone. constructor; try reflexivity.
  - exists []. simpl. now rewrite app_nil_r.
  - intros l Hl. world_simpl. rewrite lookup_insert_ne by congruence. exact Hl.
  - intros l bytes Hl. world_simpl. exists bytes.
    rewrite lookup_insert_ne by congruence. exact Hl.
  - intros l (q & r & Hin & Hl). exists q, r. world_simpl.
    split; [exact Hin|]. rewrite lookup_insert_ne by congruence. exact Hl.
Qed.

Lemma mkdir_le (p : string) (w w' : world) (res : result unit) :
  mkdir p w = (w', res) -> world_le w w'.
Proof.
  intros H.
  destruct (mkdir_cases _ _ _ _ H) as [[-> _] | (_ & loc & _ & Hnone & ->)];
    [apply world_le_refl | now apply insert_dir_le].
Qed.

Lemma mkdir_log (p : string) (w w' : world) (res : result unit) :
  mkdir p w = (w', res) -> net_log w' = net_log w.
Proof.
  intros H.
  destruct (mkdir_cases _ _ _ _ H) as [[-> _] | (_ & loc & _ & _ & ->)];
    reflexivity.
Qed.

Lemma mkdir_made (p : string) (w w' : world) :
  mkdir p w = (w', Ok tt) ->
  (forall n, stat w p <> Found n) /\ stat w' p = Found Dir.
Proof.
  intros H.
  destruct (mkdir_cases _ _ _ _ H)
    as [[_ (e & [=] & _)] | (_ & loc & Hr & Hnone & ->)].
  split.
  - intros n. unfold stat. rewrite Hr, Hnone. discriminate.
  - unfold stat. rewrite (resolve_le _ _ _ _ (insert_dir_le _ _ Hnone) Hr).
    world_simpl. now rewrite lookup_insert_eq.
Qed.

Lemma mkdir_present (p : string) (w : world) :
  (exists n, stat w p = Found n) -> mkdir p w = (w, Raise (FileExistsError p)).
Proof.
  intros [n Hn]. unfold stat in Hn. unfold mkdir.
  destruct (resolve (fs w) (here w) p) as [[loc|loc]|k];
    [reflexivity | | discriminate].
  destruct (fs w !! loc) as [[|bytes]|]; [reflexivity | reflexivity | discriminate].
Qed.

(** The root folder is created when the parent directory is there. *)
Lemma mkdir_under_parent (parent_dir : string) (w : world) :
  parent_dir <> EmptyString ->
  stat w parent_dir = Found Dir ->
  (forall n, stat w (root_dir_of parent_dir) <> Found n) ->
  exists w', mkdir (root_dir_of parent_dir) w = (w', Ok tt).
Proof.
  intros Hne Hparent Hroot.
  pose proof (walk_names (fs w) (here w) parent_dir Hne) as Hwalk.
  pose proof (resolve_child (fs w) (here w) parent_dir Hne) as Hchild.
  unfold stat in Hparent.
  assert (Hloc : exists loc,
            walk (fs w) (if is_absolute parent_dir then [] else here w)
              (names parent_dir) = Found loc).
  { rewrite Hwalk.
    destruct (resolve (fs w) (here w) parent_dir) as [[loc|loc]|k];
      [eauto | | discriminate].
    destruct (fs w !! loc) as [[|bytes]|]; [eauto | | discriminate].
    destruct (ends_with_separator parent_dir); discriminate. }
  destruct Hloc as [loc Hloc]. rewrite Hloc in Hchild.
  unfold root_dir_of in *. unfold mkdir. rewrite Hchild.
  destruct (fs w !! (loc ++ ["flowcode_images"])) as [n|] eqn:Hl; [|eauto].
  exfalso. unfold stat in Hroot. rewrite Hchild, Hl in Hroot.
  destruct n as [|bytes]; [now apply (Hroot Dir)|].
  apply (Hroot (File bytes)).
  change (parent_dir +:+ "/flowcode_images")
    with (parent_dir +:+ String "/" "flowcode_images").
  unfold ends_with_separator. rewrite pieces_append.
  change (pieces "flowcode_images") with ["flowcode_images"].
  now rewrite last_last.
Qed.

(** *** Writing a file *)

Lemma write_file_cases (p bytes : string) (w w' : world) (res : result unit) :
  write_file p bytes w = (w', res) ->
  (w' = w /\ exists e, res = Raise e /\ os_or_transport e)
  \/ (res = Ok tt
      /\ exists loc,
           resolve (fs w) (here w) p = Found (Entry loc)
           /\ fs w !! loc <> Some Dir
           /\ ends_with_separator p = false
           /\ w' = with_fs w (<[loc := File bytes]> (fs w))).
Proof.
  unfold write_file.
  assert (Hstop : forall e, os_or_transport e ->
            (w, Raise e) = (w', res) ->
            (w' = w /\ exists e, res = Raise e /\ os_or_transport e)
            \/ (res = Ok tt
                /\ exists loc,
                     resolve (fs w) (here w) p = Found (Entry loc)
                     /\ fs w !! loc <> Some Dir
                     /\ ends_with_separator p = false
                     /\ w' = with_fs w (<[loc := File bytes]> (fs w)))).
  { intros e He [= <- <-]. left. eauto. }
  destruct (resolve (fs w) (here w) p) as [[loc|loc]|k] eqn:Hr.
  - apply Hstop. exact I.
  - destruct (fs w !! loc) as [[|old]|] eqn:Hl.
    + apply Hstop. exact I.
    + destruct (ends_with_separator p) eqn:Hsep; [apply Hstop; exact I|].
      intros [= <- <-]. right. split; [reflexivity|]. exists loc.
      repeat split; auto; congruence.
    + destruct (ends_with_separator p) eqn:Hsep; [apply Hstop; exact I|].
      intros [= <- <-]. right. split; [reflexivity|]. exists loc.
      repeat split; auto; congruence.
  - apply Hstop. apply os_error_kind.
Qed.

(** Storing the bytes just fetched keeps the world in order. *)
Lemma store_le (w : world) (q : json) (r : response) (loc : location) :
  server w (net_log w) (GET q) = Reply r ->
  fs w !! loc <> Some Dir ->
  world_le w (with_fs (logged w (GET q)) (<[loc := File (content r)]> (fs w)))
  /\ image_at (with_fs (logged w (GET q)) (<[loc := File (content r)]> (fs w))) loc.
Proof.
  intros Hr Hp.
  assert (Hin : In (GET q, Reply r) (net_log w ++ [(GET q, server w (net_log w) (GET q))])).
  { apply in_or_app. right. rewrite Hr. now left. }
  split.
  - constructor; try reflexivity.
    + eexists. reflexivity.
    + intros l Hl. world_simpl. rewrite lookup_insert_ne by congruence. exact Hl.
    + intros l bytes Hl. world_simpl. destruct (decide (loc = l)) as [->|Hne].
      * rewrite lookup_insert_eq. eauto.
      * rewrite lookup_insert_ne by congruence. eauto.
    + intros l (q' & r' & Hin' & Hl). world_simpl.
      destruct (decide (loc = l)) as [->|Hne].
      * exists q, r. world_simpl. split; [exact Hin|]. apply lookup_insert_eq.
      * exists q', r'. world_simpl. split; [apply in_or_app; now left|].
        rewrite lookup_insert_ne by congruence; assumption.
  - exists q, r. split; [exact Hin|]. world_simpl. apply lookup_insert_eq.
Qed.

Lemma download_loop_cons (repr_container : json -> string) (campaign_dir : string)
    (e : generated_url) (rest : list generated_url) (w : world) :
  download_loop repr_container campaign_dir (e :: rest) w
  = let rq := GET (qr_code e) in
    match server w (net_log w) rq with
    | NoReply msg => (logged w rq, Raise (RequestException msg))
    | Reply r =>
        match write_file (file_url_of repr_container campaign_dir (obj_id e))
                (content r) (logged w rq) with
        | (w1, Ok _) => download_loop repr_container campaign_dir rest w1
        | (w1, Raise ex) => (w1, Raise ex)
        end
    end.
Proof.
  cbn [download_loop]. unfold bind. rewrite send_spec. cbn zeta.
  destruct (server w (net_log w) (GET (qr_code e))) as [r|msg]; [|reflexivity].
  destruct (write_file _ _ _) as [w1 [[]|ex]]; reflexivity.
Qed.

(** One entry of a campaign: what the world is after the image is
    fetched and stored. *)
Lemma download_step (p : string) (q : json) (r : response) (w w1 : world) :
  server w (net_log w) (GET q) = Reply r ->
  write_file p (content r) (logged w (GET q)) = (w1, Ok tt) ->
  exists loc,
    world_le w w1
    /\ net_log w1 = net_log w ++ [(GET q, Reply r)]
    /\ place w1 p = Some loc
    /\ (forall l, l <> loc -> fs w1 !! l = fs w !! l)
    /\ stat w1 p = Found (File (content r))
    /\ written w1 p.
Proof.
  intros Hr Hwr.
  destruct (write_file_cases _ _ _ _ _ Hwr)
    as [[_ (e & [=] & _)] | (_ & loc & Hres & Hnd & Hsep & ->)].
  change (fs (logged w (GET q))) with (fs w) in *.
  change (here (logged w (GET q))) with (here w) in Hres.
  destruct (store_le w q r loc Hr Hnd) as [Hle Himg].
  pose proof (resolve_le _ _ _ _ Hle Hres) as Hres'.
  assert (Hstat : stat (with_fs (logged w (GET q)) (<[loc := File (content r)]> (fs w))) p
                  = Found (File (content r))).
  { unfold stat. rewrite Hres'. world_simpl. now rewrite lookup_insert_eq, Hsep. }
  exists loc. split; [exact Hle|]. split.
  { world_simpl. now rewrite Hr. }
  split; [unfold place; now rewrite Hres'|]. split.
  { intros l Hl. world_simpl. now rewrite lookup_insert_ne by congruence. }
  split; [exact Hstat|].
  exists q, r. split; [|exact Hstat].
  world_simpl. apply in_or_app. right. rewrite Hr. now left.
Qed.

Lemma download_loop_inv (repr_container : json -> string) (campaign_dir : string)
    (urls : list generated_url) (w w' : world) (res : result unit) :
  download_loop repr_container campaign_dir urls w = (w', res) ->
  world_le w w'
  /\ (exists delta,
        net_log w' = net_log w ++ delta
        /\ Forall (fun ev => exists e, In e urls /\ fst ev = GET (qr_code e)) delta)
  /\ (res = Ok tt ->
      forall e, In e urls ->
        written w' (file_url_of repr_container campaign_dir (obj_id e))).
Proof.
  revert w. induction urls as [|e rest IH]; intros w Hrun.
  - injection Hrun as <- <-. split; [apply world_le_refl|].
    split; [exists []; rewrite app_nil_r; split; [reflexivity | constructor]|].
    intros _ e [].
  - rewrite download_loop_cons in Hrun. cbn zeta in Hrun.
    set (rq := GET (qr_code e)) in *.
    set (p := file_url_of repr_container campaign_dir (obj_id e)) in *.
    assert (Hstop : forall ex, (w', res) = (logged w rq, Raise ex) ->
              world_le w w'
              /\ (exists delta,
                    net_log w' = net_log w ++ delta
                    /\ Forall (fun ev => exists e0, In e0 (e :: rest)
                                         /\ fst ev = GET (qr_code e0)) delta)
              /\ (res = Ok tt ->
                  forall e0, In e0 (e :: rest) ->
                    written w' (file_url_of repr_container campaign_dir (obj_id e0)))).
    { intros ex [= -> ->]. split; [apply world_le_logged|].
      split; [|discriminate].
      eexists. split; [reflexivity|]. constructor; [|constructor].
      exists e. split; [now left | reflexivity]. }
    destruct (server w (net_log w) rq) as [r|msg] eqn:Hr;
      [|now apply (Hstop (RequestException msg))].
    destruct (write_file p (content r) (logged w rq)) as [w1 [[]|ex]] eqn:Hwr.
    2:{ destruct (write_file_cases _ _ _ _ _ Hwr)
          as [[-> _] | ([=] & _)]. now apply (Hstop ex). }
    destruct (download_step _ _ _ _ _ Hr Hwr)
      as (loc & Hle & Hlog & _ & _ & _ & Hw).
    destruct (IH _ Hrun) as (Hle' & (delta & Hlog' & Hall) & Hfiles).
    split; [eapply world_le_trans; eauto|]. split.
    + exists ((rq, Reply r) :: delta). split.
      * rewrite Hlog', Hlog. now rewrite <- app_assoc.
      * constructor; [exists e; split; [now left | reflexivity]|].
        eapply List.Forall_impl; [|exact Hall].
        intros ev (e0 & Hin & Hev). exists e0. split; [now right | exact Hev].
    + intros Hok e0 [<- | Hin]; [|now apply Hfiles].
      apply (written_le _ _ _ Hle'). exact Hw.
Qed.

Lemma svgs_loop_cons (repr_container : json -> string) (root_dir campaign : string)
    (urls : list generated_url) (rest : dict (list generated_url)) (w : world) :
  svgs_loop repr_container root_dir ((campaign, urls) :: rest) w
  = match mkdir (campaign_dir_of root_dir campaign) w with
    | (w1, Raise e) => (w1, Raise e)
    | (w1, Ok _) =>
        match download_loop repr_container (campaign_dir_of root_dir campaign) urls w1 with
        | (w2, Raise e) => (w2, Raise e)
        | (w2, Ok _) => svgs_loop repr_container root_dir rest w2
        end
    end.
Proof.
  cbn [svgs_loop]. unfold bind.
  destruct (mkdir (campaign_dir_of root_dir campaign) w) as [w1 [[]|e]]; reflexivity.
Qed.

Lemma svgs_loop_app (repr_container : json -> string) (root_dir : string)
    (pre post : dict (list generated_url)) (w : world) :
  svgs_loop repr_container root_dir (pre ++ post) w
  = match svgs_loop repr_container root_dir pre w with
    | (w1, Ok _) => svgs_loop repr_container root_dir post w1
    | (w1, Raise e) => (w1, Raise e)
    end.
Proof.
  revert w. induction pre as [|[c urls] pre IH]; intros w; [reflexivity|].
  rewrite <- app_comm_cons, !svgs_loop_cons.
  destruct (mkdir (campaign_dir_of root_dir c) w) as [w1 [[]|e]]; [|reflexivity].
  destruct (download_loop repr_container (campaign_dir_of root_dir c) urls w1)
    as [w2 [[]|e]]; [apply IH | reflexivity].
Qed.

Lemma svgs_loop_inv (repr_container : json -> string) (root_dir : string)
    (items : dict (list generated_url)) (w w' : world) (res : result unit) :
  svgs_loop repr_container root_dir items w = (w', res) ->
  world_le w w'
  /\ (exists delta,
        net_log w' = net_log w ++ delta /\ Forall (download_of items) delta)
  /\ (res = Ok tt ->
      forall campaign urls, In (campaign, urls) items ->
        (forall n, stat w (campaign_dir_of root_dir campaign) <> Found n)
        /\ stat w' (campaign_dir_of root_dir campaign) = Found Dir
        /\ forall e, In e urls ->
             written w' (file_url_of repr_container
                           (campaign_dir_of root_dir campaign) (obj_id e))).
Proof.
  revert w. induction items as [|[c urls] rest IH]; intros w Hrun.
  - injection Hrun as <- <-. split; [apply world_le_refl|].
    split; [exists []; rewrite app_nil_r; split; [reflexivity | constructor]|].
    intros _ campaign urls [].
  - rewrite svgs_loop_cons in Hrun.
    destruct (mkdir (campaign_dir_of root_dir c) w) as [w1 r1] eqn:Hmk.
    pose proof (mkdir_le _ _ _ _ Hmk) as Hle1.
    pose proof (mkdir_log _ _ _ _ Hmk) as Hlog1.
    destruct r1 as [[]|e1].
    2:{ injection Hrun as <- <-. split; [exact Hle1|].
        split; [|discriminate].
        exists []. rewrite app_nil_r. split; [exact Hlog1 | constructor]. }
    destruct (download_loop repr_container (campaign_dir_of root_dir c) urls w1)
      as [w2 r2] eqn:Hdl.
    destruct (download_loop_inv _ _ _ _ _ _ Hdl) as (Hle2 & (d2 & Hlog2 & Hall2) & Hfiles2).
    assert (Hd2 : Forall (download_of ((c, urls) :: rest)) d2).
    { eapply List.Forall_impl; [|exact Hall2].
      intros ev (e & Hin & Hev). exists c, urls, e. split; [now left | auto]. }
    destruct r2 as [[]|e2].
    2:{ injection Hrun as <- <-.
        split; [eapply world_le_trans; eauto|]. split; [|discriminate].
        exists d2. split; [now rewrite Hlog2, Hlog1 | exact Hd2]. }
    destruct (IH _ Hrun) as (Hle3 & (d3 & Hlog3 & Hall3) & Hfiles3).
    assert (Hle12 : world_le w w2) by (eapply world_le_trans; eauto).
    split; [eapply world_le_trans; eauto|].
    split.
    + exists (d2 ++ d3). split; [now rewrite Hlog3, Hlog2, Hlog1, app_assoc|].
      apply Forall_app. split; [exact Hd2|].
      eapply List.Forall_impl; [|exact Hall3].
      intros ev (c' & urls' & e & Hin & Hrest).
      exists c', urls', e. split; [now right | exact Hrest].
    + intros Hok campaign urls' [[= <- <-] | Hin].
      * destruct (mkdir_made _ _ _ Hmk) as [Hnone Hdir].
        split; [exact Hnone|]. split.
        -- destruct (stat_le _ _ _ _ (world_le_trans _ _ _ Hle2 Hle3) Hdir)
             as (n' & Hn' & Hkeep).
           now rewrite Hn', (Hkeep eq_refl).
        -- intros e He. apply (written_le _ _ _ Hle3).
           now apply Hfiles2.
      * destruct (Hfiles3 Hok campaign urls' Hin) as (Hnone & Hdir & Hw).
        split; [|split; [exact Hdir | exact Hw]].
        intros n Hn. destruct (stat_le _ _ _ _ Hle12 Hn) as (n' & Hn' & _).
        now apply (Hnone n').
Qed.

Lemma generate_svgs_unfold (repr_container : json -> string) (parent_dir : string)
    (generated_urls : dict (list generated_url)) (w : world) :
  _generate_svgs repr_container parent_dir generated_urls w
  = let root_dir := root_dir_of parent_dir in
    match stat w root_dir with
    | Found _ => svgs_loop repr_container root_dir generated_urls w
    | Errno _ =>
        match mkdir root_dir w with
        | (w1, Ok _) => svgs_loop repr_container root_dir generated_urls w1
        | (w1, Raise e) => (w1, Raise e)
        end
    end.
Proof.
  unfold _generate_svgs, bind, path_exists. cbn zeta.
  destruct (stat w (root_dir_of parent_dir)); cbn [negb]; [reflexivity|].
  destruct (mkdir (root_dir_of parent_dir) w) as [w1 [[]|e]]; reflexivity.
Qed.

Lemma generate_svgs_inv (repr_container : json -> string) (parent_dir : string)
    (generated_urls : dict (list generated_url)) (w w' : world) (res : result unit) :
  _generate_svgs repr_container parent_dir generated_urls w = (w', res) ->
  world_le w w'
  /\ (exists delta,
        net_log w' = net_log w ++ delta /\ Forall (download_of generated_urls) delta)
  /\ (res = Ok tt ->
      forall campaign urls, In (campaign, urls) generated_urls ->
        (forall n, stat w (campaign_dir_of (root_dir_of parent_dir) campaign) <> Found n)
        /\ stat w' (campaign_dir_of (root_dir_of parent_dir) campaign) = Found Dir
        /\ forall e, In e urls ->
             written w' (file_url_of repr_container
                           (campaign_dir_of (root_dir_of parent_dir) campaign)
                           (obj_id e))).
Proof.
  rewrite generate_svgs_unfold. cbn zeta.
  destruct (stat w (root_dir_of parent_dir)) as [n|k] eqn:Hroot.
  - apply svgs_loop_inv.
  - destruct (mkdir (root_dir_of parent_dir) w) as [w1 r1] eqn:Hmk.
    pose proof (mkdir_le _ _ _ _ Hmk) as Hle.
    pose proof (mkdir_log _ _ _ _ Hmk) as Hlog1.
    destruct r1 as [[]|e1].
    2:{ intros [= <- <-]. split; [exact Hle|]. split; [|discriminate].
        exists []. rewrite app_nil_r. split; [exact Hlog1 | constructor]. }
    intros Hrun.
    destruct (svgs_loop_inv _ _ _ _ _ _ Hrun) as (Hle' & (d & Hlog & Hall) & Hfiles).
    split; [eapply world_le_trans; eauto|]. split.
    { exists d. split; [now rewrite Hlog, Hlog1 | exact Hall]. }
    intros Hok campaign urls Hin.
    destruct (Hfiles Hok campaign urls Hin) as (Hnone & Hrest).
    split; [|exact Hrest].
    intros n Hn. destruct (stat_le _ _ _ _ Hle Hn) as (n' & Hn' & _).
    now apply (Hnone n').
Qed.

(** C9.  The root folder is the parent directory followed by
    "/flowcode_images".  When that path leads to something
    [_generate_svgs] goes straight to the campaigns, with no error and the
    files untouched; when it leads to nothing the folder is created first,
    which succeeds when the parent directory is there, and a failure to
    create it ends the run.  Every campaign directory is then created
    without a look: when the campaigns before one have gone through and its
    path leads to something, the run ends with [FileExistsError] for that
    path, and a run over a mapping one of whose campaign directories is
    there from the start never succeeds.  An entry whose image arrives and
    whose file can be written gets the bytes of the reply at the campaign
    directory, "/", the id and ".svg"; after a successful run every
    campaign directory is a directory and every entry's path leads to a
    file with the bytes of an image that was fetched. *)
Theorem C9_directories_and_files (repr_container : json -> string)
    (parent_dir : string) (generated_urls : dict (list generated_url)) (w : world) :
  let root_dir := root_dir_of parent_dir in
  root_dir = parent_dir +:+ "/flowcode_images"
  /\ ((exists n, stat w root_dir = Found n) ->
      _generate_svgs repr_container parent_dir generated_urls w
      = svgs_loop repr_container root_dir generated_urls w)
  /\ ((forall n, stat w root_dir <> Found n) ->
      _generate_svgs repr_container parent_dir generated_urls w
      = match mkdir root_dir w with
        | (w1, Ok _) => svgs_loop repr_container root_dir generated_urls w1
        | (w1, Raise e) => (w1, Raise e)
        end)
  /\ ((forall n, stat w root_dir <> Found n) ->
      parent_dir <> EmptyString -> stat w parent_dir = Found Dir ->
      exists w1, mkdir root_dir w = (w1, Ok tt))
  /\ (forall p w0 w1,
        mkdir p w0 = (w1, Ok tt) ->
        (forall n, stat w0 p <> Found n) /\ stat w1 p = Found Dir)
  /\ (forall pre campaign urls post w0 w1,
        svgs_loop repr_container root_dir pre w0 = (w1, Ok tt) ->
        (exists n, stat w1 (campaign_dir_of root_dir campaign) = Found n) ->
        svgs_loop repr_container root_dir (pre ++ (campaign, urls) :: post) w0
        = (w1, Raise (FileExistsError (root_dir +:+ ("/" +:+ campaign)))))
  /\ (forall campaign urls,
        In (campaign, urls) generated_urls ->
        (exists n, stat w (campaign_dir_of root_dir campaign) = Found n) ->
        exists e,
          snd (_generate_svgs repr_container parent_dir generated_urls w) = Raise e)
  /\ (forall campaign_dir e rest w0 r w1,
        server w0 (net_log w0) (GET (qr_code e)) = Reply r ->
        write_file
          (campaign_dir +:+ ("/" +:+ json_str repr_container (obj_id e) +:+ ".svg"))
          (content r) (logged w0 (GET (qr_code e))) = (w1, Ok tt) ->
        download_loop repr_container campaign_dir (e :: rest) w0
        = download_loop repr_container campaign_dir rest w1
        /\ stat w1
             (campaign_dir +:+ ("/" +:+ json_str repr_container (obj_id e) +:+ ".svg"))
           = Found (File (content r)))
  /\ (forall w',
        _generate_svgs repr_container parent_dir generated_urls w = (w', Ok tt) ->
        forall campaign urls e,
          In (campaign, urls) generated_urls -> In e urls ->
          stat w' (campaign_dir_of root_dir campaign) = Found Dir
          /\ written w' (campaign_dir_of root_dir campaign
                         +:+ ("/" +:+ json_str repr_container (obj_id e) +:+ ".svg"))).
Proof.
  intros root_dir.
  split; [reflexivity|].
  split; [|split; [|split; [|split; [|split; [|split; [|split]]]]]].
  - intros [n Hn]. rewrite generate_svgs_unfold. cbn zeta.
    fold root_dir. now rewrite Hn.
  - intros Hnone. rewrite generate_svgs_unfold. cbn zeta. fold root_dir.
    destruct (stat w root_dir) as [n|k] eqn:Hs; [now destruct (Hnone n)|].
    reflexivity.
  - intros Hnone Hne Hparent. now apply mkdir_under_parent.
  - intros p w0 w1. apply mkdir_made.
  - intros pre campaign urls post w0 w1 Hpre Hthere.
    rewrite svgs_loop_app, Hpre, svgs_loop_cons.
    now rewrite (mkdir_present _ _ Hthere).
  - intros campaign urls Hin [n Hn].
    destruct (_generate_svgs repr_container parent_dir generated_urls w)
      as [w' [[]|e]] eqn:Hrun; [|eauto].
    exfalso.
    destruct (generate_svgs_inv _ _ _ _ _ _ Hrun) as (_ & _ & Hfiles).
    destruct (Hfiles eq_refl campaign urls Hin) as (Hnone & _).
    now apply (Hnone n).
  - intros campaign_dir e rest w0 r w1 Hr Hwr.
    rewrite download_loop_cons. cbn zeta. unfold file_url_of. rewrite Hr, Hwr.
    split; [reflexivity|].
    destruct (download_step _ _ _ _ _ Hr Hwr) as (loc & _ & _ & _ & _ & Hs & _).
    exact Hs.
  - intros w' Hrun campaign urls e Hin He.
    destruct (generate_svgs_inv _ _ _ _ _ _ Hrun) as (_ & _ & Hfiles).
    destruct (Hfiles eq_refl campaign urls Hin) as (_ & Hdir & Hw).
    split; [exact Hdir | exact (Hw e He)].
Qed.

Lemma C9_directories_and_files_witness :
  (let w := Examples.start Examples.friendly (ODataFrame Examples.scenario_table)
              Examples.home in
   (exists w1, mkdir "/home/user/flowcode_images" w = (w1, Ok tt))
   /\ written (fst (_generate_svgs Examples.repr_any "/home/user" example_codes w))
        "/home/user/flowcode_images/A/x2.svg")
  /\ (let w := Examples.start Examples.friendly (ODataFrame Examples.scenario_table)
                 rerun_files in
      _generate_svgs Examples.repr_any "/home/user" example_codes w
      = svgs_loop Examples.repr_any "/home/user/flowcode_images" example_codes w
      /\ svgs_loop Examples.repr_any "/home/user/flowcode_images" example_codes w
         = (w, Raise (FileExistsError "/home/user/flowcode_images/A"))
      /\ exists e,
           snd (_generate_svgs Examples.repr_any "/home/user" example_codes w)
           = Raise e).
Proof.
  split.
  - intros w.
    pose proof (C9_directories_and_files Examples.repr_any "/home/user"
                  example_codes w) as H.
    cbv zeta in H. destruct H as (_ & _ & _ & Hparent & _ & _ & _ & _ & Hdone).
    split.
    + apply Hparent; [intros n Hn; vm_compute in Hn; discriminate Hn
                     | discriminate | reflexivity].
    + refine (proj2 (Hdone _ _ "A" (snd (hd ("A", []) example_codes))
                       {| obj_id := JVal (VStr "x2");
                          qr_code := JVal (VStr "http://img/x2") |}
                       _ _)).
      * vm_compute. reflexivity.
      * simpl. auto.
      * simpl. auto.
  - intros w.
    pose proof (C9_directories_and_files Examples.repr_any "/home/user"
                  example_codes w) as H.
    cbv zeta in H.
    destruct H as (_ & Hpresent & _ & _ & _ & Hexists & Hnever & _ & _).
    split; [|split].
    + apply Hpresent. vm_compute. eauto.
    + apply (Hexists [] "A" (snd (hd ("A", []) example_codes)) [] w w eq_refl).
      vm_compute. eauto.
    + apply (Hnever "A" (snd (hd ("A", []) example_codes))).
      * simpl. auto.
      * vm_compute. eauto.
Defined.

(** ** From the responses to the downloads *)

Lemma keys_dict_append {V} (d : dict (list V)) (k : string) (x : V) :
  keys (dict_append d k x) = keys d.
Proof.
  induction d as [|[k' l] d IH]; simpl; [reflexivity|].
  destruct (String.eqb k' k); simpl; [reflexivity | now rewrite IH].
Qed.

Lemma readable_loop_keys (items : dict response) (acc rd : dict json) :
  readable_loop items acc = Ok rd ->
  forall k, In k (keys rd) <-> In k (keys acc) \/ In k (keys items).
Proof.
  revert acc. induction items as [|[c r] items IH]; intros acc; simpl.
  - intros [= <-] k. tauto.
  - destruct (response_json r) as [j|e]; simpl; [|discriminate].
    intros Hrun k. rewrite (IH _ Hrun k), keys_dict_set. intuition.
Qed.

Lemma entries_loop_keys (urls : list json) (campaign : string)
    (g g' : dict (list generated_url)) :
  entries_loop urls campaign g = Ok g' -> keys g' = keys g.
Proof.
  revert g. induction urls as [|u urls IH]; intros g; simpl.
  - now intros [= <-].
  - destruct (getitem_key u "id") as [i|]; simpl; [|discriminate].
    destruct (getitem_key u "images") as [images|]; simpl; [|discriminate].
    destruct (getitem_first images) as [image|]; simpl; [|discriminate].
    destruct (getitem_key image "url") as [q|]; simpl; [|discriminate].
    intros Hrun. rewrite (IH _ Hrun). apply keys_dict_append.
Qed.

Lemma generated_loop_keys (items : dict json) (acc gu : dict (list generated_url)) :
  generated_loop items acc = Ok gu ->
  forall k, In k (keys gu) <-> In k (keys acc) \/ In k (keys items).
Proof.
  revert acc. induction items as [|[c urls] items IH]; intros acc; simpl.
  - intros [= <-] k. tauto.
  - destruct (py_iter urls) as [l|]; simpl; [|discriminate].
    destruct (entries_loop l c (dict_set acc c [])) as [g|] eqn:He; simpl;
      [|discriminate].
    intros Hrun k. rewrite (IH _ Hrun k), (entries_loop_keys _ _ _ _ He),
      keys_dict_set. intuition.
Qed.

Lemma process_url_responses_keys (responses : dict response)
    (generated_urls : dict (list generated_url)) :
  _process_url_responses responses = Ok generated_urls ->
  forall k, In k (keys generated_urls) <-> In k (keys responses).
Proof.
  unfold _process_url_responses.
  destruct (readable_loop responses []) as [rd|] eqn:Hrd; simpl; [|discriminate].
  intros Hgen k.
  rewrite (generated_loop_keys _ _ _ Hgen k), (readable_loop_keys _ _ _ Hrd k).
  simpl. tauto.
Qed.

Lemma urls_loop_app (pre post : list (nat * list url_request))
    (campaigns : list value) (client_id : value) (smart_rules : dict json)
    (responses : dict response) (w : world) :
  urls_loop (pre ++ post) campaigns client_id smart_rules responses w
  = match urls_loop pre campaigns client_id smart_rules responses w with
    | (w', Ok responses') =>
        urls_loop post campaigns client_id smart_rules responses' w'
    | (w', Raise e) => (w', Raise e)
    end.
Proof.
  revert responses w.
  induction pre as [|[index val] pre IH]; intros responses w; [reflexivity|].
  rewrite <- app_comm_cons, !urls_loop_cons.
  destruct val as [|u val]; [apply IH|].
  destruct (nth_error campaigns index) as [c|]; [|reflexivity]. cbn zeta.
  destruct (server w (net_log w) _) as [r|msg]; [|reflexivity].
  destruct (is_error_status (status_code r)); [|apply IH].
  destruct (status_code r =? 409); [apply IH | reflexivity].
Qed.

(** C8.  Once [_generate_urls] has gone through the sequences before a
    non-empty one and the batch request for that one is answered with [r]:
    a 409 raises nothing, leaves the mapping as it was, logs that one
    exchange and nothing else, and the run is the run of the sequences
    after it; any other status from 400 to 599 ends the run with that
    [HTTPError] and no further request.  The keys of a returned mapping are
    exactly the names of the campaigns whose batch request was answered
    with a status that is no error.  The later stages keep to that mapping:
    the campaigns of [_process_url_responses] are its keys, and every
    request [_generate_svgs] sends fetches the image of an entry of one of
    them, so a campaign without an entry has no image fetched. *)
Theorem C8_url_conflicts (flowcodes : list (list url_request))
    (pre post : list (nat * list url_request)) (index : nat)
    (val : list url_request) (campaigns : list value) (c client_id : value)
    (smart_rules : dict json) (w w1 : world) (responses1 : dict response)
    (r : response)
    (Hsplit : enumerate flowcodes = pre ++ (index, val) :: post)
    (Hpre : urls_loop pre campaigns client_id smart_rules [] w = (w1, Ok responses1))
    (Hval : val <> [])
    (Hc : nth_error campaigns index = Some c)
    (Hr : server w1 (net_log w1) (codes_request client_id c val smart_rules)
          = Reply r) :
  let w2 := with_net_log w1
              (net_log w1 ++ [(codes_request client_id c val smart_rules, Reply r)]) in
  (status_code r = 409 ->
   _generate_urls flowcodes campaigns client_id smart_rules w
   = urls_loop post campaigns client_id smart_rules responses1 w2)
  /\ (is_error_status (status_code r) = true -> status_code r <> 409 ->
      _generate_urls flowcodes campaigns client_id smart_rules w
      = (w2, Raise (HTTPError r)))
  /\ (forall w' responses,
        _generate_urls flowcodes campaigns client_id smart_rules w
        = (w', Ok responses) ->
        exists delta,
          net_log w' = net_log w ++ delta
          /\ forall k, In k (keys responses) <-> submitted k delta)
  /\ (forall repr_container parent_dir responses generated_urls w0 w' res,
        _process_url_responses responses = Ok generated_urls ->
        _generate_svgs repr_container parent_dir generated_urls w0 = (w', res) ->
        (forall k, In k (keys generated_urls) <-> In k (keys responses))
        /\ exists delta,
             net_log w' = net_log w0 ++ delta
             /\ Forall (fun ev =>
                          exists campaign urls e,
                            In campaign (keys responses)
                            /\ In (campaign, urls) generated_urls
                            /\ In e urls /\ fst ev = GET (qr_code e)) delta).
Proof.
  intros w2.
  assert (Hrun : _generate_urls flowcodes campaigns client_id smart_rules w
                 = if is_error_status (status_code r) then
                     if status_code r =? 409
                     then urls_loop post campaigns client_id smart_rules responses1 w2
                     else (w2, Raise (HTTPError r))
                   else urls_loop post campaigns client_id smart_rules
                          (dict_set responses1 (py_str c) r) w2).
  { unfold _generate_urls. rewrite Hsplit, urls_loop_app, Hpre, urls_loop_cons.
    destruct val as [|u val]; [congruence|].
    rewrite Hc. cbn zeta. unfold logged. rewrite Hr. reflexivity. }
  split; [|split; [|split]].
  - intros H409. rewrite Hrun, H409. reflexivity.
  - intros Herr Hne. rewrite Hrun, Herr. apply Z.eqb_neq in Hne. now rewrite Hne.
  - intros w' responses Hall. unfold _generate_urls in Hall.
    destruct (urls_loop_log _ _ _ _ _ _ _ _ Hall) as (delta & Hlog & _ & Hkeys).
    exists delta. split; [exact Hlog|].
    intros k. rewrite (Hkeys responses eq_refl k). simpl. tauto.
  - intros repr_container parent_dir responses generated_urls w0 w' res Hproc Hsvg.
    pose proof (process_url_responses_keys _ _ Hproc) as Hkeys.
    split; [exact Hkeys|].
    destruct (generate_svgs_inv _ _ _ _ _ _ Hsvg) as (_ & (delta & Hlog & Hall) & _).
    exists delta. split; [exact Hlog|].
    eapply List.Forall_impl; [|exact Hall].
    intros ev (campaign & urls & e & Hin & He & Hev).
    exists campaign, urls, e. repeat split; auto.
    apply Hkeys. unfold keys. apply in_map_iff. exists (campaign, urls). auto.
Qed.

Lemma C8_url_conflicts_witness :
  (let w := Examples.start (Examples.refusing 409)
              (ODataFrame Examples.scenario_table) Examples.home in
   snd (_generate_urls example_flowcodes [VStr "A"; VStr "B"] Examples.client [] w)
   = Ok []
   /\ length (net_log (fst (_generate_urls example_flowcodes [VStr "A"; VStr "B"]
                               Examples.client [] w))) = 2%nat)
  /\ (let w := Examples.start (Examples.refusing 500)
                 (ODataFrame Examples.scenario_table) Examples.home in
      _generate_urls example_flowcodes [VStr "A"; VStr "B"] Examples.client [] w
      = (logged w (codes_request Examples.client (VStr "A")
                     (hd [] example_flowcodes) []),
         Raise (HTTPError (Examples.status_response 500)))).
Proof.
  split.
  - intros w.
    pose proof (C8_url_conflicts example_flowcodes []
                  [(1%nat, nth 1 example_flowcodes [])] 0 (hd [] example_flowcodes)
                  [VStr "A"; VStr "B"] (VStr "A") Examples.client [] w w []
                  (Examples.status_response 409) eq_refl eq_refl) as H.
    cbv zeta in H.
    destruct H as (H409 & _); [discriminate | reflexivity | reflexivity|].
    rewrite (H409 eq_refl). split; reflexivity.
  - intros w.
    pose proof (C8_url_conflicts example_flowcodes []
                  [(1%nat, nth 1 example_flowcodes [])] 0 (hd [] example_flowcodes)
                  [VStr "A"; VStr "B"] (VStr "A") Examples.client [] w w []
                  (Examples.status_response 500) eq_refl eq_refl) as H.
    cbv zeta in H.
    destruct H as (_ & H500 & _); [discriminate | reflexivity | reflexivity|].
    rewrite H500; [reflexivity | reflexivity | discriminate].
Defined.

(** ** The caller's table *)

Lemma keeps_heap_ret {A} (a : A) : keeps_heap (ret a).
Proof. intros w. reflexivity. Qed.

Lemma keeps_heap_throw {A} (e : exn) : keeps_heap (@throw A e).
Proof. intros w. reflexivity. Qed.

Lemma keeps_heap_lift {A} (r : result A) : keeps_heap (lift r).
Proof. intros w. reflexivity. Qed.

Lemma keeps_heap_bind {A B} (m : M A) (k : A -> M B) :
  keeps_heap m -> (forall a, keeps_heap (k a)) -> keeps_heap (bind m k).
Proof.
  intros Hm Hk w. unfold bind. specialize (Hm w).
  destruct (m w) as [w' [a|e]]; simpl in *; [|exact Hm].
  rewrite (Hk a w'). exact Hm.
Qed.

Lemma keeps_heap_try {A} (body : M A) (handler : response -> M A) :
  keeps_heap body -> (forall r, keeps_heap (handler r)) ->
  keeps_heap (try_except_HTTPError body handler).
Proof.
  intros Hb Hh w. unfold try_except_HTTPError. specialize (Hb w).
  destruct (body w) as [w' [a|e]]; simpl in *; [exact Hb|].
  destruct e; simpl; try exact Hb.
  rewrite (Hh r w'). exact Hb.
Qed.

Lemma keeps_heap_send (rq : request) : keeps_heap (send rq).
Proof. intros w. now rewrite send_spec. Qed.

Lemma keeps_heap_raise_for_status (r : response) : keeps_heap (raise_for_status r).
Proof. intros w. unfold raise_for_status. now destruct (is_error_status _). Qed.

Lemma keeps_heap_le {A} (m : M A) :
  (forall w w' res, m w = (w', res) -> world_le w w') -> keeps_heap m.
Proof.
  intros H w. destruct (m w) as [w' res] eqn:Hrun. simpl.
  apply (le_heap _ _ (H _ _ _ Hrun)).
Qed.

Lemma keeps_heap_campaigns_loop (campaigns : list value) (client_id : value)
    (reserved_urls : bool) :
  keeps_heap (campaigns_loop campaigns client_id reserved_urls).
Proof.
  induction campaigns as [|c cs IH]; [apply keeps_heap_ret|].
  cbn [campaigns_loop]. apply keeps_heap_bind; [|intros _; exact IH].
  apply keeps_heap_try.
  - apply keeps_heap_bind; [apply keeps_heap_send|].
    intros r. apply keeps_heap_raise_for_status.
  - intros r. destruct (status_code r =? 409);
      [apply keeps_heap_ret | apply keeps_heap_throw].
Qed.

Lemma keeps_heap_urls_loop (items : list (nat * list url_request))
    (campaigns : list value) (client_id : value) (smart_rules : dict json)
    (responses : dict response) :
  keeps_heap (urls_loop items campaigns client_id smart_rules responses).
Proof.
  revert responses. induction items as [|[index val] rest IH]; intros responses;
    [apply keeps_heap_ret|].
  cbn [urls_loop]. destruct val as [|u val]; [apply IH|].
  apply keeps_heap_bind; [apply keeps_heap_lift|]. intros c.
  apply keeps_heap_bind; [|intros responses'; apply IH].
  apply keeps_heap_try.
  - apply keeps_heap_bind; [apply keeps_heap_send|]. intros r.
    apply keeps_heap_bind; [apply keeps_heap_raise_for_status|].
    intros _. apply keeps_heap_ret.
  - intros r. destruct (status_code r =? 409);
      [apply keeps_heap_ret | apply keeps_heap_throw].
Qed.

Lemma keeps_heap_generate_svgs (repr_container : json -> string)
    (parent_dir : string) (generated_urls : dict (list generated_url)) :
  keeps_heap (_generate_svgs repr_container parent_dir generated_urls).
Proof.
  apply keeps_heap_le. intros w w' res Hrun.
  apply (generate_svgs_inv _ _ _ _ _ _ Hrun).
Qed.

Lemma positions_nth (cols : list string) (name : string) (k i : nat) :
  In i (positions cols name k) ->
  (k <= i)%nat /\ nth (i - k) cols EmptyString = name.
Proof.
  revert k. induction cols as [|c cols IH]; intros k; simpl; [tauto|].
  destruct (String.eqb c name) eqn:E.
  - intros [<- | Hin].
    + rewrite Nat.sub_diag. apply String.eqb_eq in E. auto.
    + destruct (IH _ Hin) as [Hle Hn]. split; [lia|].
      replace (i - k)%nat with (S (i - S k)) by lia. exact Hn.
  - intros Hin. destruct (IH _ Hin) as [Hle Hn]. split; [lia|].
    replace (i - k)%nat with (S (i - S k)) by lia. exact Hn.
Qed.

(** C10.  Whatever the arguments and the outcome, the objects of the caller
    are after the run what they were before it; the table at the address
    passed as [dataset] among them, with its rows, columns and values.  The
    frame the stages work on is a new one: for a table with one column for
    each label it has exactly the two columns, cut from the rows of the
    table. *)
Theorem C10_caller_table_unchanged (repr_container : json -> string)
    (client_id : value) (id_column_name campaign_column_name redirect_url : string)
    (dataset : nat) (smart_rules : dict json) (parent_dir : string)
    (pass_id_as_argument : bool) (w : world) :
  heap (fst (generate_flowcodes repr_container client_id id_column_name
               campaign_column_name redirect_url dataset smart_rules parent_dir
               pass_id_as_argument w))
  = heap w
  /\ heap (fst (generate_flowcodes repr_container client_id id_column_name
                  campaign_column_name redirect_url dataset smart_rules parent_dir
                  pass_id_as_argument w)) dataset
     = heap w dataset
  /\ (forall df i j,
        positions (columns df) id_column_name 0 = [i] ->
        positions (columns df) campaign_column_name 0 = [j] ->
        loc_columns df [id_column_name; campaign_column_name]
        = Ok {| columns := [id_column_name; campaign_column_name];
                rows := map (fun r => (fst r, [cell (snd r) i; cell (snd r) j]))
                          (rows df) |}).
Proof.
  assert (Hheap : keeps_heap (generate_flowcodes repr_container client_id
                    id_column_name campaign_column_name redirect_url dataset
                    smart_rules parent_dir pass_id_as_argument)).
  { unfold generate_flowcodes.
    apply keeps_heap_bind; [intros w0; reflexivity|]. intros table.
    apply keeps_heap_bind; [apply keeps_heap_lift|]. intros _.
    apply keeps_heap_bind;
      [destruct parent_dir; [intros w0; reflexivity | apply keeps_heap_ret]|].
    intros parent_dir'.
    apply keeps_heap_bind; [apply keeps_heap_lift|]. intros df.
    apply keeps_heap_bind; [apply keeps_heap_lift|]. intros campaigns.
    apply keeps_heap_bind; [apply keeps_heap_lift|]. intros _.
    apply keeps_heap_bind.
    { unfold _generate_campaigns. apply keeps_heap_bind;
        [apply keeps_heap_campaigns_loop | intros _; apply keeps_heap_ret]. }
    intros _.
    apply keeps_heap_bind; [apply keeps_heap_lift|]. intros flowcodes.
    apply keeps_heap_bind; [apply keeps_heap_urls_loop|]. intros responses.
    apply keeps_heap_bind; [apply keeps_heap_lift|]. intros generated_urls.
    apply keeps_heap_bind; [apply keeps_heap_generate_svgs|]. intros _.
    apply keeps_heap_ret. }
  split; [apply Hheap|]. split; [now rewrite (Hheap w)|].
  intros df i j Hi Hj. unfold loc_columns. cbn [select_positions].
  rewrite Hi, Hj. cbn [rbind app map].
  destruct (positions_nth (columns df) id_column_name 0 i) as [_ Hni];
    [rewrite Hi; now left|].
  destruct (positions_nth (columns df) campaign_column_name 0 j) as [_ Hnj];
    [rewrite Hj; now left|].
  rewrite Nat.sub_0_r in Hni, Hnj. rewrite Hni, Hnj. reflexivity.
Qed.

Lemma C10_caller_table_unchanged_witness :
  heap (fst (generate_flowcodes Examples.repr_any Examples.client "id" "campaign"
               "http://example.com" 0 [] EmptyString true
               (Examples.start Examples.friendly
                  (ODataFrame Examples.scenario_table) Examples.home))) 0%nat
  = ODataFrame Examples.scenario_table
  /\ loc_columns Examples.scenario_table ["campaign"; "id"]
     = Ok {| columns := ["campaign"; "id"];
             rows := [(VInt 0, [VStr "A"; VStr "x1"]);
                      (VInt 1, [VStr "A"; VStr "x2"])] |}.
Proof.
  split.
  - exact (proj1 (proj2 (C10_caller_table_unchanged Examples.repr_any
                           Examples.client "id" "campaign" "http://example.com" 0
                           [] EmptyString true
                           (Examples.start Examples.friendly
                              (ODataFrame Examples.scenario_table) Examples.home)))).
  - exact (proj2 (proj2 (C10_caller_table_unchanged Examples.repr_any
                           Examples.client "campaign" "id" "http://example.com" 0
                           [] EmptyString true
                           (Examples.start Examples.friendly
                              (ODataFrame Examples.scenario_table) Examples.home)))
             Examples.scenario_table 1%nat 0%nat eq_refl eq_refl).
Defined.

(** * Further properties of the stages *)

(** ** Validation, in full *)

Lemma positions_col_in (cols : list string) (name : string) (k : nat) :
  positions cols name k <> [] <-> col_in name cols = true.
Proof.
  revert k. induction cols as [|c cols IH]; intros k; simpl.
  - split; [congruence | discriminate].
  - rewrite (String.eqb_sym name c).
    destruct (String.eqb c name); simpl.
    + split; [reflexivity | discriminate].
    + apply IH.
Qed.

(** X1.  [_error_checking] lets through exactly the calls whose client id is
    a string matching the pattern in full and whose dataset is a DataFrame
    that carries both column labels. *)
Theorem X1_error_checking_accepts_iff (client_id : value) (dataset : pyobj)
    (id_column_name campaign_column_name : string) :
  _error_checking client_id dataset id_column_name campaign_column_name = Ok tt
  <-> client_id_accepted client_id = true
      /\ exists df,
           dataset = ODataFrame df
           /\ col_in id_column_name (columns df) = true
           /\ col_in campaign_column_name (columns df) = true.
Proof.
  unfold _error_checking, client_id_accepted.
  destruct client_id as [s| |].
  - destruct (Re.fullmatch client_id_regex s); simpl.
    + destruct dataset as [df|t].
      * destruct (col_in id_column_name (columns df)) eqn:Hi; simpl.
        -- destruct (col_in campaign_column_name (columns df)) eqn:Hc; simpl.
           ++ split; [intros _|reflexivity]. split; [reflexivity|]. exists df. auto.
           ++ split; [discriminate|]. intros (_ & df' & [= <-] & _ & H). congruence.
        -- split; [discriminate|]. intros (_ & df' & [= <-] & H & _). congruence.
      * split; [discriminate|]. intros (_ & df' & H & _). discriminate.
    + split; [discriminate | intros [H _]; discriminate].
  - split; [discriminate | intros [H _]; discriminate].
  - split; [discriminate | intros [H _]; discriminate].
Qed.

Lemma X1_error_checking_accepts_iff_witness :
  _error_checking Examples.client (ODataFrame Examples.scenario_table) "id" "campaign"
  = Ok tt.
Proof.
  apply (proj2 (X1_error_checking_accepts_iff Examples.client
                  (ODataFrame Examples.scenario_table) "id" "campaign")).
  split; [reflexivity|]. exists Examples.scenario_table. auto.
Defined.

(** X2.  Each violation has its own message, and the checks come in a fixed
    order: a client id that is no string, a string of the wrong shape, a
    dataset that is no DataFrame, a missing id column, a missing campaign
    column.  An earlier violation hides the later ones. *)
Theorem X2_error_checking_messages (client_id : value) (s : string)
    (dataset : pyobj) (df : DataFrame) (id_column_name campaign_column_name : string) :
  ((forall t, client_id <> VStr t) ->
   _error_checking client_id dataset id_column_name campaign_column_name
   = Raise (Exception ("The client id must be a string, but is a: "
                       +:+ py_type client_id)))
  /\ (Re.fullmatch client_id_regex s = false ->
      _error_checking (VStr s) dataset id_column_name campaign_column_name
      = Raise (Exception msg_client_id_format))
  /\ (Re.fullmatch client_id_regex s = true ->
      (forall t,
         _error_checking (VStr s) (OOther t) id_column_name campaign_column_name
         = Raise (Exception msg_not_a_frame))
      /\ (col_in id_column_name (columns df) = false ->
          _error_checking (VStr s) (ODataFrame df) id_column_name campaign_column_name
          = Raise (Exception msg_id_column))
      /\ (col_in id_column_name (columns df) = true ->
          col_in campaign_column_name (columns df) = false ->
          _error_checking (VStr s) (ODataFrame df) id_column_name campaign_column_name
          = Raise (Exception msg_campaign_column))).
Proof.
  split; [|split].
  - intros Hns. destruct client_id as [t| |]; [now destruct (Hns t) | reflexivity..].
  - intros Hs. unfold _error_checking. now rewrite Hs.
  - intros Hs. unfold _error_checking. rewrite Hs. cbn [negb].
    split; [reflexivity|]. split.
    + intros Hi. now rewrite Hi.
    + intros Hi Hc. now rewrite Hi, Hc.
Qed.

Lemma X2_error_checking_messages_witness :
  _error_checking (VInt 7) (ODataFrame Examples.scenario_table) "id" "campaign"
  = Raise (Exception "The client id must be a string, but is a: <class 'int'>")
  /\ _error_checking (VStr "D929D46A-7EBA-11EC-90D6-0242AC120003") (OOther "list")
       "id" "campaign"
     = Raise (Exception msg_client_id_format)
  /\ _error_checking Examples.client (ODataFrame Examples.scenario_table)
       "ad_id" "xyz_campaign_id"
     = Raise (Exception msg_id_column)
  /\ _error_checking Examples.client (ODataFrame Examples.scenario_table)
       "id" "xyz_campaign_id"
     = Raise (Exception msg_campaign_column).
Proof.
  split; [|split; [|split]].
  - apply (proj1 (X2_error_checking_messages (VInt 7) EmptyString
                    (ODataFrame Examples.scenario_table) Examples.scenario_table
                    "id" "campaign")).
    discriminate.
  - apply (proj1 (proj2 (X2_error_checking_messages VNaN
                           "D929D46A-7EBA-11EC-90D6-0242AC120003" (OOther "list")
                           Examples.scenario_table "id" "campaign"))).
    reflexivity.
  - apply (proj2 (proj2 (X2_error_checking_messages VNaN
                           "d929d46a-7eba-11ec-90d6-0242ac120003" (OOther "list")
                           Examples.scenario_table "ad_id" "xyz_campaign_id")));
      reflexivity.
  - apply (proj2 (proj2 (X2_error_checking_messages VNaN
                           "d929d46a-7eba-11ec-90d6-0242ac120003" (OOther "list")
                           Examples.scenario_table "id" "xyz_campaign_id")));
      reflexivity.
Defined.

Lemma string_append_empty (a : string) : a +:+ EmptyString = a.
Proof.
  induction a as [|c a IH]; [reflexivity|].
  change (String c (a +:+ EmptyString) = String c a). now rewrite IH.
Qed.

Lemma eat_split (c : Re.class) (n : nat) (s s' : string) :
  Re.eat c n s = Some s' <->
  exists g, s = g +:+ s' /\ String.length g = n /\ all_in c g = true.
Proof.
  revert s. induction n as [|n IH]; intros s; simpl.
  - split.
    + intros [= <-]. exists EmptyString. auto.
    + intros (g & -> & Hl & _). destruct g; [reflexivity | discriminate].
  - destruct s as [|a s].
    + split; [discriminate|]. intros (g & Hs & Hl & _).
      destruct g; discriminate.
    + destruct (Re.in_class c a) eqn:Ha.
      * rewrite IH. split.
        -- intros (g & -> & Hl & Hall). exists (String a g). simpl.
           rewrite Hl, Ha, Hall. auto.
        -- intros (g & Hs & Hl & Hall). destruct g as [|b g]; [discriminate|].
           simpl in Hs, Hl, Hall. injection Hs as <- ->. injection Hl as Hl.
           apply andb_true_iff in Hall. exists g. tauto.
      * split; [discriminate|]. intros (g & Hs & Hl & Hall).
        destruct g as [|b g]; [discriminate|].
        simpl in Hs, Hall. injection Hs as <- _. rewrite Ha in Hall. discriminate.
Qed.

Lemma fullmatch_rep (c : Re.class) (n : nat) (r : list Re.token) (s : string) :
  Re.fullmatch (Re.Rep c n :: r) s = true <->
  exists g s', s = g +:+ s' /\ String.length g = n /\ all_in c g = true
               /\ Re.fullmatch r s' = true.
Proof.
  cbn [Re.fullmatch]. split.
  - destruct (Re.eat c n s) as [s'|] eqn:He; [|discriminate].
    intros Hr. apply eat_split in He. destruct He as (g & Hs & Hl & Hall).
    exists g, s'. auto.
  - intros (g & s' & Hs & Hl & Hall & Hr).
    assert (He : Re.eat c n s = Some s') by (apply eat_split; eauto).
    now rewrite He.
Qed.

Lemma fullmatch_lit (a : ascii) (r : list Re.token) (s : string) :
  Re.fullmatch (Re.Lit a :: r) s = true <->
  exists s', s = String a s' /\ Re.fullmatch r s' = true.
Proof.
  cbn [Re.fullmatch]. destruct s as [|b s]; [split; [discriminate | intros (? & [=] & _)]|].
  destruct (Ascii.eqb a b) eqn:E; simpl.
  - apply Ascii.eqb_eq in E. subst. split; [eauto | now intros (s' & [= <-] & H)].
  - split; [discriminate|]. intros (s' & [= <- <-] & _).
    rewrite Ascii.eqb_refl in E. discriminate.
Qed.

Lemma fullmatch_nil (s : string) : Re.fullmatch [] s = true <-> s = EmptyString.
Proof. destruct s; simpl; split; congruence. Qed.

(** X3.  The client ids that pass are exactly the strings made of five
    groups of 8, 4, 4, 4 and 12 characters from [a-z0-9] with a hyphen
    between neighbours; all of them are 36 characters long. *)
Theorem X3_client_id_shape (s : string) :
  (Re.fullmatch client_id_regex s = true <->
   exists g1 g2 g3 g4 g5,
     s = g1 +:+ "-" +:+ g2 +:+ "-" +:+ g3 +:+ "-" +:+ g4 +:+ "-" +:+ g5
     /\ id_group 8 g1 /\ id_group 4 g2 /\ id_group 4 g3 /\ id_group 4 g4
     /\ id_group 12 g5)
  /\ (Re.fullmatch client_id_regex s = true -> String.length s = 36%nat).
Proof.
  assert (Hshape : Re.fullmatch client_id_regex s = true <->
            exists g1 g2 g3 g4 g5,
              s = g1 +:+ "-" +:+ g2 +:+ "-" +:+ g3 +:+ "-" +:+ g4 +:+ "-" +:+ g5
              /\ id_group 8 g1 /\ id_group 4 g2 /\ id_group 4 g3 /\ id_group 4 g4
              /\ id_group 12 g5).
  { unfold client_id_regex, Re.groups, id_group. split.
    - intros H.
      apply fullmatch_rep in H. destruct H as (g1 & s1 & -> & L1 & A1 & H).
      apply fullmatch_lit in H. destruct H as (t1 & -> & H).
      apply fullmatch_rep in H. destruct H as (g2 & s2 & -> & L2 & A2 & H).
      apply fullmatch_lit in H. destruct H as (t2 & -> & H).
      apply fullmatch_rep in H. destruct H as (g3 & s3 & -> & L3 & A3 & H).
      apply fullmatch_lit in H. destruct H as (t3 & -> & H).
      apply fullmatch_rep in H. destruct H as (g4 & s4 & -> & L4 & A4 & H).
      apply fullmatch_lit in H. destruct H as (t4 & -> & H).
      apply fullmatch_rep in H. destruct H as (g5 & s5 & -> & L5 & A5 & H).
      apply fullmatch_nil in H. subst s5.
      exists g1, g2, g3, g4, g5. rewrite string_append_empty. repeat split; auto.
    - intros (g1 & g2 & g3 & g4 & g5 & -> & [L1 A1] & [L2 A2] & [L3 A3] & [L4 A4]
              & [L5 A5]).
      apply fullmatch_rep. exists g1. eexists. repeat split; eauto.
      apply fullmatch_lit. eexists. split; [reflexivity|].
      apply fullmatch_rep. exists g2. eexists. repeat split; eauto.
      apply fullmatch_lit. eexists. split; [reflexivity|].
      apply fullmatch_rep. exists g3. eexists. repeat split; eauto.
      apply fullmatch_lit. eexists. split; [reflexivity|].
      apply fullmatch_rep. exists g4. eexists. repeat split; eauto.
      apply fullmatch_lit. eexists. split; [reflexivity|].
      apply fullmatch_rep. exists g5, EmptyString.
      rewrite string_append_empty. repeat split; eauto. }
  split; [exact Hshape|].
  intros H. apply Hshape in H.
  destruct H as (g1 & g2 & g3 & g4 & g5 & -> & [L1 _] & [L2 _] & [L3 _] & [L4 _]
                 & [L5 _]).
  rewrite !string_length_append, L1, L2, L3, L4, L5. reflexivity.
Qed.

Lemma X3_client_id_shape_witness :
  String.length "d929d46a-7eba-11ec-90d6-0242ac120003" = 36%nat.
Proof.
  apply (proj2 (X3_client_id_shape "d929d46a-7eba-11ec-90d6-0242ac120003")).
  reflexivity.
Defined.

(** ** The whole run: what validation and the column selection stop *)

(** X4.  Whatever [_error_checking] raises is what [generate_flowcodes]
    raises, with the world as it was: nothing was requested, nothing
    written. *)
Theorem X4_validation_failure_is_first (repr_container : json -> string)
    (client_id : value) (id_column_name campaign_column_name redirect_url : string)
    (dataset : nat) (smart_rules : dict json) (parent_dir : string)
    (pass_id_as_argument : bool) (w : world) (e : exn) :
  _error_checking client_id (heap w dataset) id_column_name campaign_column_name
  = Raise e ->
  generate_flowcodes repr_container client_id id_column_name campaign_column_name
    redirect_url dataset smart_rules parent_dir pass_id_as_argument w
  = (w, Raise e).
Proof.
  intros H. unfold generate_flowcodes, bind, deref, lift. cbn beta iota.
  now rewrite H.
Qed.

Lemma X4_validation_failure_is_first_witness :
  generate_flowcodes Examples.repr_any Examples.client "ad_id" "campaign"
    "http://example.com" 0 [] EmptyString true
    (Examples.start Examples.friendly (ODataFrame Examples.scenario_table)
       Examples.home)
  = (Examples.start Examples.friendly (ODataFrame Examples.scenario_table)
       Examples.home,
     Raise (Exception msg_id_column)).
Proof.
  apply X4_validation_failure_is_first. reflexivity.
Defined.

Lemma loc_columns_pair (df : DataFrame) (a b : string) (i j : nat) :
  positions (columns df) a 0 = [i] ->
  positions (columns df) b 0 = [j] ->
  loc_columns df [a; b]
  = Ok {| columns := [a; b];
          rows := map (fun r => (fst r, [cell (snd r) i; cell (snd r) j])) (rows df) |}.
Proof.
  intros Hi Hj. unfold loc_columns. cbn [select_positions].
  rewrite Hi, Hj. cbn [rbind app map].
  destruct (positions_nth (columns df) a 0 i) as [_ Hni]; [rewrite Hi; now left|].
  destruct (positions_nth (columns df) b 0 j) as [_ Hnj]; [rewrite Hj; now left|].
  rewrite Nat.sub_0_r in Hni, Hnj. rewrite Hni, Hnj. reflexivity.
Qed.

(** X5.  One label given for both columns passes validation, but the
    selection then yields two columns with that label, [dataset[label]] is
    a DataFrame, and its [unique] does not exist: the run raises
    [AttributeError] with the world untouched. *)
Theorem X5_same_label_for_both_columns (repr_container : json -> string)
    (client_id : value) (label redirect_url : string) (dataset : nat)
    (smart_rules : dict json) (parent_dir : string) (pass_id_as_argument : bool)
    (w : world) (df : DataFrame) (i : nat) :
  client_id_accepted client_id = true ->
  heap w dataset = ODataFrame df ->
  positions (columns df) label 0 = [i] ->
  _error_checking client_id (heap w dataset) label label = Ok tt
  /\ generate_flowcodes repr_container client_id label label redirect_url dataset
       smart_rules parent_dir pass_id_as_argument w
     = (w, Raise (AttributeError "'DataFrame' object has no attribute 'unique'")).
Proof.
  intros Hid Hdf Hi.
  assert (Hcol : col_in label (columns df) = true).
  { apply (positions_col_in _ _ 0). rewrite Hi. discriminate. }
  assert (Hok : _error_checking client_id (heap w dataset) label label = Ok tt).
  { rewrite Hdf. unfold _error_checking, client_id_accepted in *.
    destruct client_id as [s| |]; try discriminate.
    now rewrite Hid, Hcol. }
  split; [exact Hok|].
  unfold generate_flowcodes, bind, deref, lift. cbn beta iota.
  rewrite Hok, Hdf. cbn beta iota.
  assert (Hcwd : forall k : string -> M string,
             (let (w', r) := match parent_dir with
                             | EmptyString => getcwd
                             | String _ _ => ret parent_dir
                             end w in
              match r with Ok a => k a w' | Raise e => (w', Raise e) end)
             = k (match parent_dir with EmptyString => cwd w | _ => parent_dir end) w).
  { intros k. destruct parent_dir; reflexivity. }
  rewrite Hcwd. cbn [as_frame rbind].
  rewrite (loc_columns_pair df label label i i Hi Hi).
  unfold unique_campaigns, getitem_col. cbn [columns positions].
  rewrite String.eqb_refl. reflexivity.
Qed.

Lemma X5_same_label_for_both_columns_witness :
  generate_flowcodes Examples.repr_any Examples.client "campaign" "campaign"
    "http://example.com" 0 [] EmptyString true
    (Examples.start Examples.friendly (ODataFrame Examples.scenario_table)
       Examples.home)
  = (Examples.start Examples.friendly (ODataFrame Examples.scenario_table)
       Examples.home,
     Raise (AttributeError "'DataFrame' object has no attribute 'unique'")).
Proof.
  apply (proj2 (X5_same_label_for_both_columns Examples.repr_any Examples.client
                  "campaign" "http://example.com" 0 [] EmptyString true
                  (Examples.start Examples.friendly
                     (ODataFrame Examples.scenario_table) Examples.home)
                  Examples.scenario_table 1 eq_refl eq_refl eq_refl)).
Defined.

(** ** Campaign creation, in full *)

Lemma campaigns_loop_trace (campaigns : list value) (client_id : value)
    (reserved_urls : bool) (w w' : world) (res : result unit) :
  campaigns_loop campaigns client_id reserved_urls w = (w', res) ->
  exists k delta,
    (k <= length campaigns)%nat
    /\ net_log w' = net_log w ++ delta
    /\ map fst delta
       = map (fun c => campaign_request c client_id reserved_urls) (firstn k campaigns)
    /\ fs w' = fs w
    /\ (res = Ok tt -> k = length campaigns /\ all_tolerated delta)
    /\ (forall e, res = Raise e -> stopped_by delta e).
Proof.
  revert w. induction campaigns as [|c cs IH]; intros w Hrun.
  - injection Hrun as <- <-. exists 0%nat, []. rewrite app_nil_r.
    repeat split; auto; try constructor. discriminate.
  - rewrite campaigns_loop_cons in Hrun. cbn zeta in Hrun.
    set (rq := campaign_request c client_id reserved_urls) in *.
    assert (Hstop : forall rp e,
              server w (net_log w) rq = rp -> tolerated rp = false ->
              e = failure_of rp -> (w', res) = (logged w rq, Raise e) ->
              exists k delta,
                (k <= length (c :: cs))%nat
                /\ net_log w' = net_log w ++ delta
                /\ map fst delta
                   = map (fun c => campaign_request c client_id reserved_urls)
                       (firstn k (c :: cs))
                /\ fs w' = fs w
                /\ (res = Ok tt -> k = length (c :: cs) /\ all_tolerated delta)
                /\ (forall e, res = Raise e -> stopped_by delta e)).
    { intros rp e Hrp Htol He [= -> ->]. exists 1%nat, [(rq, rp)].
      split; [simpl; lia|]. split; [unfold logged; simpl; now rewrite Hrp|].
      split; [reflexivity|]. split; [reflexivity|]. split; [discriminate|].
      intros e' [= <-]. exists [], rq, rp. repeat split; auto. constructor. }
    destruct (server w (net_log w) rq) as [r|msg] eqn:Hr.
    2:{ symmetry in Hrun. now apply (Hstop (NoReply msg) (RequestException msg)). }
    destruct (is_error_status (status_code r) && negb (status_code r =? 409)) eqn:Hbad.
    { symmetry in Hrun. apply (Hstop (Reply r) (HTTPError r)); auto. simpl.
      apply andb_true_iff in Hbad. destruct Hbad as [H1 H2].
      rewrite H1. apply negb_true_iff in H2. now rewrite H2. }
    destruct (IH _ Hrun) as (k & delta & Hk & Hlog & Hreq & Hfs & Hok & Herr).
    assert (Htol : tolerated (Reply r) = true).
    { simpl. destruct (is_error_status (status_code r)), (status_code r =? 409);
        simpl in *; congruence. }
    exists (S k), ((rq, Reply r) :: delta).
    split; [simpl; lia|].
    split; [rewrite Hlog; unfold logged; simpl; now rewrite Hr, <- app_assoc|].
    split; [simpl; now rewrite Hreq|]. split; [exact Hfs|]. split.
    + intros H. destruct (Hok H) as [-> Hall]. split; [reflexivity|].
      constructor; assumption.
    + intros e H. destruct (Herr e H) as (before & rq' & rp' & -> & Hall & Hrest).
      exists ((rq, Reply r) :: before), rq', rp'. split; [reflexivity|].
      split; [constructor; assumption | exact Hrest].
Qed.

(** X6.  [_generate_campaigns] sends the requests of the campaigns in
    order, one each, and stops at the first reply that is neither a
    response without error nor a 409: it returns the campaign list when all
    campaigns went through, and otherwise raises what that last reply
    stands for, an [HTTPError] for a response, the transport's exception
    when there was none.  It never touches a file. *)
Theorem X6_generate_campaigns_trace (campaigns : list value) (client_id : value)
    (id_column_name campaign_column_name : string) (dataset : DataFrame)
    (reserved_urls : bool) (w : world) :
  exists k delta,
    (k <= length campaigns)%nat
    /\ net_log (fst (_generate_campaigns campaigns client_id id_column_name
                       campaign_column_name dataset reserved_urls w))
       = net_log w ++ delta
    /\ map fst delta
       = map (fun c => campaign_request c client_id reserved_urls) (firstn k campaigns)
    /\ fs (fst (_generate_campaigns campaigns client_id id_column_name
                  campaign_column_name dataset reserved_urls w))
       = fs w
    /\ (snd (_generate_campaigns campaigns client_id id_column_name
               campaign_column_name dataset reserved_urls w) = Ok campaigns
        /\ k = length campaigns /\ all_tolerated delta
        \/ exists e,
             snd (_generate_campaigns campaigns client_id id_column_name
                    campaign_column_name dataset reserved_urls w) = Raise e
             /\ stopped_by delta e).
Proof.
  unfold _generate_campaigns, bind.
  destruct (campaigns_loop campaigns client_id reserved_urls w) as [w' res] eqn:Hrun.
  destruct (campaigns_loop_trace _ _ _ _ _ _ Hrun)
    as (k & delta & Hk & Hlog & Hreq & Hfs & Hok & Herr).
  exists k, delta.
  destruct res as [[]|e]; simpl.
  - destruct (Hok eq_refl) as [-> Hall]. repeat split; auto.
  - repeat split; auto. right. exists e. auto.
Qed.

(** ** The URL requests, in full *)

Lemma forallb_no_match (dataset : DataFrame) (j : nat) (campaigns : list value) :
  forallb (fun c => match rows_of_campaign dataset j c with
                    | [] => true
                    | _ => false
                    end) campaigns = true
  <-> forall c r, In c campaigns -> In r (rows dataset) ->
        py_eq (cell (snd r) j) c = false.
Proof.
  rewrite forallb_forall. split.
  - intros H c r Hc Hr. specialize (H c Hc).
    destruct (py_eq (cell (snd r) j) c) eqn:E; [|reflexivity].
    assert (Hin : In r (rows_of_campaign dataset j c)) by (apply filter_In; auto).
    destruct (rows_of_campaign dataset j c); [destruct Hin | discriminate].
  - intros H c Hc.
    destruct (rows_of_campaign dataset j c) as [|r l] eqn:E; [reflexivity|].
    assert (Hin : In r (rows_of_campaign dataset j c)) by (rewrite E; now left).
    apply filter_In in Hin. destruct Hin as [Hr Heq].
    rewrite (H c r Hc Hr) in Heq. discriminate.
Qed.

(** X7.  With the flag cleared, [_preprocess_urls] succeeds exactly on the
    calls where no row of the table belongs to any of the campaigns, and
    then returns one empty sequence per campaign; a single row that belongs
    to a campaign makes it raise [UnboundLocalError]. *)
Theorem X7_flag_false_in_full (campaigns : list value)
    (id_column_name campaign_column_name redirect_url : string)
    (dataset : DataFrame) (j : nat)
    (Hj : positions (columns dataset) campaign_column_name 0 = [j]) :
  ((forall c r, In c campaigns -> In r (rows dataset) ->
      py_eq (cell (snd r) j) c = false) ->
   _preprocess_urls campaigns id_column_name campaign_column_name redirect_url
     dataset false
   = Ok (map (fun _ => []) campaigns))
  /\ (forall c r, In c campaigns -> In r (rows dataset) ->
        py_eq (cell (snd r) j) c = true ->
        _preprocess_urls campaigns id_column_name campaign_column_name redirect_url
          dataset false
        = Raise (UnboundLocalError "id_string")).
Proof.
  rewrite (preprocess_urls_false _ _ _ _ _ j) by assumption. split.
  - intros H. now rewrite (proj2 (forallb_no_match _ _ _) H).
  - intros c r Hc Hr Heq.
    match goal with |- (if ?b then _ else _) = _ => destruct b eqn:Hall end;
      [|reflexivity].
    pose proof (proj1 (forallb_no_match _ _ _) Hall) as Hnone.
    rewrite (Hnone c r Hc Hr) in Heq. discriminate.
Qed.

Lemma X7_flag_false_in_full_witness :
  _preprocess_urls [VNaN] "id" "campaign" "http://example.com" orphan_table false
  = Ok [[]]
  /\ _preprocess_urls [VStr "A"] "id" "campaign" "http://example.com"
       Examples.gap_table false
     = Raise (UnboundLocalError "id_string").
Proof.
  split.
  - apply (proj1 (X7_flag_false_in_full [VNaN] "id" "campaign" "http://example.com"
                    orphan_table 1 eq_refl)).
    intros c r [<- | []] [<- | []]. reflexivity.
  - apply (proj2 (X7_flag_false_in_full [VStr "A"] "id" "campaign"
                    "http://example.com" Examples.gap_table 1 eq_refl)
             (VStr "A") (VInt 0, [VStr "x1"; VStr "A"])).
    + now left.
    + now left.
    + reflexivity.
Defined.

Lemma flowcodes_loop_missing (kinds : list dtype) (frames : list DataFrame)
    (cols : list string) (name redirect_url : string) (st : option string)
    (acc : list (list url_request)) :
  positions cols name 0 = [] ->
  Forall (fun df => columns df = cols) frames ->
  flowcodes_loop kinds frames name redirect_url true st acc
  = if forallb no_rows frames
    then Ok (acc ++ map (fun _ => []) frames)
    else Raise (KeyError name).
Proof.
  intros Hpos Hall. revert st acc.
  induction Hall as [|df frames Hdf Hall IH]; intros st acc; simpl.
  - now rewrite app_nil_r.
  - unfold no_rows at 1. rewrite Hdf.
    destruct (rows df) as [|[index row] rest]; simpl.
    + rewrite IH. destruct (forallb no_rows frames); [|reflexivity].
      now rewrite <- app_assoc.
    + unfold getitem_row_str. now rewrite Hpos.
Qed.

(** X8.  With the flag set and a table that has no column of the id label,
    the first row that belongs to a campaign makes [_preprocess_urls] raise
    [KeyError] for that label; when no row belongs to any campaign the
    missing column goes unnoticed and every campaign gets an empty
    sequence. *)
Theorem X8_missing_id_column (campaigns : list value)
    (id_column_name campaign_column_name redirect_url : string)
    (dataset : DataFrame) (j : nat)
    (Hi : positions (columns dataset) id_column_name 0 = [])
    (Hj : positions (columns dataset) campaign_column_name 0 = [j]) :
  (forall c r, In c campaigns -> In r (rows dataset) ->
     py_eq (cell (snd r) j) c = true ->
     _preprocess_urls campaigns id_column_name campaign_column_name redirect_url
       dataset true
     = Raise (KeyError id_column_name))
  /\ ((forall c r, In c campaigns -> In r (rows dataset) ->
         py_eq (cell (snd r) j) c = false) ->
      _preprocess_urls campaigns id_column_name campaign_column_name redirect_url
        dataset true
      = Ok (map (fun _ => []) campaigns)).
Proof.
  assert (Hrun : _preprocess_urls campaigns id_column_name campaign_column_name
                   redirect_url dataset true
                 = if forallb (fun c => match rows_of_campaign dataset j c with
                                        | [] => true
                                        | _ => false
                                        end) campaigns
                   then Ok (map (fun _ => []) campaigns)
                   else Raise (KeyError id_column_name)).
  { unfold _preprocess_urls.
    rewrite (campaign_data_loop_closed _ _ _ j) by assumption. simpl.
    rewrite (flowcodes_loop_missing _ _ (columns dataset)) by
      (try assumption; apply List.Forall_forall; intros df Hin;
       apply in_map_iff in Hin; destruct Hin as (c & <- & _); reflexivity).
    rewrite forallb_over_map, map_map. reflexivity. }
  rewrite Hrun. split.
  - intros c r Hc Hr Heq.
    match goal with |- (if ?b then _ else _) = _ => destruct b eqn:Hall end;
      [|reflexivity].
    pose proof (proj1 (forallb_no_match _ _ _) Hall) as Hnone.
    rewrite (Hnone c r Hc Hr) in Heq. discriminate.
  - intros H. now rewrite (proj2 (forallb_no_match _ _ _) H).
Qed.

Lemma X8_missing_id_column_witness :
  _preprocess_urls [VStr "A"] "ad_id" "campaign" "http://example.com"
    Examples.scenario_table true
  = Raise (KeyError "ad_id")
  /\ _preprocess_urls [VStr "B"] "ad_id" "campaign" "http://example.com"
       Examples.scenario_table true
     = Ok [[]].
Proof.
  split.
  - apply (proj1 (X8_missing_id_column [VStr "A"] "ad_id" "campaign"
                    "http://example.com" Examples.scenario_table 1 eq_refl eq_refl)
             (VStr "A") (VInt 0, [VStr "x1"; VStr "A"])).
    + now left.
    + now left.
    + reflexivity.
  - apply (proj2 (X8_missing_id_column [VStr "B"] "ad_id" "campaign"
                    "http://example.com" Examples.scenario_table 1 eq_refl eq_refl)).
    intros c r [<- | []] [<- | [<- | []]]; reflexivity.
Defined.

Lemma campaign_data_loop_length (campaigns : list value) (name : string)
    (dataset : DataFrame) (acc parts : list DataFrame) :
  campaign_data_loop campaigns name dataset acc = Ok parts ->
  length parts = (length acc + length campaigns)%nat.
Proof.
  revert acc. induction campaigns as [|c cs IH]; intros acc; simpl.
  - intros [= <-]. lia.
  - destruct (getitem_col dataset name); try discriminate.
    intros H. rewrite (IH _ H), length_app. simpl. lia.
Qed.

Lemma rows_loop_records (kinds : list dtype) (cols : list string)
    (rws : list (value * list value))
    (name redirect_url : string) (flag : bool) (st st' : option string)
    (acc l : list url_request) :
  rows_loop kinds cols rws name redirect_url flag st acc = Ok (st', l) ->
  Forall (well_formed_request redirect_url flag) acc ->
  Forall (well_formed_request redirect_url flag) l.
Proof.
  revert st acc. induction rws as [|[index row] rest IH]; intros st acc; simpl.
  - now intros [= _ <-].
  - destruct flag; simpl.
    + destruct (getitem_row_str kinds cols row name) as [v|e] eqn:Hv; simpl;
        [|discriminate].
      rewrite Hv. simpl.
      intros Hrun Hacc. apply (IH _ _ Hrun).
      apply Forall_app. split; [exact Hacc|]. constructor; [|constructor].
      split; reflexivity.
    + destruct st as [k|]; [|discriminate].
      destruct (getitem_row_str kinds cols row k) as [v|e]; simpl; [|discriminate].
      intros Hrun Hacc. apply (IH _ _ Hrun).
      apply Forall_app. split; [exact Hacc|]. constructor; [|constructor].
      split; reflexivity.
Qed.

Lemma flowcodes_loop_records (kinds : list dtype) (frames : list DataFrame)
    (name redirect_url : string)
    (flag : bool) (st : option string) (acc fl : list (list url_request)) :
  flowcodes_loop kinds frames name redirect_url flag st acc = Ok fl ->
  length fl = (length acc + length frames)%nat
  /\ (Forall (Forall (well_formed_request redirect_url flag)) acc ->
      Forall (Forall (well_formed_request redirect_url flag)) fl).
Proof.
  revert st acc. induction frames as [|df frames IH]; intros st acc; simpl.
  - intros [= <-]. split; [lia | auto].
  - destruct (rows_loop kinds (columns df) (rows df) name redirect_url flag st [])
      as [[st' l]|e] eqn:Hrows; simpl; [|discriminate].
    intros Hrun. destruct (IH _ _ Hrun) as [Hlen Hall].
    split; [rewrite Hlen, length_app; simpl; lia|].
    intros Hacc. apply Hall. apply Forall_app. split; [exact Hacc|].
    constructor; [|constructor].
    apply (rows_loop_records _ _ _ _ _ _ _ _ _ _ Hrows). constructor.
Qed.

Lemma urls_loop_in_range (items : list (nat * list url_request))
    (campaigns : list value) (client_id : value) (smart_rules : dict json)
    (responses : dict response) (w : world) :
  (forall item, In item items -> (fst item < length campaigns)%nat) ->
  snd (urls_loop items campaigns client_id smart_rules responses w)
  <> Raise IndexError.
Proof.
  revert responses w.
  induction items as [|[index val] rest IH]; intros responses w Hrange;
    [discriminate|].
  assert (Hrest : forall item, In item rest -> (fst item < length campaigns)%nat)
    by (intros item Hin; apply Hrange; now right).
  rewrite urls_loop_cons. destruct val as [|u val]; [now apply IH|].
  destruct (nth_error campaigns index) as [c|] eqn:Hc.
  - cbn zeta. destruct (server w (net_log w) _) as [r|msg]; [|discriminate].
    destruct (is_error_status (status_code r)); [|now apply IH].
    destruct (status_code r =? 409); [now apply IH | discriminate].
  - apply nth_error_None in Hc.
    specialize (Hrange (index, u :: val) (or_introl eq_refl)). simpl in Hrange. lia.
Qed.

Lemma enumerate_in_range {A} (l : list A) (item : nat * A) :
  In item (enumerate l) -> (fst item < length l)%nat.
Proof.
  destruct item as [i x]. unfold enumerate. intros Hin.
  apply in_combine_l in Hin. apply in_seq in Hin. simpl. lia.
Qed.

(** X9.  Whenever [_preprocess_urls] succeeds, whatever the table, the
    campaign list and the flag, it returns one sequence per campaign, every
    record has the type "URL", and its url is the redirect target, followed
    by "/id=" and the record's own id when the flag is set.  Because the
    sequences line up with the campaigns, the lookup [campaigns[index]] of
    [_generate_urls] on that result never raises [IndexError]. *)
Theorem X9_preprocess_output_shape (campaigns : list value)
    (id_column_name campaign_column_name redirect_url : string)
    (dataset : DataFrame) (pass_id_as_argument : bool)
    (flowcodes : list (list url_request)) :
  _preprocess_urls campaigns id_column_name campaign_column_name redirect_url
    dataset pass_id_as_argument = Ok flowcodes ->
  length flowcodes = length campaigns
  /\ Forall (Forall (well_formed_request redirect_url pass_id_as_argument)) flowcodes
  /\ forall client_id smart_rules w,
       snd (_generate_urls flowcodes campaigns client_id smart_rules w)
       <> Raise IndexError.
Proof.
  unfold _preprocess_urls.
  destruct (campaign_data_loop campaigns campaign_column_name dataset [])
    as [parts|e] eqn:Hparts; simpl; [|discriminate].
  intros Hrun.
  destruct (flowcodes_loop_records _ _ _ _ _ _ _ _ Hrun) as [Hlen Hall].
  apply campaign_data_loop_length in Hparts. simpl in Hlen, Hparts.
  assert (Hl : length flowcodes = length campaigns) by lia.
  split; [exact Hl|]. split; [apply Hall; constructor|].
  intros client_id smart_rules w. unfold _generate_urls.
  apply urls_loop_in_range. intros item Hin.
  rewrite <- Hl. now apply enumerate_in_range.
Qed.

Lemma X9_preprocess_output_shape_witness :
  length [[ {| id := "x1"; url_type := "URL"; url := "http://example.com/id=x1" |};
            {| id := "x2"; url_type := "URL"; url := "http://example.com/id=x2" |} ]]
  = length [VStr "A"].
Proof.
  apply (X9_preprocess_output_shape [VStr "A"] "id" "campaign" "http://example.com"
           Examples.scenario_table true).
  reflexivity.
Defined.

(** ** Submission, in full *)

Lemma urls_loop_trace (items : list (nat * list url_request))
    (campaigns : list value) (client_id : value) (smart_rules : dict json)
    (responses : dict response) (w w' : world) (res : result (dict response)) :
  urls_loop items campaigns client_id smart_rules responses w = (w', res) ->
  exists delta,
    net_log w' = net_log w ++ delta
    /\ fs w' = fs w
    /\ (forall responses', res = Ok responses' ->
        all_tolerated delta
        /\ map fst delta
           = map (request_of_item campaigns client_id smart_rules)
               (List.filter has_urls items))
    /\ (forall e, res = Raise e ->
        (e = IndexError /\ all_tolerated delta) \/ stopped_by delta e).
Proof.
  revert responses w.
  induction items as [|[index val] rest IH]; intros responses w Hrun.
  - injection Hrun as <- <-. exists []. rewrite app_nil_r.
    split; [reflexivity|]. split; [reflexivity|]. split; [|discriminate].
    intros _ _. split; [constructor | reflexivity].
  - rewrite urls_loop_cons in Hrun.
    destruct val as [|u val]; [exact (IH _ _ Hrun)|].
    change (List.filter has_urls ((index, u :: val) :: rest))
      with ((index, u :: val) :: List.filter has_urls rest).
    destruct (nth_error campaigns index) as [c|] eqn:Hc.
    2:{ injection Hrun as <- <-. exists []. rewrite app_nil_r.
        split; [reflexivity|]. split; [reflexivity|]. split; [discriminate|].
        intros e [= <-]. left. split; [reflexivity | constructor]. }
    cbn zeta in Hrun.
    assert (Hreq : request_of_item campaigns client_id smart_rules (index, u :: val)
                   = codes_request client_id c (u :: val) smart_rules).
    { unfold request_of_item. simpl. now rewrite (nth_error_nth _ _ _ Hc). }
    set (rq := codes_request client_id c (u :: val) smart_rules) in *.
    assert (Hstop : forall rp e,
              server w (net_log w) rq = rp -> tolerated rp = false ->
              e = failure_of rp -> (w', res) = (logged w rq, Raise e) ->
              exists delta,
                net_log w' = net_log w ++ delta
                /\ fs w' = fs w
                /\ (forall responses', res = Ok responses' ->
                    all_tolerated delta
                    /\ map fst delta
                       = map (request_of_item campaigns client_id smart_rules)
                           ((index, u :: val) :: List.filter has_urls rest))
                /\ (forall e, res = Raise e ->
                    (e = IndexError /\ all_tolerated delta) \/ stopped_by delta e)).
    { intros rp e Hrp Htol He [= -> ->]. exists [(rq, rp)].
      split; [unfold logged; simpl; now rewrite Hrp|].
      split; [reflexivity|]. split; [discriminate|].
      intros e' [= <-]. right. exists [], rq, rp. repeat split; auto. constructor. }
    assert (Hgo : forall r resp,
              server w (net_log w) rq = Reply r -> tolerated (Reply r) = true ->
              urls_loop rest campaigns client_id smart_rules resp (logged w rq)
              = (w', res) ->
              exists delta,
                net_log w' = net_log w ++ delta
                /\ fs w' = fs w
                /\ (forall responses', res = Ok responses' ->
                    all_tolerated delta
                    /\ map fst delta
                       = map (request_of_item campaigns client_id smart_rules)
                           ((index, u :: val) :: List.filter has_urls rest))
                /\ (forall e, res = Raise e ->
                    (e = IndexError /\ all_tolerated delta) \/ stopped_by delta e)).
    { intros r resp Hr Htol Hrest.
      destruct (IH _ _ Hrest) as (delta & Hlog & Hfs & Hok & Herr).
      exists ((rq, Reply r) :: delta).
      split; [rewrite Hlog; unfold logged; simpl; now rewrite Hr, <- app_assoc|].
      split; [exact Hfs|]. split.
      - intros responses' H. destruct (Hok _ H) as [Hall Hmap].
        split; [constructor; assumption|]. simpl. now rewrite Hmap, Hreq.
      - intros e H. destruct (Herr e H) as [[-> Hall] | (before & rq' & rp' & -> & Hall & Hrest')].
        + left. split; [reflexivity | constructor; assumption].
        + right. exists ((rq, Reply r) :: before), rq', rp'.
          split; [reflexivity|]. split; [constructor; assumption | exact Hrest']. }
    destruct (server w (net_log w) rq) as [r|msg] eqn:Hr.
    2:{ symmetry in Hrun. now apply (Hstop (NoReply msg) (RequestException msg)). }
    destruct (is_error_status (status_code r)) eqn:Herr.
    + destruct (status_code r =? 409) eqn:H409.
      * apply (Hgo r responses); auto. simpl. now rewrite Herr, H409.
      * symmetry in Hrun. apply (Hstop (Reply r) (HTTPError r)); auto.
        simpl. now rewrite Herr, H409.
    + apply (Hgo r (dict_set responses (py_str c) r)); auto. simpl. now rewrite Herr.
Qed.

(** X10.  [_generate_urls] sends the batch requests of the non-empty
    sequences in order and stops at the first reply that is neither a
    response without error nor a 409, raising what that reply stands for,
    or at a sequence without a campaign, raising [IndexError].  A run that
    returns a mapping has sent exactly one request per non-empty sequence.
    It never touches a file. *)
Theorem X10_generate_urls_trace (flowcodes : list (list url_request))
    (campaigns : list value) (client_id : value) (smart_rules : dict json)
    (w : world) :
  exists delta,
    net_log (fst (_generate_urls flowcodes campaigns client_id smart_rules w))
    = net_log w ++ delta
    /\ fs (fst (_generate_urls flowcodes campaigns client_id smart_rules w)) = fs w
    /\ ((exists responses,
           snd (_generate_urls flowcodes campaigns client_id smart_rules w)
           = Ok responses
           /\ all_tolerated delta
           /\ map fst delta
              = map (request_of_item campaigns client_id smart_rules)
                  (List.filter has_urls (enumerate flowcodes)))
        \/ (exists e,
              snd (_generate_urls flowcodes campaigns client_id smart_rules w)
              = Raise e
              /\ ((e = IndexError /\ all_tolerated delta) \/ stopped_by delta e))).
Proof.
  unfold _generate_urls.
  destruct (urls_loop (enumerate flowcodes) campaigns client_id smart_rules [] w)
    as [w' res] eqn:Hrun.
  destruct (urls_loop_trace _ _ _ _ _ _ _ _ Hrun) as (delta & Hlog & Hfs & Hok & Herr).
  exists delta. split; [exact Hlog|]. split; [exact Hfs|].
  destruct res as [responses|e]; simpl.
  - left. exists responses. destruct (Hok _ eq_refl). auto.
  - right. exists e. auto.
Qed.

(** X11.  When the sequences before a non-empty one went through and the
    campaign list has no entry at its index, [_generate_urls] raises
    [IndexError] there: the earlier requests stay sent, none is sent for
    this sequence or a later one. *)
Theorem X11_sequence_without_campaign (flowcodes : list (list url_request))
    (pre post : list (nat * list url_request)) (index : nat)
    (val : list url_request) (campaigns : list value) (client_id : value)
    (smart_rules : dict json) (w w1 : world) (responses1 : dict response)
    (Hsplit : enumerate flowcodes = pre ++ (index, val) :: post)
    (Hpre : urls_loop pre campaigns client_id smart_rules [] w = (w1, Ok responses1))
    (Hval : val <> [])
    (Hc : (length campaigns <= index)%nat) :
  _generate_urls flowcodes campaigns client_id smart_rules w = (w1, Raise IndexError).
Proof.
  unfold _generate_urls. rewrite Hsplit, urls_loop_app, Hpre, urls_loop_cons.
  destruct val as [|u val]; [congruence|].
  apply nth_error_None in Hc. now rewrite Hc.
Qed.

Lemma X11_sequence_without_campaign_witness :
  _generate_urls example_flowcodes [VStr "A"] Examples.client []
    (Examples.start Examples.friendly (ODataFrame Examples.scenario_table)
       Examples.home)
  = (logged (Examples.start Examples.friendly (ODataFrame Examples.scenario_table)
               Examples.home)
       (codes_request Examples.client (VStr "A") (hd [] example_flowcodes) []),
     Raise IndexError).
Proof.
  apply (X11_sequence_without_campaign example_flowcodes
           [(0%nat, hd [] example_flowcodes)] [] 1 (nth 1 example_flowcodes [])
           [VStr "A"] Examples.client []
           (Examples.start Examples.friendly (ODataFrame Examples.scenario_table)
              Examples.home)
           _ [("A", Examples.ok_response
                      (JList [Examples.code_of "x1" "http://img/x1";
                              Examples.code_of "x2" "http://img/x2"]))]).
  - reflexivity.
  - reflexivity.
  - discriminate.
  - simpl. lia.
Defined.

(** ** The responses, in full *)

Lemma dict_set_fresh {V} (d : dict V) (k : string) (v : V) :
  ~ In k (keys d) -> dict_set d k v = d ++ [(k, v)].
Proof.
  induction d as [|[k' v'] d IH]; simpl; [reflexivity|].
  intros Hk. destruct (String.eqb k' k) eqn:E.
  - apply String.eqb_eq in E. tauto.
  - rewrite IH by tauto. reflexivity.
Qed.

Lemma dict_append_last {V} (d : dict (list V)) (k : string) (l : list V) (x : V) :
  ~ In k (keys d) -> dict_append (d ++ [(k, l)]) k x = d ++ [(k, l ++ [x])].
Proof.
  induction d as [|[k' l'] d IH]; simpl.
  - now rewrite String.eqb_refl.
  - intros Hk. destruct (String.eqb k' k) eqn:E.
    + apply String.eqb_eq in E. tauto.
    + rewrite IH by tauto. reflexivity.
Qed.

Lemma entries_loop_closed (urls : list json) (campaign : string)
    (acc : dict (list generated_url)) (gs0 : list generated_url) :
  ~ In campaign (keys acc) ->
  entries_loop urls campaign (acc ++ [(campaign, gs0)])
  = let* gs := collect_entries urls in Ok (acc ++ [(campaign, gs0 ++ gs)]).
Proof.
  intros Hk. revert gs0. induction urls as [|u urls IH]; intros gs0; simpl.
  - now rewrite app_nil_r.
  - unfold entry_of.
    destruct (getitem_key u "id") as [i|]; simpl; [|reflexivity].
    destruct (getitem_key u "images") as [images|]; simpl; [|reflexivity].
    destruct (getitem_first images) as [image|]; simpl; [|reflexivity].
    destruct (getitem_key image "url") as [q|]; simpl; [|reflexivity].
    rewrite dict_append_last by assumption. rewrite IH.
    destruct (collect_entries urls) as [gs|]; simpl; [|reflexivity].
    now rewrite <- app_assoc.
Qed.

Lemma generated_loop_closed (items : dict json) (acc : dict (list generated_url)) :
  List.NoDup (keys acc ++ keys items) ->
  generated_loop items acc = generated_spec items acc.
Proof.
  revert acc. induction items as [|[c j] items IH]; intros acc Hnd; [reflexivity|].
  cbn [generated_loop generated_spec]. unfold entries_of_json.
  assert (Hfresh : ~ In c (keys acc)).
  { simpl in Hnd. apply NoDup_remove_2 in Hnd. intros Hin. apply Hnd.
    apply in_or_app. now left. }
  rewrite dict_set_fresh by assumption.
  destruct (py_iter j) as [l|]; simpl; [|reflexivity].
  rewrite entries_loop_closed by assumption.
  destruct (collect_entries l) as [gs|]; simpl; [|reflexivity].
  apply IH. unfold keys. rewrite map_app. simpl. rewrite <- app_assoc. exact Hnd.
Qed.

Lemma readable_loop_closed (items : dict response) (acc : dict json) :
  List.NoDup (keys acc ++ keys items) ->
  readable_loop items acc
  = if forallb (fun kr => match json_body (snd kr) with
                          | Some _ => true
                          | None => false
                          end) items
    then Ok (acc ++ map (fun kr => (fst kr, json_or_null (snd kr))) items)
    else Raise JSONDecodeError.
Proof.
  revert acc. induction items as [|[c r] items IH]; intros acc Hnd; simpl.
  - now rewrite app_nil_r.
  - unfold response_json, json_or_null.
    destruct (json_body r) as [j|]; simpl; [|reflexivity].
    assert (Hfresh : ~ In c (keys acc)).
    { simpl in Hnd. apply NoDup_remove_2 in Hnd. intros Hin. apply Hnd.
      apply in_or_app. now left. }
    rewrite dict_set_fresh by assumption. rewrite IH.
    + destruct (forallb _ items); [|reflexivity]. now rewrite <- app_assoc.
    + unfold keys. rewrite map_app. simpl. rewrite <- app_assoc. exact Hnd.
Qed.

Lemma generated_spec_ok (items : dict response) (acc : dict (list generated_url)) :
  (forall kr, In kr items -> exists gs, body_entries (snd kr) = Ok gs) ->
  generated_spec (map (fun kr => (fst kr, json_or_null (snd kr))) items) acc
  = Ok (acc ++ map (fun kr => (fst kr, entries_or_none (snd kr))) items).
Proof.
  revert acc. induction items as [|[c r] items IH]; intros acc Hall.
  - simpl. now rewrite app_nil_r.
  - destruct (Hall (c, r) (or_introl eq_refl)) as [gs Hgs]. simpl in Hgs.
    cbn [map generated_spec fst snd].
    assert (Hj : entries_of_json (json_or_null r) = Ok gs).
    { unfold body_entries, response_json, json_or_null in *.
      destruct (json_body r); [exact Hgs | discriminate]. }
    unfold entries_or_none at 1. rewrite Hgs, Hj. cbn [rbind].
    rewrite IH by (intros kr Hin; apply Hall; now right).
    now rewrite <- app_assoc.
Qed.

(** X12.  For a mapping with distinct campaign names in which every
    response decodes to a sequence of objects that each carry an id and a
    first image with a url, [_process_url_responses] keeps the campaigns in
    their order and gives each the entries of its own response, in the
    order of the body. *)
Theorem X12_process_well_formed (responses : dict response) :
  List.NoDup (keys responses) ->
  (forall kr, In kr responses -> exists gs, body_entries (snd kr) = Ok gs) ->
  _process_url_responses responses
  = Ok (map (fun kr => (fst kr, entries_or_none (snd kr))) responses).
Proof.
  intros Hnd Hall. unfold _process_url_responses.
  rewrite readable_loop_closed by exact Hnd.
  assert (Hdec : forallb (fun kr => match json_body (snd kr) with
                                    | Some _ => true
                                    | None => false
                                    end) responses = true).
  { apply forallb_forall. intros kr Hin. destruct (Hall kr Hin) as [gs Hgs].
    unfold body_entries, response_json in Hgs.
    destruct (json_body (snd kr)); [reflexivity | discriminate]. }
  rewrite Hdec. cbn [rbind app].
  rewrite generated_loop_closed.
  - now rewrite generated_spec_ok.
  - simpl. unfold keys. rewrite map_map. exact Hnd.
Qed.

Lemma X12_process_well_formed_witness :
  _process_url_responses
    [("A", Examples.ok_response (JList [Examples.code_of "x1" "http://img/x1"]));
     ("B", Examples.ok_response (JList []))]
  = Ok [("A", [ {| obj_id := JVal (VStr "x1"); qr_code := JVal (VStr "http://img/x1") |} ]);
        ("B", [])].
Proof.
  apply (X12_process_well_formed
           [("A", Examples.ok_response (JList [Examples.code_of "x1" "http://img/x1"]));
            ("B", Examples.ok_response (JList []))]).
  - repeat constructor; simpl; intuition discriminate.
  - intros kr [<- | [<- | []]]; eexists; reflexivity.
Defined.

(** X13.  One response whose body is no JSON is enough: for a mapping with
    distinct campaign names [_process_url_responses] raises
    [JSONDecodeError] and gives nothing for any campaign, the ones with
    good bodies included. *)
Theorem X13_one_undecodable_body (responses : dict response) (campaign : string)
    (r : response) :
  List.NoDup (keys responses) ->
  In (campaign, r) responses ->
  json_body r = None ->
  _process_url_responses responses = Raise JSONDecodeError.
Proof.
  intros Hnd Hin Hbody. unfold _process_url_responses.
  rewrite readable_loop_closed by exact Hnd.
  match goal with |- context [forallb ?f responses] =>
    destruct (forallb f responses) eqn:Hall end; [|reflexivity].
  rewrite forallb_forall in Hall. specialize (Hall _ Hin). simpl in Hall.
  rewrite Hbody in Hall. discriminate.
Qed.

Lemma X13_one_undecodable_body_witness :
  _process_url_responses
    [("A", Examples.ok_response (JList [Examples.code_of "x1" "http://img/x1"]));
     ("B", Examples.status_response 200)]
  = Raise JSONDecodeError.
Proof.
  apply (X13_one_undecodable_body _ "B" (Examples.status_response 200)).
  - repeat constructor; simpl; intuition discriminate.
  - simpl. auto.
  - reflexivity.
Defined.

(** ** The image files, in full *)

(** X14.  When the parent directory leads nowhere, [_generate_svgs] raises
    [FileNotFoundError] for the root folder and leaves the world as it was:
    nothing is fetched. *)
Theorem X14_parent_directory_missing (repr_container : json -> string)
    (parent_dir : string) (generated_urls : dict (list generated_url)) (w : world) :
  parent_dir <> EmptyString ->
  stat w parent_dir = Errno ENOENT ->
  _generate_svgs repr_container parent_dir generated_urls w
  = (w, Raise (FileNotFoundError (parent_dir +:+ "/flowcode_images"))).
Proof.
  intros Hne Hparent.
  pose proof (walk_names (fs w) (here w) parent_dir Hne) as Hwalk.
  pose proof (resolve_child (fs w) (here w) parent_dir Hne) as Hchild.
  unfold stat in Hparent.
  assert (Hlost : walk (fs w) (if is_absolute parent_dir then [] else here w)
                    (names parent_dir) = Errno ENOENT).
  { rewrite Hwalk.
    destruct (resolve (fs w) (here w) parent_dir) as [[loc|loc]|k];
      [discriminate | | congruence].
    destruct (fs w !! loc) as [[|bytes]|]; [discriminate | | reflexivity].
    destruct (ends_with_separator parent_dir); discriminate. }
  rewrite Hlost in Hchild.
  rewrite generate_svgs_unfold. cbn zeta.
  unfold stat, mkdir, root_dir_of. now rewrite Hchild.
Qed.

Lemma X14_parent_directory_missing_witness :
  _generate_svgs Examples.repr_any "/home/nobody" example_codes
    (Examples.start Examples.friendly (ODataFrame Examples.scenario_table)
       Examples.home)
  = (Examples.start Examples.friendly (ODataFrame Examples.scenario_table)
       Examples.home,
     Raise (FileNotFoundError "/home/nobody/flowcode_images")).
Proof.
  apply (X14_parent_directory_missing Examples.repr_any "/home/nobody" example_codes);
    [discriminate | vm_compute; reflexivity].
Defined.

Lemma mkdir_kind (p : string) (w w' : world) (e : exn) :
  mkdir p w = (w', Raise e) -> os_or_transport e.
Proof.
  intros H.
  destruct (mkdir_cases _ _ _ _ H) as [[_ (e' & [= <-] & He)] | ([=] & _)].
  exact He.
Qed.

(** One directory: where it is made, and that nothing else changes. *)
Lemma mkdir_step (p : string) (w w' : world) :
  mkdir p w = (w', Ok tt) ->
  exists loc,
    place w' p = Some loc /\ forall l, l <> loc -> fs w' !! l = fs w !! l.
Proof.
  intros H.
  destruct (mkdir_cases _ _ _ _ H)
    as [[_ (e & [=] & _)] | (_ & loc & Hr & Hnone & ->)].
  exists loc. split.
  - unfold place. now rewrite (resolve_le _ _ _ _ (insert_dir_le _ _ Hnone) Hr).
  - intros l Hl. world_simpl. now rewrite lookup_insert_ne by congruence.
Qed.

Lemma download_loop_facts (repr_container : json -> string) (campaign_dir : string)
    (urls : list generated_url) (w w' : world) (res : result unit) :
  download_loop repr_container campaign_dir urls w = (w', res) ->
  (forall e, res = Raise e -> os_or_transport e)
  /\ (res = Ok tt ->
      exists delta,
        net_log w' = net_log w ++ delta
        /\ map fst delta = map (fun e => GET (qr_code e)) urls)
  /\ (forall l,
        fs w' !! l = fs w !! l
        \/ exists e, In e urls
             /\ place w' (file_url_of repr_container campaign_dir (obj_id e)) = Some l).
Proof.
  revert w. induction urls as [|u rest IH]; intros w Hrun.
  - injection Hrun as <- <-. split; [discriminate|]. split; [|now left].
    intros _. exists []. now rewrite app_nil_r.
  - rewrite download_loop_cons in Hrun. cbn zeta in Hrun.
    set (rq := GET (qr_code u)) in *.
    set (p0 := file_url_of repr_container campaign_dir (obj_id u)) in *.
    assert (Hstop : forall ex, os_or_transport ex ->
              (w', res) = (logged w rq, Raise ex) ->
              (forall e, res = Raise e -> os_or_transport e)
              /\ (res = Ok tt ->
                  exists delta,
                    net_log w' = net_log w ++ delta
                    /\ map fst delta = map (fun e => GET (qr_code e)) (u :: rest))
              /\ (forall l,
                    fs w' !! l = fs w !! l
                    \/ exists e, In e (u :: rest)
                         /\ place w' (file_url_of repr_container campaign_dir (obj_id e))
                            = Some l)).
    { intros ex Hex [= -> ->]. split; [now intros e [= <-]|].
      split; [discriminate | now left]. }
    destruct (server w (net_log w) rq) as [r|msg] eqn:Hr;
      [|symmetry in Hrun; now apply (Hstop (RequestException msg))].
    destruct (write_file p0 (content r) (logged w rq)) as [w1 [[]|ex]] eqn:Hwr.
    2:{ destruct (write_file_cases _ _ _ _ _ Hwr)
          as [[-> (e' & [= <-] & He)] | ([=] & _)].
        symmetry in Hrun. now apply (Hstop ex). }
    destruct (download_step _ _ _ _ _ Hr Hwr)
      as (loc & _ & Hlog & Hplace & Hframe & _ & _).
    destruct (download_loop_inv _ _ _ _ _ _ Hrun) as (Hle' & _).
    destruct (IH _ Hrun) as (Hkind & Hgets & Hrest).
    split; [exact Hkind|]. split.
    + intros Hok. destruct (Hgets Hok) as (delta & Hlog' & Hmap).
      exists ((rq, Reply r) :: delta). split.
      * rewrite Hlog', Hlog. now rewrite <- app_assoc.
      * simpl. now rewrite Hmap.
    + intros l. destruct (Hrest l) as [Hsame | (e & He & Hl)].
      * destruct (decide (l = loc)) as [->|Hne].
        -- right. exists u. split; [now left|]. now apply (place_le _ _ _ _ Hle').
        -- left. rewrite Hsame. now apply Hframe.
      * right. exists e. split; [now right | exact Hl].
Qed.

Lemma svgs_loop_facts (repr_container : json -> string) (root_dir : string)
    (items : dict (list generated_url)) (w w' : world) (res : result unit) :
  svgs_loop repr_container root_dir items w = (w', res) ->
  (forall e, res = Raise e -> os_or_transport e)
  /\ (res = Ok tt ->
      exists delta,
        net_log w' = net_log w ++ delta /\ map fst delta = downloads_of items)
  /\ (forall l,
        fs w' !! l = fs w !! l
        \/ exists campaign urls,
             In (campaign, urls) items
             /\ (place w' (campaign_dir_of root_dir campaign) = Some l
                 \/ exists e, In e urls
                      /\ place w' (file_url_of repr_container
                                     (campaign_dir_of root_dir campaign) (obj_id e))
                         = Some l)).
Proof.
  revert w. induction items as [|[c urls] rest IH]; intros w Hrun.
  - injection Hrun as <- <-. split; [discriminate|]. split; [|now left].
    intros _. exists []. now rewrite app_nil_r.
  - rewrite svgs_loop_cons in Hrun.
    destruct (mkdir (campaign_dir_of root_dir c) w) as [w1 r1] eqn:Hmk.
    pose proof (mkdir_log _ _ _ _ Hmk) as Hmk_log.
    destruct r1 as [[]|e1].
    2:{ injection Hrun as <- <-.
        destruct (mkdir_cases _ _ _ _ Hmk) as [[-> _] | ([=] & _)].
        split; [intros e [= <-]; eapply mkdir_kind; eauto|].
        split; [discriminate | now left]. }
    destruct (mkdir_step _ _ _ Hmk) as (loc & Hplace & Hframe).
    destruct (download_loop repr_container (campaign_dir_of root_dir c) urls w1)
      as [w2 r2] eqn:Hdl.
    destruct (download_loop_facts _ _ _ _ _ _ Hdl) as (Hkind2 & Hgets2 & Hrest2).
    destruct (download_loop_inv _ _ _ _ _ _ Hdl) as (Hle2 & _).
    assert (Hupto2 : forall l,
              fs w2 !! l = fs w !! l
              \/ place w2 (campaign_dir_of root_dir c) = Some l
              \/ exists e, In e urls
                   /\ place w2 (file_url_of repr_container
                                  (campaign_dir_of root_dir c) (obj_id e)) = Some l).
    { intros l. destruct (Hrest2 l) as [Hsame | Hfile]; [|now right; right].
      destruct (decide (l = loc)) as [->|Hne].
      - right. left. now apply (place_le _ _ _ _ Hle2).
      - left. rewrite Hsame. now apply Hframe. }
    destruct r2 as [[]|e2].
    2:{ injection Hrun as <- <-. split; [intros e [= <-]; now apply Hkind2|].
        split; [discriminate|]. intros l.
        destruct (Hupto2 l) as [Hsame | Hhere]; [now left|].
        right. exists c, urls. split; [now left | exact Hhere]. }
    destruct (svgs_loop_inv _ _ _ _ _ _ Hrun) as (Hle3 & _).
    destruct (IH _ Hrun) as (Hkind3 & Hgets3 & Hrest3).
    split; [exact Hkind3|]. split.
    + intros Hok. destruct (Hgets2 eq_refl) as (d2 & Hlog2 & Hmap2).
      destruct (Hgets3 Hok) as (d3 & Hlog3 & Hmap3).
      exists (d2 ++ d3). split; [now rewrite Hlog3, Hlog2, Hmk_log, app_assoc|].
      unfold downloads_of in *. simpl. now rewrite map_app, Hmap2, Hmap3.
    + intros l. destruct (Hrest3 l) as [Hsame | (c' & urls' & Hin & Hhere)].
      * destruct (Hupto2 l) as [Hsame2 | [Hdir | (e & He & Hfile)]].
        -- left. now rewrite Hsame.
        -- right. exists c, urls. split; [now left|]. left.
           now apply (place_le _ _ _ _ Hle3).
        -- right. exists c, urls. split; [now left|]. right.
           exists e. split; [exact He|]. now apply (place_le _ _ _ _ Hle3).
      * right. exists c', urls'. split; [now right | exact Hhere].
Qed.

Lemma generate_svgs_facts (repr_container : json -> string) (parent_dir : string)
    (generated_urls : dict (list generated_url)) (w w' : world) (res : result unit) :
  _generate_svgs repr_container parent_dir generated_urls w = (w', res) ->
  (forall e, res = Raise e -> os_or_transport e)
  /\ (res = Ok tt ->
      exists delta,
        net_log w' = net_log w ++ delta /\ map fst delta = downloads_of generated_urls)
  /\ (forall l,
        fs w' !! l = fs w !! l
        \/ exists p,
             target_path repr_container (root_dir_of parent_dir) generated_urls p
             /\ place w' p = Some l).
Proof.
  assert (Hloop : forall w0,
            svgs_loop repr_container (root_dir_of parent_dir) generated_urls w0
            = (w', res) ->
            (forall e, res = Raise e -> os_or_transport e)
            /\ (res = Ok tt ->
                exists delta,
                  net_log w' = net_log w0 ++ delta
                  /\ map fst delta = downloads_of generated_urls)
            /\ (forall l,
                  fs w' !! l = fs w0 !! l
                  \/ exists p,
                       target_path repr_container (root_dir_of parent_dir)
                         generated_urls p
                       /\ place w' p = Some l)).
  { intros w0 Hrun.
    destruct (svgs_loop_facts _ _ _ _ _ _ Hrun) as (Hkind & Hgets & Hrest).
    split; [exact Hkind|]. split; [exact Hgets|].
    intros l. destruct (Hrest l) as [Hsame | (c & urls & Hin & Hhere)]; [now left|].
    right. destruct Hhere as [Hdir | (e & He & Hfile)].
    - exists (campaign_dir_of (root_dir_of parent_dir) c). split; [|exact Hdir].
      right. exists c, urls. auto.
    - exists (file_url_of repr_container (campaign_dir_of (root_dir_of parent_dir) c)
                (obj_id e)).
      split; [|exact Hfile]. right. exists c, urls. split; [exact Hin|].
      right. eauto. }
  rewrite generate_svgs_unfold. cbn zeta.
  destruct (stat w (root_dir_of parent_dir)) as [n|k]; [apply Hloop|].
  destruct (mkdir (root_dir_of parent_dir) w) as [w1 r1] eqn:Hmk.
  pose proof (mkdir_log _ _ _ _ Hmk) as Hmk_log.
  destruct r1 as [[]|e1].
  2:{ intros [= <- <-].
      destruct (mkdir_cases _ _ _ _ Hmk) as [[-> _] | ([=] & _)].
      split; [intros e [= <-]; eapply mkdir_kind; eauto|].
      split; [discriminate | now left]. }
  intros Hrun.
  destruct (mkdir_step _ _ _ Hmk) as (loc & Hplace & Hframe).
  destruct (svgs_loop_inv _ _ _ _ _ _ Hrun) as (Hle & _).
  destruct (Hloop _ Hrun) as (Hkind & Hgets & Hrest).
  split; [exact Hkind|]. split.
  - intros Hok. destruct (Hgets Hok) as (delta & Hlog & Hmap).
    exists delta. split; [now rewrite Hlog, Hmk_log | exact Hmap].
  - intros l. destruct (Hrest l) as [Hsame | Hhere]; [|now right].
    destruct (decide (l = loc)) as [->|Hne].
    + right. exists (root_dir_of parent_dir). split; [now left|].
      now apply (place_le _ _ _ _ Hle).
    + left. rewrite Hsame. now apply Hframe.
Qed.



(** X16.  A successful [_generate_svgs] has sent exactly one request per
    entry, the fetch of its image address, campaign after campaign and
    entry after entry. *)
Theorem X16_one_download_per_entry (repr_container : json -> string)
    (parent_dir : string) (generated_urls : dict (list generated_url))
    (w w' : world) :
  _generate_svgs repr_container parent_dir generated_urls w = (w', Ok tt) ->
  exists delta,
    net_log w' = net_log w ++ delta
    /\ map fst delta = downloads_of generated_urls
    /\ length delta = length (concat (map snd generated_urls)).
Proof.
  intros Hrun. destruct (generate_svgs_facts _ _ _ _ _ _ Hrun) as (_ & Hgets & _).
  destruct (Hgets eq_refl) as (delta & Hlog & Hmap).
  exists delta. split; [exact Hlog|]. split; [exact Hmap|].
  rewrite <- (length_map fst delta), Hmap. unfold downloads_of.
  clear. induction generated_urls as [|[c urls] rest IH]; simpl; [reflexivity|].
  now rewrite !length_app, length_map, IH.
Qed.

Lemma X16_one_download_per_entry_witness :
  exists delta,
    net_log (fst (_generate_svgs Examples.repr_any "/home/user" example_codes
                    (Examples.start Examples.friendly
                       (ODataFrame Examples.scenario_table) Examples.home)))
    = [] ++ delta
    /\ map fst delta
       = [GET (JVal (VStr "http://img/x1")); GET (JVal (VStr "http://img/x2"))]
    /\ length delta = 2%nat.
Proof.
  apply (X16_one_download_per_entry Examples.repr_any "/home/user" example_codes
           (Examples.start Examples.friendly (ODataFrame Examples.scenario_table)
              Examples.home)).
  vm_compute. reflexivity.
Defined.

(** X17.  [_generate_svgs] keeps to its own layout, whatever the outcome: a
    location whose content is not what it was before the run is the place
    that the path of the root folder, of a campaign directory or of an
    entry's file leads to; and nothing is removed, a directory stays a
    directory and a file stays a file. *)
Theorem X17_svgs_touch_only_their_paths (repr_container : json -> string)
    (parent_dir : string) (generated_urls : dict (list generated_url))
    (w : world) (l : list string) :
  (fs (fst (_generate_svgs repr_container parent_dir generated_urls w)) !! l
   <> fs w !! l ->
   exists p,
     target_path repr_container (parent_dir +:+ "/flowcode_images") generated_urls p
     /\ place (fst (_generate_svgs repr_container parent_dir generated_urls w)) p
        = Some l)
  /\ (fs w !! l = Some Dir ->
      fs (fst (_generate_svgs repr_container parent_dir generated_urls w)) !! l
      = Some Dir)
  /\ (forall bytes,
        fs w !! l = Some (File bytes) ->
        exists bytes',
          fs (fst (_generate_svgs repr_container parent_dir generated_urls w)) !! l
          = Some (File bytes')).
Proof.
  destruct (_generate_svgs repr_container parent_dir generated_urls w)
    as [w' res] eqn:Hrun. simpl.
  destruct (generate_svgs_facts _ _ _ _ _ _ Hrun) as (_ & _ & Hframe).
  destruct (generate_svgs_inv _ _ _ _ _ _ Hrun) as (Hle & _).
  split; [|split; [apply (le_dirs _ _ Hle) | apply (le_files _ _ Hle)]].
  intros Hchanged. destruct (Hframe l) as [Hsame | Hp]; [congruence | exact Hp].
Qed.

Lemma X17_svgs_touch_only_their_paths_witness :
  exists p,
    target_path Examples.repr_any ("/home/user" +:+ "/flowcode_images") example_codes p
    /\ place (fst (_generate_svgs Examples.repr_any "/home/user" example_codes
                     (Examples.start Examples.friendly
                        (ODataFrame Examples.scenario_table) Examples.home))) p
       = Some ["home"; "user"; "flowcode_images"; "A"; "x1.svg"].
Proof.
  apply (proj1 (X17_svgs_touch_only_their_paths Examples.repr_any "/home/user"
                  example_codes
                  (Examples.start Examples.friendly
                     (ODataFrame Examples.scenario_table) Examples.home)
                  ["home"; "user"; "flowcode_images"; "A"; "x1.svg"])).
  vm_compute. discriminate.
Defined.

(** ** The whole run *)

Lemma bind_inv {A B} (m : M A) (k : A -> M B) (w w' : world) (res : result B) :
  bind m k w = (w', res) ->
  (exists e, m w = (w', Raise e) /\ res = Raise e)
  \/ (exists a w1, m w = (w1, Ok a) /\ k a w1 = (w', res)).
Proof.
  unfold bind. destruct (m w) as [w1 [a|e]].
  - intros H. right. eauto.
  - intros [= <- <-]. left. eauto.
Qed.


Lemma generate_urls_shape (flowcodes : list (list url_request))
    (campaigns : list value) (client_id : value) (smart_rules : dict json)
    (w w' : world) (res : result (dict response)) :
  _generate_urls flowcodes campaigns client_id smart_rules w = (w', res) ->
  exists delta,
    net_log w' = net_log w ++ delta
    /\ Forall is_batch_post delta /\ fs w' = fs w.
Proof.
  unfold _generate_urls. intros Hrun.
  destruct (urls_loop_log _ _ _ _ _ _ _ _ Hrun) as (delta & Hlog & Hall & _).
  destruct (urls_loop_trace _ _ _ _ _ _ _ _ Hrun) as (delta' & Hlog' & Hfs & _).
  exists delta. split; [exact Hlog|]. split; [|exact Hfs].
  eapply List.Forall_impl; [|exact Hall].
  intros ev (index & val & c & _ & _ & _ & Hev). eexists. exact Hev.
Qed.

Lemma generate_svgs_shape (repr_container : json -> string) (parent_dir : string)
    (generated_urls : dict (list generated_url)) (w w' : world) (res : result unit) :
  _generate_svgs repr_container parent_dir generated_urls w = (w', res) ->
  exists delta,
    net_log w' = net_log w ++ delta
    /\ Forall is_download delta
    /\ (forall e, res = Raise e -> os_or_transport e).
Proof.
  intros Hrun.
  destruct (generate_svgs_inv _ _ _ _ _ _ Hrun) as (_ & (delta & Hlog & Hall) & _).
  destruct (generate_svgs_facts _ _ _ _ _ _ Hrun) as (Hkind & _).
  exists delta. split; [exact Hlog|]. split; [|exact Hkind].
  eapply List.Forall_impl; [|exact Hall].
  intros ev (c & urls & e & _ & _ & Hev). eexists. exact Hev.
Qed.



Lemma generate_flowcodes_valid (repr_container : json -> string)
    (client_id : value) (id_column_name campaign_column_name redirect_url : string)
    (dataset : nat) (smart_rules : dict json) (parent_dir : string)
    (pass_id_as_argument : bool) (w : world) (df : DataFrame) (i j : nat) :
  client_id_accepted client_id = true ->
  heap w dataset = ODataFrame df ->
  positions (columns df) id_column_name 0 = [i] ->
  positions (columns df) campaign_column_name 0 = [j] ->
  id_column_name <> campaign_column_name ->
  campaigns_as_written df campaign_column_name = Ok tt ->
  let frame := {| columns := [id_column_name; campaign_column_name];
                  rows := map (fun r => (fst r, [cell (snd r) i; cell (snd r) j]))
                            (rows df) |} in
  let campaigns := unique (map (fun r => cell (snd r) j) (rows df)) in
  generate_flowcodes repr_container client_id id_column_name campaign_column_name
    redirect_url dataset smart_rules parent_dir pass_id_as_argument w
  = bind (_generate_campaigns campaigns client_id id_column_name
            campaign_column_name frame false)
      (fun _ => after_campaigns repr_container campaigns client_id id_column_name
                  campaign_column_name redirect_url frame smart_rules
                  (output_parent parent_dir w) pass_id_as_argument) w.
Proof.
  intros Hid Hdf Hi Hj Hne Hnames frame campaigns.
  assert (Hci : col_in id_column_name (columns df) = true).
  { apply (positions_col_in _ _ 0). rewrite Hi. discriminate. }
  assert (Hcj : col_in campaign_column_name (columns df) = true).
  { apply (positions_col_in _ _ 0). rewrite Hj. discriminate. }
  assert (Hok : _error_checking client_id (heap w dataset) id_column_name
                  campaign_column_name = Ok tt).
  { rewrite Hdf. unfold _error_checking, client_id_accepted in *.
    destruct client_id as [s| |]; try discriminate.
    now rewrite Hid, Hci, Hcj. }
  unfold generate_flowcodes at 1. unfold bind at 1, deref. cbn beta iota.
  unfold bind at 1, lift at 1. rewrite Hok. cbn beta iota.
  unfold bind at 1.
  assert (Hdir : (match parent_dir with
                  | EmptyString => getcwd
                  | String _ _ => ret parent_dir
                  end) w = (w, Ok (output_parent parent_dir w))).
  { destruct parent_dir; reflexivity. }
  rewrite Hdir. cbn beta iota.
  unfold bind at 1, lift at 1. rewrite Hdf. cbn [as_frame rbind].
  rewrite (loc_columns_pair df _ _ i j Hi Hj). cbn beta iota.
  unfold bind at 1, lift at 1.
  assert (Hcol : getitem_col frame campaign_column_name
                 = OneCol (map (fun r => cell (snd r) j) (rows df))).
  { unfold getitem_col, frame. cbn [columns positions rows].
    apply String.eqb_neq in Hne. rewrite Hne, String.eqb_refl.
    rewrite map_map. reflexivity. }
  assert (Hu : unique_campaigns frame campaign_column_name = Ok campaigns).
  { unfold unique_campaigns. now rewrite Hcol. }
  assert (Hw : campaigns_as_written frame campaign_column_name = Ok tt).
  { unfold campaigns_as_written in *. rewrite Hcol.
    unfold getitem_col in Hnames. now rewrite Hj in Hnames. }
  fold frame. rewrite Hu. cbn beta iota.
  unfold bind at 1, lift at 1. rewrite Hw. cbn beta iota. reflexivity.
Qed.

Lemma after_campaigns_shape (repr_container : json -> string)
    (campaigns : list value) (client_id : value)
    (id_column_name campaign_column_name redirect_url : string)
    (dataset : DataFrame) (smart_rules : dict json) (parent_dir : string)
    (pass_id_as_argument : bool) (w w' : world) (res : result string) :
  after_campaigns repr_container campaigns client_id id_column_name
    campaign_column_name redirect_url dataset smart_rules parent_dir
    pass_id_as_argument w = (w', res) ->
  exists delta,
    net_log w' = net_log w ++ delta
    /\ Forall (fun ev => is_batch_post ev \/ is_download ev) delta.
Proof.
  unfold after_campaigns. intros Hrun.
  apply bind_inv in Hrun.
  destruct Hrun as [(e & H & ->) | (flowcodes & w1 & H1 & Hrun)].
  { injection H as <- _. exists []. rewrite app_nil_r. split; [auto | constructor]. }
  injection H1 as <- _.
  apply bind_inv in Hrun.
  destruct Hrun as [(e & H & ->) | (responses & w3 & H3 & Hrun)].
  { destruct (generate_urls_shape _ _ _ _ _ _ _ H) as (d3 & Hl3 & Ha3 & _).
    exists d3. split; [exact Hl3|].
    eapply List.Forall_impl; [|exact Ha3]. now left. }
  destruct (generate_urls_shape _ _ _ _ _ _ _ H3) as (d3 & Hl3 & Ha3 & _).
  assert (Ha3' : Forall (fun ev => is_batch_post ev \/ is_download ev) d3)
    by (eapply List.Forall_impl; [|exact Ha3]; now left).
  apply bind_inv in Hrun.
  destruct Hrun as [(e & H & ->) | (generated_urls & w4 & H4 & Hrun)].
  { injection H as <- _. exists d3. auto. }
  injection H4 as <- _.
  assert (Hend : forall x, _generate_svgs repr_container parent_dir generated_urls w3
                           = (w', x) ->
            exists delta,
              net_log w' = net_log w ++ delta
              /\ Forall (fun ev => is_batch_post ev \/ is_download ev) delta).
  { intros x H. destruct (generate_svgs_shape _ _ _ _ _ _ H) as (d5 & Hl5 & Ha5 & _).
    exists (d3 ++ d5). split; [now rewrite Hl5, Hl3, app_assoc|].
    apply Forall_app. split; [exact Ha3'|].
    eapply List.Forall_impl; [|exact Ha5]. now right. }
  apply bind_inv in Hrun.
  destruct Hrun as [(e & H & ->) | ([] & w5 & H5 & Hrun)]; [now apply (Hend _ H)|].
  injection Hrun as <- _. now apply (Hend _ H5).
Qed.

(** X19.  For a call that passes validation on a table with one column for
    each of two different labels, whose campaign values read as the table
    gives them, the campaign creations of the run are requests for the
    values of the campaign column, each value once, in the order in which
    the values first appear.  Either every value got its request and every
    reply was gone past, or the run ended with the exception of the first
    reply that was not, which is the last exchange of the run.  Every later
    request is a batch submission or a download. *)
Theorem X19_one_creation_per_campaign (repr_container : json -> string)
    (client_id : value) (id_column_name campaign_column_name redirect_url : string)
    (dataset : nat) (smart_rules : dict json) (parent_dir : string)
    (pass_id_as_argument : bool) (w : world) (df : DataFrame) (i j : nat) :
  client_id_accepted client_id = true ->
  heap w dataset = ODataFrame df ->
  positions (columns df) id_column_name 0 = [i] ->
  positions (columns df) campaign_column_name 0 = [j] ->
  id_column_name <> campaign_column_name ->
  campaigns_as_written df campaign_column_name = Ok tt ->
  let campaigns := unique (map (fun r => cell (snd r) j) (rows df)) in
  let run := generate_flowcodes repr_container client_id id_column_name
               campaign_column_name redirect_url dataset smart_rules
               parent_dir pass_id_as_argument w in
  distinct_keys campaigns
  /\ (forall r, In r (rows df) -> In (cell (snd r) j) campaigns)
  /\ exists k creations later,
       (k <= length campaigns)%nat
       /\ net_log (fst run) = net_log w ++ creations ++ later
       /\ map fst creations
          = map (fun c => campaign_request c client_id false) (firstn k campaigns)
       /\ Forall (fun ev => is_batch_post ev \/ is_download ev) later
       /\ (later <> [] -> k = length campaigns)
       /\ ((k = length campaigns /\ all_tolerated creations)
           \/ (exists e, snd run = Raise e /\ stopped_by creations e /\ later = [])).
Proof.
  intros Hid Hdf Hi Hj Hne Hnames campaigns run.
  split; [apply unique_from_distinct|]. split.
  { intros r Hr. apply unique_covers. apply in_map_iff. eauto. }
  unfold run.
  rewrite (generate_flowcodes_valid _ _ _ _ _ _ _ _ _ _ df i j Hid Hdf Hi Hj Hne Hnames).
  cbv zeta. fold campaigns.
  set (frame := {| columns := [id_column_name; campaign_column_name];
                   rows := map (fun r => (fst r, [cell (snd r) i; cell (snd r) j]))
                             (rows df) |}).
  assert (Hfirst : forall (rest : list value -> M string),
            bind (_generate_campaigns campaigns client_id id_column_name
                    campaign_column_name frame false) rest w
            = match campaigns_loop campaigns client_id false w with
              | (w1, Ok _) => rest campaigns w1
              | (w1, Raise e) => (w1, Raise e)
              end).
  { intros rest. unfold bind, _generate_campaigns, bind.
    destruct (campaigns_loop campaigns client_id false w) as [w1 [[]|e]];
      reflexivity. }
  rewrite Hfirst. clear Hfirst.
  destruct (campaigns_loop campaigns client_id false w) as [w1 r1] eqn:Hrun.
  destruct (campaigns_loop_trace _ _ _ _ _ _ Hrun)
    as (k & delta & Hk & Hlog & Hreq & _ & Hok & Hstop).
  destruct r1 as [[]|e].
  - destruct (Hok eq_refl) as [-> Htol].
    destruct (after_campaigns repr_container campaigns client_id id_column_name
                campaign_column_name redirect_url frame smart_rules
                (output_parent parent_dir w) pass_id_as_argument w1)
      as [w' res] eqn:Hafter.
    destruct (after_campaigns_shape _ _ _ _ _ _ _ _ _ _ _ _ _ Hafter)
      as (later & Hl & Hall).
    exists (length campaigns), delta, later. simpl.
    rewrite Hl, Hlog, <- app_assoc. repeat split; auto.
  - exists k, delta, []. simpl. rewrite app_nil_r.
    split; [exact Hk|]. split; [exact Hlog|]. split; [exact Hreq|].
    split; [constructor|]. split; [intros H; now destruct H|].
    right. exists e. split; [reflexivity|]. split; [now apply Hstop | reflexivity].
Qed.

Lemma X19_one_creation_per_campaign_witness :
  exists k creations later,
    (k <= 1)%nat
    /\ net_log (fst (generate_flowcodes Examples.repr_any Examples.client "id"
                       "campaign" "http://example.com" 0 [] EmptyString true
                       (Examples.start (Examples.refusing 500)
                          (ODataFrame Examples.scenario_table) Examples.home)))
       = [] ++ creations ++ later
    /\ map fst creations
       = map (fun c => campaign_request c Examples.client false)
           (firstn k [VStr "A"])
    /\ Forall (fun ev => is_batch_post ev \/ is_download ev) later
    /\ (later <> [] -> k = 1%nat)
    /\ ((k = 1%nat /\ all_tolerated creations)
        \/ (exists e,
              snd (generate_flowcodes Examples.repr_any Examples.client "id"
                     "campaign" "http://example.com" 0 [] EmptyString true
                     (Examples.start (Examples.refusing 500)
                        (ODataFrame Examples.scenario_table) Examples.home))
              = Raise e
              /\ stopped_by creations e /\ later = [])).
Proof.
  exact (proj2 (proj2 (X19_one_creation_per_campaign Examples.repr_any
                         Examples.client "id" "campaign" "http://example.com" 0 []
                         EmptyString true
                         (Examples.start (Examples.refusing 500)
                            (ODataFrame Examples.scenario_table) Examples.home)
                         Examples.scenario_table 0 1 eq_refl eq_refl eq_refl eq_refl
                         ltac:(discriminate) eq_refl))).
Defined.
